(** * FinderBackend: job/worker geospatial matching and notification core

    A shallow embedding of the request handlers and utility functions of
    the FinderBackend server (Node.js, Express, Mongoose), and the proofs
    of the properties its specification states about them.

    Conventions of the embedding
    - a JavaScript number is an IEEE 754 binary64 value: Rocq's primitive
      [float], whose operations the kernel evaluates and [FloatAxioms]
      specifies;
    - a JavaScript string is a [string] of 8-bit characters (the ASCII part
      of what the server handles);
    - a Date is its time value: an integer count of milliseconds since the
      epoch, or [None] for an Invalid Date; the offset of local time from
      UTC depends on the instant, as the server's time zone has it;
    - a Mongoose collection is the list of its documents in insertion
      order; a document is a record with one field per schema path;
    - a handler is a function from the request and the collections to the
      response and the new collections. *)

From Stdlib Require Import ZArith List Bool Lia String Ascii.
From Stdlib Require Import Sorted Permutation.
From Stdlib Require Import Floats.
Import ListNotations.
Set Warnings "-register-all,-inexact-float".
Open Scope string_scope.
Open Scope list_scope.

(* ================================================================= *)
(** ** JavaScript numbers *)

Module JSNumber.

Local Open Scope float_scope.

(** [x === y] on two numbers. *)
Definition strict_eq (x y : float) : bool := x =? y.

(** [!x] for a number: [0], [-0] and [NaN] are falsy. *)
Definition falsy (x : float) : bool := is_zero x || is_nan x.

(** The closed interval test the specification speaks of:
    [lo <= x <= hi] in the order of the numbers. *)
Definition within (lo hi x : float) : Prop :=
  (lo <=? x) = true /\ (x <=? hi) = true.

Definition withinb (lo hi x : float) : bool := (lo <=? x) && (x <=? hi).

(** The number nearest to an integer (the integer itself up to 2^53). *)
Definition ofZ (z : Z) : float := SF2Prim (binary_normalize prec emax z 0 false).

(** A number that is neither [NaN] nor an infinity. *)
Definition isFinite (x : float) : bool :=
  match Prim2SF x with
  | S754_zero _ | S754_finite _ _ _ => true
  | _ => false
  end.

(** [ToIntegerOrInfinity] on a finite number: the fraction is cut off,
    towards zero. *)
Definition truncate (x : float) : Z :=
  match Prim2SF x with
  | S754_finite s m e =>
      let v := (if 0 <=? e then Zpos m * 2 ^ e else Zpos m / 2 ^ (- e))%Z in
      if s then (- v)%Z else v
  | _ => 0%Z
  end.

End JSNumber.

(* ================================================================= *)
(** ** Raw request values *)

(** What a field of [req.body] can hold once the body parsers have run:
    a JSON scalar or a form string. *)
Inductive JSValue : Type :=
| JSUndefined
| JSNull
| JSBoolean (b : bool)
| JSNum (n : float)
| JSStr (s : string)
| JSObj (str : string).   (* an array or object, with the string it converts to *)

(** [!!v]: [undefined], [null], [false], [0], [-0], [NaN] and the empty
    string are falsy. *)
Definition truthy (v : JSValue) : bool :=
  match v with
  | JSUndefined | JSNull => false
  | JSBoolean b => b
  | JSNum n => negb (JSNumber.falsy n)
  | JSStr s => negb (String.eqb s "")
  | JSObj _ => true
  end.

(** A GeoJSON point as the handlers build it:
    [{ type: 'Point', coordinates: [lng, lat] }]. *)
Record GeoPoint : Type := mkGeoPoint {
  point_type : string;
  coordinates : list float
}.

Section LocationUtils.

(** The decimal-literal reader behind [parseFloat] on a string (longest
    numeric prefix after leading white space, rounded to the nearest
    number, [NaN] when there is none).  It is a JavaScript built-in, not
    code of this repository: the development is parametric in it. *)
Variable parseFloatString : string -> float.

(** [parseFloat(v)]: the argument is converted to a string and read back.
    For a number this returns the number itself ([Number::toString] prints
    digits that identify it), except that [-0] prints as ["0"];
    ["undefined"], ["null"], ["true"] and ["false"] have no numeric
    prefix. *)
Definition parseFloat (v : JSValue) : float :=
  match v with
  | JSNum n => if is_zero n then zero else n
  | JSStr s | JSObj s => parseFloatString s
  | JSUndefined | JSNull | JSBoolean _ => nan
  end.

(** [validateCoordinates] (utils/locationUtils.js). [None] is [null]. *)
Definition validateCoordinates (latitude longitude : JSValue) : option GeoPoint :=
  let lat := parseFloat latitude in
  let lng := parseFloat longitude in
  if (is_nan lat || is_nan lng)%bool then None
  else if ((lat <? -90) || (90 <? lat) || (lng <? -180) || (180 <? lng))%float%bool then None
  else Some {| point_type := "Point"; coordinates := [lng; lat] |}.

End LocationUtils.

(* ================================================================= *)
(** ** JavaScript strings *)

Module JSString.

(** [String.prototype.toLowerCase] on the ASCII range: only [A]-[Z]
    change. *)
Definition lower_ascii (c : ascii) : ascii :=
  let n := nat_of_ascii c in
  if (65 <=? n)%nat && (n <=? 90)%nat then ascii_of_nat (n + 32) else c.

Fixpoint toLowerCase (s : string) : string :=
  match s with
  | EmptyString => EmptyString
  | String c r => String (lower_ascii c) (toLowerCase r)
  end.

(** White space as [trim] sees it (ASCII part): TAB, LF, VT, FF, CR, SP. *)
Definition isWhiteSpace (c : ascii) : bool :=
  let n := nat_of_ascii c in
  ((9 <=? n)%nat && (n <=? 13)%nat) || (n =? 32)%nat.

Fixpoint trimStart (s : string) : string :=
  match s with
  | EmptyString => EmptyString
  | String c r => if isWhiteSpace c then trimStart r else s
  end.

(** [trimEnd]: a character is kept when it is not white space or when
    something is kept after it. *)
Fixpoint trimEnd (s : string) : string :=
  match s with
  | EmptyString => EmptyString
  | String c r =>
      match trimEnd r with
      | EmptyString => if isWhiteSpace c then EmptyString else String c EmptyString
      | r' => String c r'
      end
  end.

Definition trim (s : string) : string := trimEnd (trimStart s).

(** [s.split(sep)] for a one-character separator: the segments between
    the separators, in order; always at least one segment. *)
Fixpoint split (sep : ascii) (s : string) : list string :=
  match s with
  | EmptyString => [EmptyString]
  | String c r =>
      if Ascii.eqb c sep then EmptyString :: split sep r
      else match split sep r with
           | [] => [String c EmptyString]
           | seg :: segs => String c seg :: segs
           end
  end.

(** [parts.join(sep)]. *)
Fixpoint join (sep : string) (parts : list string) : string :=
  match parts with
  | [] => EmptyString
  | [p] => p
  | p :: ps => p ++ sep ++ join sep ps
  end.

(** [parts.slice(1)]. *)
Definition slice1 {A : Type} (parts : list A) : list A := tl parts.

(** [s.includes(sub)]: [sub] occurs in [s] as a contiguous run. *)
Fixpoint includes (sub s : string) : bool :=
  String.prefix sub s ||
  match s with
  | EmptyString => false
  | String _ r => includes sub r
  end.

(** [new RegExp(pattern, 'i').test(s)] for a pattern made of letters,
    digits and underscores only (no regular-expression metacharacter):
    the pattern occurs in [s], letter case ignored. *)
Definition regexp_i_test (pattern s : string) : bool :=
  includes (toLowerCase pattern) (toLowerCase s).

Definition isDigit (c : ascii) : bool :=
  let n := nat_of_ascii c in (48 <=? n)%nat && (n <=? 57)%nat.

Fixpoint digitsValue (acc : Z) (s : string) : option Z :=
  match s with
  | EmptyString => Some acc
  | String c r =>
      if isDigit c
      then digitsValue (10 * acc + Z.of_nat (nat_of_ascii c - 48)) r
      else None
  end.

Section StringToNumber.

(** The reader of the other numeric literals behind [Number] on a string
    (signs, fractions, exponents, [Infinity], the prefixes [0x], [0o]
    and [0b], white space outside the ASCII range around them; [NaN] for
    a string that is no literal).  It is a JavaScript built-in, not code
    of this repository: the development is parametric in it. *)
Variable numericLiteral : string -> float.

(** [Number(s)].  Decimal digits with white space around them, the form
    the fields of an ["HH:MM"] clock time have, are read here: the value
    of the digits, [0] when there is none.  Every other string is left to
    [numericLiteral]. *)
Definition Number (s : string) : float :=
  match digitsValue 0 (trim s) with
  | Some n => JSNumber.ofZ n
  | None => numericLiteral s
  end.

End StringToNumber.

End JSString.

(* ================================================================= *)
(** ** Dates *)

(** ECMAScript's time values and the abstract operations the handlers
    reach through [Date.prototype.setHours] and [getHours]. *)
Module JSDate.

Local Open Scope Z_scope.

(** A Date object's time value; [None] is an Invalid Date ([NaN]). *)
Definition Date : Type := option Z.

Definition msPerSecond : Z := 1000.
Definition msPerMinute : Z := 60000.
Definition msPerHour : Z := 3600000.
Definition msPerDay : Z := 86400000.

Definition Day (t : Z) : Z := t / msPerDay.
Definition HourFromTime (t : Z) : Z := (t / msPerHour) mod 24.
Definition MinFromTime (t : Z) : Z := (t / msPerMinute) mod 60.
Definition SecFromTime (t : Z) : Z := (t / msPerSecond) mod 60.
Definition msFromTime (t : Z) : Z := t mod msPerSecond.

(** [MakeTime]: [NaN] unless the four numbers are finite; their integer
    parts are combined in the arithmetic of the numbers, and an overflow
    makes the date that is built from the result invalid. *)
Definition MakeTime (hour min sec ms : float) : option Z :=
  if JSNumber.isFinite hour && JSNumber.isFinite min
     && JSNumber.isFinite sec && JSNumber.isFinite ms
  then
    let h := JSNumber.ofZ (JSNumber.truncate hour) in
    let m := JSNumber.ofZ (JSNumber.truncate min) in
    let s := JSNumber.ofZ (JSNumber.truncate sec) in
    let milli := JSNumber.ofZ (JSNumber.truncate ms) in
    let t := (((h * 3600000 + m * 60000) + s * 1000) + milli)%float in
    if JSNumber.isFinite t then Some (JSNumber.truncate t) else None
  else None.

(** [MakeDate] of the day of a time value and a time within the day.
    (Both are integers; below 2^53 the sum is the same in the arithmetic
    of the numbers, and a date beyond it is outside the range [TimeClip]
    keeps.) *)
Definition MakeDate (day time : Z) : Z := day * msPerDay + time.

(** [TimeClip]: a time value is at most 8.64e15 ms away from the epoch. *)
Definition TimeClip (t : Z) : Date :=
  if Z.abs t <=? 8640000000000000 then Some t else None.

Section LocalZone.

(** ECMAScript's [LocalTZA(t, isUTC)]: the offset of the server's local
    time from UTC, in milliseconds, at the instant [t] ([isUTC] true) or
    at the local time [t] ([isUTC] false).  It changes where the zone
    changes between standard and daylight-saving time; a zone that has no
    such change, UTC among them, has one offset throughout. *)
Variable LocalTZA : Z -> bool -> Z.

Definition LocalTime (t : Z) : Z := t + LocalTZA t true.
Definition UTC (t : Z) : Z := t - LocalTZA t false.

(** [d.getHours()]; [NaN] for an Invalid Date. *)
Definition getHours (d : Date) : float :=
  match d with
  | Some t => JSNumber.ofZ (HourFromTime (LocalTime t))
  | None => nan
  end.

(** [d.setHours(hour, min, sec, ms)]: the local day is kept and the time
    within it replaced; an argument that is not finite makes the date
    invalid. *)
Definition setHours4 (d : Date) (hour min sec ms : float) : Date :=
  match d with
  | Some t =>
      match MakeTime hour min sec ms with
      | Some time => TimeClip (UTC (MakeDate (Day (LocalTime t)) time))
      | None => None
      end
  | None => None
  end.

(** [d.setHours(hour)]: minutes, seconds and milliseconds are those of
    the date's local time. *)
Definition setHours1 (d : Date) (hour : float) : Date :=
  match d with
  | Some t =>
      let lt := LocalTime t in
      match MakeTime hour (JSNumber.ofZ (MinFromTime lt)) (JSNumber.ofZ (SecFromTime lt))
                     (JSNumber.ofZ (msFromTime lt)) with
      | Some time => TimeClip (UTC (MakeDate (Day lt) time))
      | None => None
      end
  | None => None
  end.

End LocalZone.

(** [a >= b] on two Dates: their time values are compared, and a
    comparison with [NaN] is false. *)
Definition ge (a b : Date) : bool :=
  match a, b with
  | Some x, Some y => y <=? x
  | _, _ => false
  end.

End JSDate.

(* ================================================================= *)
(** ** JSON values and plain objects *)

Definition ObjectId : Type := N.

(** What [res.json] sends and what [doc.toObject()] returns. An object is
    the list of its own properties in insertion order. *)
Inductive Json : Type :=
| JUndefined
| JNull
| JBool (b : bool)
| JNumber (n : float)
| JInt (z : Z)
| JString (s : string)
| JDate (d : JSDate.Date)
| JId (i : ObjectId)
| JArray (l : list Json)
| JObject (props : list (string * Json)).

Module Obj.

Definition t : Type := list (string * Json).

(** [o.k]: [None] when [o] has no property [k]. *)
Fixpoint get (k : string) (o : t) : option Json :=
  match o with
  | [] => None
  | (k', v) :: r => if String.eqb k k' then Some v else get k r
  end.

(** [o.k = v]: an existing property keeps its place. *)
Fixpoint set (k : string) (v : Json) (o : t) : t :=
  match o with
  | [] => [(k, v)]
  | (k', v') :: r => if String.eqb k k' then (k, v) :: r else (k', v') :: set k v r
  end.

(** [delete o.k]. *)
Definition delete (k : string) (o : t) : t :=
  filter (fun kv => negb (String.eqb k (fst kv))) o.

Definition has (k : string) (o : t) : bool :=
  match get k o with Some _ => true | None => false end.

End Obj.

(** An HTTP response: [res.status(code).json(body)]. *)
Record Response : Type := mkResponse {
  statusCode : nat;
  body : Json
}.

(** [res.json(body)], status 200. *)
Definition res_json (b : Json) : Response := mkResponse 200 b.

(** What [next(new ErrorResponse(message, code))] ends in: the error
    middleware (middleware/error.js) answers
    [{ success: false, error: message }] with the error's status code. *)
Definition errorHandler (message : string) (code : nat) : Response :=
  mkResponse code (JObject [("success", JBool false); ("error", JString message)]).

(* ================================================================= *)
(** ** Documents *)

(** The authenticated user the [auth] middleware puts in [req.user]. *)
Record User : Type := mkUser {
  user_id : ObjectId;
  userType : string
}.

(** models/Worker.js, [notificationSchema]. *)
Record Notification : Type := mkNotification {
  n_type : string;
  n_message : string;
  n_job : option ObjectId;
  n_isRead : bool;
  n_createdAt : Z
}.

(** models/Worker.js, [workerSchema]. *)
Record Worker : Type := mkWorker {
  w_id : ObjectId;
  w_user : ObjectId;
  w_skills : list string;
  w_serviceRadius : option float;
  w_location : option GeoPoint;
  w_notifications : list Notification;
  w_city : option string;
  w_rating : float;
  w_completedJobs : Z;
  w_categories : list string
}.

(** The [enum] of [categories] in [workerSchema]: the closed category
    enumeration. *)
Definition workerCategoryEnum : list string :=
  ["plumbing"; "electrical"; "carpentry"; "painting"; "cleaning"; "gardening";
   "moving"; "appliance_repair"; "hvac"; "roofing"; "other"; "general"].

(** models/Job.js, [jobSchema]: one field per schema path, and [_id]. *)
Record Job : Type := mkJob {
  j_id : ObjectId;
  j_title : string;
  j_description : string;
  j_category : option string;
  j_location : option GeoPoint;
  j_address : option string;
  j_budget : float;
  j_deadline : JSDate.Date;
  j_timeStart : string;
  j_timeEnd : string;
  j_images : list string;
  j_status : string;
  j_user : ObjectId;
  j_worker : option ObjectId;
  j_createdAt : Z;
  j_completedAt : option Z;
  j_radius : float
}.

(** The [enum] of [category] in [jobSchema]. *)
Definition jobCategoryEnum : list string :=
  ["plumbing"; "electrical"; "carpentry"; "painting"; "cleaning"; "gardening";
   "moving"; "appliance_repair"; "hvac"; "roofing"; "other"].

(** The paths of [jobSchema]. Mongoose persists and reads back these
    paths only: a property set on a document under another name is never
    saved, and reading such a name from a loaded document gives
    [undefined]. *)
Definition jobSchemaPaths : list string :=
  ["title"; "description"; "category"; "location"; "address"; "budget";
   "deadline"; "timeStart"; "timeEnd"; "images"; "status"; "user"; "worker";
   "createdAt"; "completedAt"; "radius"].

Definition inSchema (paths : list string) (p : string) : bool :=
  existsb (String.eqb p) paths.

Definition opt_json {A : Type} (f : A -> Json) (o : option A) : Json :=
  match o with Some a => f a | None => JUndefined end.

Definition GeoPoint_toObject (p : GeoPoint) : Json :=
  JObject [("type", JString (point_type p));
           ("coordinates", JArray (map JNumber (coordinates p)))].

(** [job.toObject()]: the document's paths as a plain object; a path
    without a value is not a property of it. *)
Definition Job_toObject (j : Job) : Obj.t :=
  filter (fun kv => match snd kv with JUndefined => false | _ => true end)
    [("_id", JId (j_id j));
     ("title", JString (j_title j));
     ("description", JString (j_description j));
     ("category", opt_json JString (j_category j));
     ("location", opt_json GeoPoint_toObject (j_location j));
     ("address", opt_json JString (j_address j));
     ("budget", JNumber (j_budget j));
     ("deadline", JDate (j_deadline j));
     ("timeStart", JString (j_timeStart j));
     ("timeEnd", JString (j_timeEnd j));
     ("images", JArray (map JString (j_images j)));
     ("status", JString (j_status j));
     ("user", JId (j_user j));
     ("worker", opt_json JId (j_worker j));
     ("createdAt", JDate (Some (j_createdAt j)));
     ("completedAt", opt_json (fun t => JDate (Some t)) (j_completedAt j));
     ("radius", JNumber (j_radius j))].

(** ** Collections *)

(** [Model.findById(id)]: the document with that [_id]. *)
Definition findJobById (jobs : list Job) (id : ObjectId) : option Job :=
  find (fun j => N.eqb (j_id j) id) jobs.

(** [doc.save()] of a loaded document: it replaces the stored document
    that has its [_id]. *)
Definition saveJob (j : Job) (jobs : list Job) : list Job :=
  map (fun j' => if N.eqb (j_id j') (j_id j) then j else j') jobs.

Definition saveWorker (w : Worker) (workers : list Worker) : list Worker :=
  map (fun w' => if N.eqb (w_id w') (w_id w) then w else w') workers.

(* ================================================================= *)
(** ** The Math object *)

Module JSMath.

Local Open Scope float_scope.

(** [Math.PI], the number nearest to pi: 3.141592653589793. *)
Definition PI : float := 0x1.921fb54442d18p+1.

(** [Math.sqrt]: the correctly rounded square root of IEEE 754. *)
Definition sqrt (x : float) : float := PrimFloat.sqrt x.

(** [Math.round(x)]: the integer nearest to [x], the larger one on a tie;
    [x] itself when it is not finite or already an integer; a zero of the
    sign of [x] when the result is zero.  A finite [x] is [±m * 2^e]; for
    [e < 0] the result is [floor (x + 1/2)], computed on integers. *)
Definition round (x : float) : float :=
  match Prim2SF x with
  | S754_finite s m e =>
      if (0 <=? e)%Z then x
      else
        let d := Z.pow 2 (- e) in
        let sm := if s then Z.neg m else Z.pos m in
        let n := ((2 * sm + d) / (2 * d))%Z in
        if (n =? 0)%Z then (if s then neg_zero else zero)
        else SF2Prim (binary_normalize prec emax n 0 false)
  | _ => x
  end.

End JSMath.

(** [Math.sin], [Math.cos] and [Math.atan2] are approximations the
    JavaScript engine supplies; ECMAScript fixes their value at a few
    arguments only.  The distance functions are parametric in them. *)
Record MathLib : Type := mkMathLib {
  Math_sin : float -> float;
  Math_cos : float -> float;
  Math_atan2 : float -> float -> float
}.

(* ================================================================= *)
(** ** utils/locationUtils.js and utils/geolocation.js *)

Section Distance.

Local Open Scope float_scope.

Variable M : MathLib.

(** [toRad] (utils/locationUtils.js). *)
Definition toRad (value : float) : float := (value * JSMath.PI) / 180.

(** [a[i]] on an array of numbers, as an operand of arithmetic:
    [undefined] (no such element) converts to [NaN]. *)
Definition elem (a : list float) (i : nat) : float := nth i a nan.

(** [calculateDistance] of utils/locationUtils.js, the one the
    nearby-jobs route imports. *)
Definition calculateDistance (coords1 coords2 : list float) : float :=
  if ((List.length coords1 <? 2)%nat || (List.length coords2 <? 2)%nat)%bool then -1
  else
    let lng1 := elem coords1 0 in
    let lat1 := elem coords1 1 in
    let lng2 := elem coords2 0 in
    let lat2 := elem coords2 1 in
    let R := 6371 in
    let dLat := toRad (lat2 - lat1) in
    let dLng := toRad (lng2 - lng1) in
    let a :=
      Math_sin M (dLat / 2) * Math_sin M (dLat / 2) +
      Math_cos M (toRad lat1) * Math_cos M (toRad lat2) *
      Math_sin M (dLng / 2) * Math_sin M (dLng / 2) in
    let c := 2 * Math_atan2 M (JSMath.sqrt a) (JSMath.sqrt (1 - a)) in
    JSMath.round ((R * c) * 10) / 10.

(** [calculateDistance] of utils/geolocation.js: no length check; the
    coordinates are destructured. *)
Definition geolocation_calculateDistance (coords1 coords2 : list float) : float :=
  let lng1 := elem coords1 0 in
  let lat1 := elem coords1 1 in
  let lng2 := elem coords2 0 in
  let lat2 := elem coords2 1 in
  let R := 6371 in
  let dLat := (lat2 - lat1) * JSMath.PI / 180 in
  let dLon := (lng2 - lng1) * JSMath.PI / 180 in
  let a :=
    Math_sin M (dLat / 2) * Math_sin M (dLat / 2) +
    Math_cos M (lat1 * JSMath.PI / 180) * Math_cos M (lat2 * JSMath.PI / 180) *
    Math_sin M (dLon / 2) * Math_sin M (dLon / 2) in
  let c := 2 * Math_atan2 M (JSMath.sqrt a) (JSMath.sqrt (1 - a)) in
  let distance := R * c in
  JSMath.round (distance * 10) / 10.

End Distance.

(** [getApproximateAddress] (utils/geolocation.js). *)
Definition getApproximateAddress (address : option string) : string :=
  match address with
  | None | Some EmptyString => "Unknown"
  | Some a =>
      let addressParts := JSString.split "," a in
      if (1 <? List.length addressParts)%nat
      then JSString.trim (JSString.join "," (JSString.slice1 addressParts))
      else a
  end.

(** [isValidCoordinates] (utils/geolocation.js) on an array of numbers. *)
Definition isValidCoordinates (coordinates : list float) : bool :=
  match coordinates with
  | [lng; lat] =>
      if (is_nan lng || is_nan lat)%bool then false
      else if ((lng <? -180) || (180 <? lng))%float%bool then false
      else if ((lat <? -90) || (90 <? lat))%float%bool then false
      else if (JSNumber.strict_eq lng 0 && JSNumber.strict_eq lat 0)%float%bool then false
      else true
  | _ => false
  end.

(* ================================================================= *)
(** ** models/Worker.js: the pre-save hook *)

(** The list the hook matches skills against. *)
Definition validCategories : list string :=
  ["plumbing"; "electrical"; "carpentry"; "painting"; "cleaning"; "gardening";
   "moving"; "appliance_repair"; "hvac"; "roofing"; "other"].

(** [validCategories.find(cat => cat.toLowerCase() === skill.toLowerCase())
    || 'general']. *)
Definition skillCategory (skill : string) : string :=
  match find (fun cat => String.eqb (JSString.toLowerCase cat) (JSString.toLowerCase skill))
             validCategories with
  | Some cat => cat
  | None => "general"
  end.

(** [workerSchema.pre('save')].  (Its first step turns coordinates held
    as strings into numbers; coordinates are numbers in this model.) *)
Definition preSave (w : Worker) : Worker :=
  match w_categories w, w_skills w with
  | [], _ :: _ =>
      mkWorker (w_id w) (w_user w) (w_skills w) (w_serviceRadius w) (w_location w)
               (w_notifications w) (w_city w) (w_rating w) (w_completedJobs w)
               (map skillCategory (w_skills w))
  | _, _ => w
  end.

(* ================================================================= *)
(** ** routes/worker.js: nearby jobs and location update *)

(** The filter [Job.find] receives from the nearby-jobs route. *)
Record NearbyQuery : Type := mkNearbyQuery {
  q_status : string;                      (* status: 'pending' *)
  q_geometry : GeoPoint;                  (* $nearSphere.$geometry *)
  q_maxDistance : float;                  (* $nearSphere.$maxDistance, metres *)
  q_category : option (list string)       (* category: { $in: ... } when set *)
}.

(** The route's test of the worker's registered location: [true] when
    the request is refused with status 400. *)
Definition locationRejected (w : Worker) : bool :=
  match w_location w with
  | None => true
  | Some loc =>
      negb (List.length (coordinates loc) =? 2)%nat
      || (JSNumber.strict_eq (elem (coordinates loc) 0) 0
          && JSNumber.strict_eq (elem (coordinates loc) 1) 0)
  end.

(** [worker.categories.includes('general')]. *)
Definition includesGeneral (cats : list string) : bool :=
  existsb (String.eqb "general") cats.

(** The [category] clause of the query: set unless the worker has no
    category or exactly one that is ['general']. *)
Definition categoryClause (cats : list string) : option (list string) :=
  if (0 <? List.length cats)%nat
     && negb ((List.length cats =? 1)%nat && includesGeneral cats)
  then Some cats else None.

(** [worker.serviceRadius || 100]. *)
Definition serviceRadiusOrDefault (r : option float) : float :=
  match r with
  | Some x => if JSNumber.falsy x then 100%float else x
  | None => 100%float
  end.

Definition nearbyQuery (w : Worker) (loc : GeoPoint) : NearbyQuery :=
  {| q_status := "pending";
     q_geometry := loc;
     q_maxDistance := (serviceRadiusOrDefault (w_serviceRadius w) * 1000)%float;
     q_category := categoryClause (w_categories w) |}.

(** Insertion of a job into a list kept in descending [createdAt] order,
    and the sort [.sort({ createdAt: -1 })] asks for. *)
Fixpoint insertByCreatedAt (j : Job) (l : list Job) : list Job :=
  match l with
  | [] => [j]
  | x :: r => if (j_createdAt x <=? j_createdAt j)%Z then j :: l
              else x :: insertByCreatedAt j r
  end.

Definition sortByCreatedAtDesc (l : list Job) : list Job :=
  fold_right insertByCreatedAt [] l.

Section NearbyJobs.

Variable M : MathLib.

(** MongoDB's [$nearSphere] test: the stored point lies within
    [maxDistance] metres of [geometry] on the sphere.  The database
    evaluates it; the route is parametric in it. *)
Variable nearSphere : GeoPoint -> float -> option GeoPoint -> bool.

(** A stored job satisfies the query. *)
Definition matchesNearbyQuery (q : NearbyQuery) (j : Job) : bool :=
  String.eqb (j_status j) (q_status q)
  && match j_worker j with None => true | Some _ => false end
  && nearSphere (q_geometry q) (q_maxDistance q) (j_location j)
  && match q_category q with
     | None => true
     | Some cats =>
         match j_category j with
         | Some c => existsb (String.eqb c) cats
         | None => false
         end
     end.

(** [Job.find(query).sort({ createdAt: -1 }).limit(20)]. *)
Definition findNearbyJobs (q : NearbyQuery) (jobs : list Job) : list Job :=
  firstn 20 (sortByCreatedAtDesc (filter (matchesNearbyQuery q) jobs)).

(** The body of [nearbyJobs.map(job => ...)]. *)
Definition approximateJob (workerCoords : list float) (job : Job) : Obj.t :=
  let jobObj := Job_toObject job in
  let addressParts :=
    match j_address job with
    | None | Some EmptyString => ["Unknown"]
    | Some a => JSString.split "," a
    end in
  let jobObj :=
    Obj.set "approximateLocation"
      (if (1 <? List.length addressParts)%nat
       then JString (JSString.trim (JSString.join "," (JSString.slice1 addressParts)))
       else opt_json JString (j_address job))
      jobObj in
  let jobObj :=
    match j_location job with
    | Some loc =>
        Obj.set "distance"
          (JNumber (calculateDistance M workerCoords (coordinates loc))) jobObj
    | None => jobObj
    end in
  Obj.delete "location" jobObj.

Definition failure (code : nat) (message : string) : Response :=
  mkResponse code (JObject [("success", JBool false); ("message", JString message)]).

(** [router.get('/nearby-jobs', auth, isWorker, ...)]. *)
Definition nearbyJobs (workers : list Worker) (jobs : list Job) (user : User) : Response :=
  if negb (String.eqb (userType user) "worker")
  then mkResponse 403 (JObject [("message", JString "Access denied. Worker only route.")])
  else
    match find (fun w => N.eqb (w_user w) (user_id user)) workers with
    | None => failure 404 "Worker profile not found"
    | Some worker =>
        match w_location worker with
        | Some loc =>
            if locationRejected worker
            then failure 400 "Valid worker location not found. Please update your registered location."
            else
              let nearby := findNearbyJobs (nearbyQuery worker loc) jobs in
              let jobsWithApproximateLocation :=
                map (approximateJob (coordinates loc)) nearby in
              res_json (JObject
                [("success", JBool true);
                 ("count", JInt (Z.of_nat (List.length jobsWithApproximateLocation)));
                 ("data", JArray (map JObject jobsWithApproximateLocation))])
        | None =>
            failure 400 "Valid worker location not found. Please update your registered location."
        end
    end.

End NearbyJobs.

(* ================================================================= *)
(** ** Coordinate checks on the way into the collections *)

Section CoordinateChecks.

Variable parseFloatString : string -> float.

(** The [validate] function of [location.coordinates] in [jobSchema]. *)
Definition jobCoordinatesValidator (v : list float) : bool :=
  ((List.length v =? 2)%nat
   && (-180 <=? elem v 0) && (elem v 0 <=? 180)
   && (-90 <=? elem v 1) && (elem v 1 <=? 90))%float%bool.

(** [createJob] (controllers/jobController.js) up to the point where the
    job's location is fixed: the error answered, or the location the new
    job is built with. *)
Definition createJob_location (latitude longitude : JSValue) : Response + GeoPoint :=
  match validateCoordinates parseFloatString latitude longitude with
  | None => inl (errorHandler
                   "Invalid coordinates. Please provide valid latitude and longitude." 400)
  | Some locationObj => inr locationObj
  end.

(** [router.post('/create', ...)] (routes/jobs.js) up to the same point:
    it parses the two values itself and refuses a falsy coordinate. *)
Definition routeCreate_location (latitude longitude : JSValue) : Response + GeoPoint :=
  let location :=
    {| point_type := "Point";
       coordinates := [parseFloat parseFloatString longitude;
                       parseFloat parseFloatString latitude] |} in
  if JSNumber.falsy (elem (coordinates location) 0)
     || JSNumber.falsy (elem (coordinates location) 1)
  then inl (mkResponse 400 (JObject [("message", JString "Invalid coordinates")]))
  else inr location.

(** [router.post('/ensure-profile', ...)] (routes/worker.js): the
    coordinates a new profile is created with. *)
Definition ensureProfile_coordinates (latitude longitude : JSValue) : list float :=
  if truthy latitude && truthy longitude
  then [parseFloat parseFloatString longitude; parseFloat parseFloatString latitude]
  else [77.2090; 28.6139]%float.

(** [updateWorkerProfile] (controllers/userController.js): what becomes
    of the location; [None] when the update leaves the location alone. *)
Definition updateWorkerProfile_location (cityLatitude cityLongitude : JSValue)
  : option (Response + GeoPoint) :=
  if truthy cityLatitude && truthy cityLongitude
  then match validateCoordinates parseFloatString cityLatitude cityLongitude with
       | Some locationObj => Some (inr locationObj)
       | None => Some (inl (errorHandler "Invalid coordinates provided" 400))
       end
  else None.

Definition setLocation (loc : GeoPoint) (w : Worker) : Worker :=
  mkWorker (w_id w) (w_user w) (w_skills w) (w_serviceRadius w) (Some loc)
           (w_notifications w) (w_city w) (w_rating w) (w_completedJobs w)
           (w_categories w).

(** [Worker.findOneAndUpdate({ user }, { $set: { location } }, { new: true })]:
    the first worker document of that user is updated and returned. *)
Fixpoint findOneAndSetLocation (user : ObjectId) (loc : GeoPoint) (workers : list Worker)
  : option Worker * list Worker :=
  match workers with
  | [] => (None, [])
  | w :: r =>
      if N.eqb (w_user w) user then (Some (setLocation loc w), setLocation loc w :: r)
      else let '(found, r') := findOneAndSetLocation user loc r in (found, w :: r')
  end.

(** [router.put('/update-location', auth, isWorker, ...)]. *)
Definition updateLocation (workers : list Worker) (user : User) (latitude longitude : JSValue)
  : Response * list Worker :=
  if negb (String.eqb (userType user) "worker")
  then (mkResponse 403 (JObject [("message", JString "Access denied. Worker only route.")]),
        workers)
  else
    match validateCoordinates parseFloatString latitude longitude with
    | None =>
        (failure 400 "Invalid coordinates. Latitude must be between -90 and 90, longitude between -180 and 180.",
         workers)
    | Some locationObj =>
        match findOneAndSetLocation (user_id user) locationObj workers with
        | (None, _) => (failure 404 "Worker profile not found", workers)
        | (Some worker, workers') =>
            (res_json (JObject
               [("success", JBool true);
                ("message", JString "Worker location updated successfully");
                ("data", JObject
                   [("location", opt_json GeoPoint_toObject (w_location worker));
                    ("coordinates", JObject
                       [("latitude", JNumber (elem (coordinates locationObj) 1));
                        ("longitude", JNumber (elem (coordinates locationObj) 0))])])]),
             workers')
        end
    end.

End CoordinateChecks.

(** The places where the server decides whether a pair of coordinates is
    usable. *)
Inductive CoordinateCheck : Type :=
| ByValidateCoordinates      (* utils/locationUtils.js: createJob, update-location, register *)
| ByJobSchemaValidator       (* models/Job.js *)
| ByRouteCreate              (* routes/jobs.js, POST /create *)
| ByEnsureProfile            (* routes/worker.js, POST /ensure-profile *)
| ByUpdateWorkerProfile      (* controllers/userController.js *)
| ByNearbyJobsLocationCheck  (* routes/worker.js, GET /nearby-jobs *)
| ByIsValidCoordinates.      (* utils/geolocation.js *)

Definition workerAt (lat lng : float) : Worker :=
  mkWorker 0%N 0%N [] None (Some (mkGeoPoint "Point" [lng; lat])) [] None 0%float 0%Z [].

(** Whether a check lets the numeric pair [(lat, lng)] through: the pair
    is not refused, and it is the pair given that is stored or used. *)
Definition accepts (parseFloatString : string -> float) (c : CoordinateCheck)
           (lat lng : float) : bool :=
  match c with
  | ByValidateCoordinates =>
      match validateCoordinates parseFloatString (JSNum lat) (JSNum lng) with
      | Some _ => true | None => false
      end
  | ByJobSchemaValidator => jobCoordinatesValidator [lng; lat]
  | ByRouteCreate =>
      match routeCreate_location parseFloatString (JSNum lat) (JSNum lng) with
      | inr _ => true | inl _ => false
      end
  | ByEnsureProfile =>
      match ensureProfile_coordinates parseFloatString (JSNum lat) (JSNum lng) with
      | [x; y] => JSNumber.strict_eq x lng && JSNumber.strict_eq y lat
      | _ => false
      end
  | ByUpdateWorkerProfile =>
      match updateWorkerProfile_location parseFloatString (JSNum lat) (JSNum lng) with
      | Some (inr _) => true | _ => false
      end
  | ByNearbyJobsLocationCheck => negb (locationRejected (workerAt lat lng))
  | ByIsValidCoordinates => isValidCoordinates [lng; lat]
  end.

(* ================================================================= *)
(** ** Accepting a job *)

Definition assignJob (worker : ObjectId) (j : Job) : Job :=
  mkJob (j_id j) (j_title j) (j_description j) (j_category j) (j_location j)
        (j_address j) (j_budget j) (j_deadline j) (j_timeStart j) (j_timeEnd j)
        (j_images j) "in progress" (j_user j) (Some worker) (j_createdAt j)
        (j_completedAt j) (j_radius j).

(** [job.status !== 'pending' || job.worker]. *)
Definition noLongerAvailable (j : Job) : bool :=
  negb (String.eqb (j_status j) "pending")
  || match j_worker j with Some _ => true | None => false end.

(** [exports.acceptJob] (controllers/jobController.js). *)
Definition acceptJob (jobs : list Job) (user : User) (id : ObjectId)
  : Response * list Job :=
  if negb (String.eqb (userType user) "worker")
  then (errorHandler "Only workers can accept jobs" 403, jobs)
  else
    match findJobById jobs id with
    | None => (errorHandler "Job not found" 404, jobs)
    | Some job =>
        if noLongerAvailable job
        then (errorHandler "Job is no longer available" 400, jobs)
        else
          let job := assignJob (user_id user) job in
          (mkResponse 200 (JObject [("success", JBool true);
                                    ("data", JObject (Job_toObject job))]),
           saveJob job jobs)
    end.

(** [router.post('/:id/accept', auth, ...)] (routes/jobs.js). *)
Definition routeAccept (jobs : list Job) (user : User) (id : ObjectId)
  : Response * list Job :=
  if negb (String.eqb (userType user) "worker")
  then (mkResponse 403 (JObject [("message", JString "Only workers can accept jobs")]), jobs)
  else
    match findJobById jobs id with
    | None => (mkResponse 404 (JObject [("message", JString "Job not found")]), jobs)
    | Some job =>
        if noLongerAvailable job
        then (mkResponse 400 (JObject [("message", JString "Job is no longer available")]),
              jobs)
        else
          let job := assignJob (user_id user) job in
          (res_json (JObject (Job_toObject job)), saveJob job jobs)
    end.

(* ================================================================= *)
(** ** Reviews and the worker's average rating *)

(** A Mongoose document in memory: the values of the schema paths, and
    the properties assigned on the instance under names that are not
    schema paths.  [save] writes the former only. *)
Record JobDoc : Type := mkJobDoc {
  jd_doc : Job;
  jd_own : Obj.t
}.

(** A document as a query returns it. *)
Definition loadJob (j : Job) : JobDoc := mkJobDoc j [].

(** [job[name] = v] for a name that is not a path of [jobSchema]. *)
Definition setOwn (name : string) (v : Json) (d : JobDoc) : JobDoc :=
  mkJobDoc (jd_doc d) (Obj.set name v (jd_own d)).

(** [job[name]] for a name that is not a path of [jobSchema]. *)
Definition readOwn (name : string) (d : JobDoc) : Json :=
  match Obj.get name (jd_own d) with Some v => v | None => JUndefined end.

(** The clause [{ path: { $exists: true } }] of a [Job.find] filter.
    With [strictQuery] on, Mongoose removes a clause on a name that is not
    a schema path before the filter reaches the database; otherwise the
    database tests the stored document. *)
Definition existsClause (strictQuery : bool) (path : string) (j : Job) : bool :=
  if strictQuery && negb (inSchema jobSchemaPaths path) then true
  else Obj.has path (Job_toObject j).

Definition sameWorker (a b : option ObjectId) : bool :=
  match a, b with
  | Some x, Some y => N.eqb x y
  | None, None => true
  | _, _ => false
  end.

(** [Job.find({ worker: w, rating: { $exists: true } })]. *)
Definition findRatedJobs (strictQuery : bool) (w : option ObjectId) (jobs : list Job)
  : list JobDoc :=
  map loadJob
    (filter (fun j => sameWorker (j_worker j) w && existsClause strictQuery "rating" j) jobs).

(** [acc + v] for a number [acc] and a value that is a number or
    [undefined]: [undefined] converts to [NaN]. *)
Definition plus (acc : float) (v : Json) : float :=
  match v with
  | JNumber n => (acc + n)%float
  | _ => nan
  end.

(** [l.length] as a number. *)
Definition lengthNumber {A : Type} (l : list A) : float :=
  of_uint63 (Uint63.of_Z (Z.of_nat (List.length l))).

(** [workerJobs.reduce((acc, job) => acc + job.rating, 0) / workerJobs.length]. *)
Definition averageRating (workerJobs : list JobDoc) : float :=
  (fold_left (fun acc job => plus acc (readOwn "rating" job)) workerJobs 0
   / lengthNumber workerJobs)%float.

(** What a call of [addReview] leaves behind: the response, the jobs
    collection, and the update it sends to the users collection
    ([User.findByIdAndUpdate(worker, { rating })]), if it gets that far. *)
Record ReviewResult : Type := mkReviewResult {
  rr_response : Response;
  rr_jobs : list Job;
  rr_userUpdate : option (option ObjectId * float)
}.

(** [exports.addReview] (controllers/jobController.js). *)
Definition addReview (strictQuery : bool) (jobs : list Job) (user : User)
           (id : ObjectId) (rating review : Json) : ReviewResult :=
  match findJobById jobs id with
  | None => mkReviewResult (errorHandler "Job not found" 404) jobs None
  | Some j =>
      let job := loadJob j in
      if negb (N.eqb (j_user (jd_doc job)) (user_id user))
      then mkReviewResult (errorHandler "Not authorized" 403) jobs None
      else if negb (String.eqb (j_status (jd_doc job)) "completed")
      then mkReviewResult (errorHandler "Can only review completed jobs" 400) jobs None
      else
        let job := setOwn "rating" rating job in
        let job := setOwn "review" review job in
        let jobs' := saveJob (jd_doc job) jobs in
        let workerJobs := findRatedJobs strictQuery (j_worker (jd_doc job)) jobs' in
        mkReviewResult
          (mkResponse 200 (JObject [("success", JBool true);
                                    ("data", JObject (Job_toObject (jd_doc job)))]))
          jobs'
          (Some (j_worker (jd_doc job), averageRating workerJobs))
  end.

(* ================================================================= *)
(** ** models/Worker.js: saving a profile *)

(** [required: true] on a string: it is not empty. *)
Definition nonEmpty (s : string) : bool := negb (String.eqb s "").

(** The [enum] of [type] in [notificationSchema]. *)
Definition notificationTypeEnum : list string :=
  ["new_job"; "job_update"; "payment"; "message"].

(** The validators of [notificationSchema]: the type is in the
    enumeration, the message is required. *)
Definition notificationValid (n : Notification) : bool :=
  existsb (String.eqb (n_type n)) notificationTypeEnum && nonEmpty (n_message n).

(** The validators of [workerSchema] on a new document: every skill is
    required (a string that is not empty), every category is in the
    enumeration, every coordinate is a number.  The handlers below
    always give the document a location; one without coordinates is not
    stored. *)
Definition workerValid (w : Worker) : bool :=
  forallb nonEmpty (w_skills w)
  && forallb (fun c => existsb (String.eqb c) workerCategoryEnum) (w_categories w)
  && match w_location w with
     | Some loc => forallb (fun c => negb (is_nan c)) (coordinates loc)
     | None => false
     end.

(** What [worker.save()] validates on a document loaded from the
    collection: every path of it, the stored notifications included.
    (A stored document without a location is loaded with the default
    point, which has no coordinates, and is refused: by the [required]
    validator, or by the [2dsphere] index when the validator lets an
    empty array pass.) *)
Definition validOnSave (w : Worker) : bool :=
  workerValid w && forallb notificationValid (w_notifications w).

(** [worker.save()] on a loaded document.  The validators run first; when
    one fails the save throws and nothing is stored ([None]).  Otherwise
    the pre-save hook runs and the document replaces the stored one. *)
Definition saveLoadedWorker (w : Worker) (workers : list Worker) : option (list Worker) :=
  if validOnSave w then Some (saveWorker (preSave w) workers) else None.

(* ================================================================= *)
(** ** utils/notifications.js *)

(** The filter of [Worker.find]: a skill or a category of the worker
    matches [new RegExp(job.category, 'i')]. *)
Definition matchesCategory (category : string) (w : Worker) : bool :=
  existsb (JSString.regexp_i_test category) (w_skills w)
  || existsb (JSString.regexp_i_test category) (w_categories w).

Definition newJobNotification (now : Z) (job : Job) : Notification :=
  {| n_type := "new_job";
     n_message := "New job available: " ++ j_title job;
     n_job := Some (j_id job);
     n_isRead := false;
     n_createdAt := now |}.

(** [worker.notifications.push(notification)]. *)
Definition pushNotification (n : Notification) (w : Worker) : Worker :=
  mkWorker (w_id w) (w_user w) (w_skills w) (w_serviceRadius w) (w_location w)
           (w_notifications w ++ [n]) (w_city w) (w_rating w) (w_completedJobs w)
           (w_categories w).

(** The three ways the dispatch returns; each only writes to the log. *)
Inductive DispatchOutcome : Type :=
| MissingCategory        (* console.error('Job is missing category, ...'); return *)
| NoMatchingWorker       (* matchingWorkers.length === 0; return *)
| Notified (n : nat).    (* notifications sent to n matching workers *)

(** [sendNotificationsToMatchingWorkers].  The callbacks of
    [matchingWorkers.map] each push onto their own document and save it;
    a save that throws is caught in the callback, which writes to the
    log and leaves the stored document as it was.  [Promise.all] waits
    for all of them.  ([pushSubscription] is not a path of
    [workerSchema], so no document carries one and the web-push branch is
    not taken.) *)
Definition sendNotificationsToMatchingWorkers (now : Z) (job : Job) (workers : list Worker)
  : DispatchOutcome * list Worker :=
  match j_category job with
  | None | Some EmptyString => (MissingCategory, workers)
  | Some category =>
      let matchingWorkers := filter (matchesCategory category) workers in
      if (List.length matchingWorkers =? 0)%nat then (NoMatchingWorker, workers)
      else
        (Notified (List.length matchingWorkers),
         fold_left
           (fun db worker =>
              match saveLoadedWorker (pushNotification (newJobNotification now job) worker)
                                     db with
              | Some db' => db'   (* console.log(`Notification sent to worker ...`) *)
              | None => db        (* console.error(`Error notifying worker ...`, err) *)
              end)
           matchingWorkers workers)
  end.

(* ================================================================= *)
(** ** routes/worker.js: the location disclosure gate *)

Section JobLocation.

Variable numericLiteral : string -> float.
Variable LocalTZA : Z -> bool -> Z.

(** The job's start: [new Date(job.deadline)] with its local clock set to
    the hour and minute of [job.timeStart]; a part the split does not
    give is [undefined], which [setHours] reads as [NaN]. *)
Definition jobStart (job : Job) : JSDate.Date :=
  let jobDate := j_deadline job in
  let parts := map (JSString.Number numericLiteral) (JSString.split ":" (j_timeStart job)) in
  let hour := nth 0 parts nan in
  let minute := nth 1 parts nan in
  JSDate.setHours4 LocalTZA jobDate hour minute 0%float 0%float.

(** [revealTime]: a copy of the start, moved by
    [setHours(getHours() - 3)]: three hours back on the local clock. *)
Definition revealTimeOf (job : Job) : JSDate.Date :=
  let revealTime := jobStart job in
  JSDate.setHours1 LocalTZA revealTime (JSDate.getHours LocalTZA revealTime - 3)%float.

(** The filter of [Job.findOne] in the route. *)
Definition assignedActiveJob (id worker : ObjectId) (j : Job) : bool :=
  N.eqb (j_id j) id
  && sameWorker (j_worker j) (Some worker)
  && (String.eqb (j_status j) "in progress" || String.eqb (j_status j) "pending").

(** [router.get('/job-location/:jobId', auth, isWorker, ...)] answered at
    time [now]; [jobId] is [None] when the parameter is not a well-formed
    id. *)
Definition jobLocation (now : Z) (jobs : list Job) (user : User) (jobId : option ObjectId)
  : Response :=
  if negb (String.eqb (userType user) "worker")
  then mkResponse 403 (JObject [("message", JString "Access denied. Worker only route.")])
  else
    match jobId with
    | None => mkResponse 400 (JObject [("message", JString "Invalid job ID")])
    | Some id =>
        match find (assignedActiveJob id (user_id user)) jobs with
        | None =>
            mkResponse 404 (JObject [("message", JString "Job not found or not assigned to you")])
        | Some job =>
            let revealTime := revealTimeOf job in
            if JSDate.ge (Some now) revealTime then
              match j_location job with
              | Some loc =>
                  res_json (JObject
                    [("available", JBool true);
                     ("exactLocation", JObject
                        [("latitude", opt_json JNumber (nth_error (coordinates loc) 1));
                         ("longitude", opt_json JNumber (nth_error (coordinates loc) 0))]);
                     ("exactAddress", opt_json JString (j_address job))])
              | None =>
                  mkResponse 500 (JObject [("message", JString "Failed to check job location")])
              end
            else
              res_json (JObject
                [("available", JBool false);
                 ("message", JString "Exact location will be available 3 hours before the job starts");
                 ("revealTime", JDate revealTime)])
        end
    end.

End JobLocation.

(* ================================================================= *)
(** * The vocabulary of the specification *)

(** ** Coordinates *)

(** What the validator refuses: a value that is not a number, a latitude
    outside [-90, 90], a longitude outside [-180, 180]. *)
Definition invalidPair (lat lng : float) : Prop :=
  is_nan lat = true \/ is_nan lng = true \/
  ~ JSNumber.within (-90) 90 lat \/ ~ JSNumber.within (-180) 180 lng.

(** A valid geographic point: [[lng, lat]], both in range. *)
Definition validPoint (coords : list float) : Prop :=
  exists lng lat, coords = [lng; lat]
    /\ JSNumber.within (-180) 180 lng /\ JSNumber.within (-90) 90 lat.

(** What the proofs about distances assume of the engine's Math library.
    ECMAScript requires the first and the last ([Math.sin(+0)] is [+0],
    [Math.atan2(+0, x)] is [+0] for [x > 0]); the other two hold of the
    libraries the engines ship (the sine is computed from the magnitude of
    its argument and takes its sign, the cosine of a finite number lies
    between -1 and 1). *)
Record MathAssumptions (M : MathLib) : Prop := {
  sin_zero : Math_sin M 0 = 0%float;
  sin_odd : forall x, Math_sin M (- x) = (- Math_sin M x)%float;
  cos_range : forall x, is_finite x = true -> JSNumber.within (-1) 1 (Math_cos M x);
  atan2_zero : Math_atan2 M 0 1 = 0%float
}.

(** A number that is zero, or finite with exponent at most [B]: its
    magnitude is below [2^(B + 53)]. *)
Definition SFsmall (B : Z) (x : spec_float) : Prop :=
  match x with
  | S754_zero _ => True
  | S754_finite _ _ e => (e <= B)%Z
  | _ => False
  end.

Definition small (B : Z) (x : float) : Prop := SFsmall B (Prim2SF x).

(** ** Categories *)

(** Equality of two strings, letter case ignored. *)
Definition eqb_ci (a b : string) : bool :=
  String.eqb (JSString.toLowerCase a) (JSString.toLowerCase b).

(** The category a skill stands for: the category of the closed
    enumeration it equals up to letter case, and [general] when there is
    none. *)
Definition categoryOfSkill (skill c : string) : Prop :=
  (In c workerCategoryEnum /\ eqb_ci c skill = true)
  \/ ((forall c', In c' workerCategoryEnum -> eqb_ci c' skill = false) /\ c = "general").

(** The worker's categories, read as a set, are [{general}]. *)
Definition isGeneralSet (cats : list string) : Prop :=
  forall c, In c cats <-> c = "general".

(** ** Addresses *)

(** The text after the first occurrence of [sep]; empty when there is
    none. *)
Fixpoint afterFirst (sep : ascii) (s : string) : string :=
  match s with
  | EmptyString => EmptyString
  | String c r => if Ascii.eqb c sep then r else afterFirst sep r
  end.

Fixpoint contains (sep : ascii) (s : string) : bool :=
  match s with
  | EmptyString => false
  | String c r => Ascii.eqb c sep || contains sep r
  end.

(** The address with its first comma-delimited segment removed. *)
Definition withoutFirstSegment (address : string) : string :=
  JSString.join "," (tl (JSString.split "," address)).

(** The approximate location of an address: the text after its first
    comma without the surrounding white space, and the address itself
    when it has no comma. *)
Definition approximateLocationOf (address : string) : string :=
  if contains "," address then JSString.trim (afterFirst "," address) else address.

(** ** Notifications *)

(** What the dispatch stores for a matching worker: the document with
    the notification, as the pre-save hook leaves it, when the document
    passes the validators; nothing otherwise. *)
Definition withNotification (now : Z) (job : Job) (w : Worker) : option Worker :=
  if validOnSave (pushNotification (newJobNotification now job) w)
  then Some (preSave (pushNotification (newJobNotification now job) w))
  else None.

(** What the dispatch does to one worker document. *)
Definition notified (now : Z) (job : Job) (category : string) (w : Worker) : Worker :=
  if matchesCategory category w
  then match withNotification now job w with Some w' => w' | None => w end
  else w.

(** Saving the changed copy of a loaded document when there is one to
    save, and what a run of such saves makes of a stored document: the
    changed copy of the loaded document that has its id, if there is
    one. *)
Definition saveChanged (g : Worker -> option Worker) (db : list Worker) (m : Worker)
  : list Worker :=
  match g m with Some m' => saveWorker m' db | None => db end.

Definition updatedBy (g : Worker -> option Worker) (ms : list Worker) (w : Worker) : Worker :=
  match find (fun m => N.eqb (w_id m) (w_id w)) ms with
  | Some m => match g m with Some m' => m' | None => w end
  | None => w
  end.

(** [!job.category]. *)
Definition lacksCategory (job : Job) : Prop :=
  j_category job = None \/ j_category job = Some "".

(** ** Requests *)

Definition isWorker (u : User) : Prop := userType u = "worker".

(** The properties of a response's body. *)
Definition bodyProps (r : Response) : Obj.t :=
  match body r with JObject o => o | _ => [] end.

(** ** Clock times and the reveal time *)

Definition digit (d : nat) : ascii := ascii_of_nat (48 + d).

Definition twoDigits (n : nat) : string :=
  String (digit (n / 10)) (String (digit (n mod 10)) EmptyString).

(** The clock time ["HH:MM"], two digits each. *)
Definition clock (hh mm : nat) : string := twoDigits hh ++ ":" ++ twoDigits mm.

(** The clock time [hh:mm] as a time within the day. *)
Definition clockTime (hh mm : nat) : Z :=
  (Z.of_nat hh * JSDate.msPerHour + Z.of_nat mm * JSDate.msPerMinute)%Z.

(** Checks that are run over all clock times: the two fields of ["HH:MM"]
    are read back as [hh] and [mm], and [MakeTime] computes the time
    within the day without rounding, for the start and for the hour moved
    back by three. *)
Definition readsClock (hh mm : nat) : bool :=
  match map (fun part => JSString.digitsValue 0 (JSString.trim part))
            (JSString.split ":" (clock hh mm)) with
  | [Some h; Some m] => (h =? Z.of_nat hh)%Z && (m =? Z.of_nat mm)%Z
  | _ => false
  end.

Definition makesStart (hh mm : nat) : bool :=
  match JSDate.MakeTime (JSNumber.ofZ (Z.of_nat hh)) (JSNumber.ofZ (Z.of_nat mm)) 0 0 with
  | Some t => (t =? clockTime hh mm)%Z
  | None => false
  end.

Definition makesReveal (h m : nat) : bool :=
  match JSDate.MakeTime (JSNumber.ofZ (Z.of_nat h) - 3)%float (JSNumber.ofZ (Z.of_nat m))
                        (JSNumber.ofZ 0) (JSNumber.ofZ 0) with
  | Some t => (t =? (Z.of_nat h - 3) * JSDate.msPerHour + Z.of_nat m * JSDate.msPerMinute)%Z
  | None => false
  end.

Section RevealTime.

Local Open Scope Z_scope.

Variable LocalTZA : Z -> bool -> Z.

(** The date of [D] combined with the clock time [hh:mm]: what the local
    clock shows then, and the time value of that moment. *)
Definition startLocal (D : Z) (hh mm : nat) : Z :=
  JSDate.MakeDate (JSDate.Day (JSDate.LocalTime LocalTZA D)) (clockTime hh mm).

Definition startOn (D : Z) (hh mm : nat) : Z := JSDate.UTC LocalTZA (startLocal D hh mm).

(** Three hours before it. *)
Definition revealOn (D : Z) (hh mm : nat) : Z := startOn D hh mm - 3 * JSDate.msPerHour.

(** The zone's offset for the clock time [hh:mm] on the date of [D]. *)
Definition offsetAt (D : Z) (hh mm : nat) : Z := LocalTZA (startLocal D hh mm) false.

(** Deadlines and zones for which no step of the computation leaves the
    range of time values: the deadline is ten days or more inside the
    range, an offset at most a day. *)
Definition ordinaryDate (D : Z) : Prop :=
  Z.abs D <= 8640000000000000 - 10 * JSDate.msPerDay
  /\ forall t isUTC, Z.abs (LocalTZA t isUTC) <= JSDate.msPerDay.

(** The zone's offset does not change between the start [hh:mm] on the
    date of [D] and the clock time three hours before it: the start has
    the offset its clock time is read with, and so has the clock time
    three hours earlier. *)
Definition sameOffset (D : Z) (hh mm : nat) : Prop :=
  LocalTZA (startOn D hh mm) true = offsetAt D hh mm
  /\ LocalTZA (startLocal D hh mm - 3 * JSDate.msPerHour) false = offsetAt D hh mm.

End RevealTime.

(* ================================================================= *)
(** * Sample data

    The users, worker profiles and jobs of setSampleData.js, with small
    numbers for the ids, and the stand-ins the closed statements below are
    evaluated with. *)

Module Sample.

(** A Math library that meets [MathAssumptions]: the small-angle
    approximations [sin x = x], [cos x = 1], [atan2 y x = y]. *)
Definition smallAngleMath : MathLib :=
  {| Math_sin := fun x => x; Math_cos := fun _ => 1%float; Math_atan2 := fun y _ => y |}.

(** A reader that finds no number in any string. *)
Definition noNumber (_ : string) : float := nan.

(** A server whose zone is UTC. *)
Definition utc (_ : Z) (_ : bool) : Z := 0%Z.

(** A server in the zone America/New_York, around the end of daylight
    saving time in 2023: on 5 November at 06:00 UTC the local clock went
    from 02:00 back to 01:00, the offset from four hours behind UTC to
    five.  (A local time the clock showed twice is read as the earlier
    of the two moments.) *)
Definition newYork (t : Z) (isUTC : bool) : Z :=
  if isUTC
  then if (t <? 1699164000000)%Z then (-14400000)%Z else (-18000000)%Z
  else if (t <? 1699149600000)%Z then (-14400000)%Z else (-18000000)%Z.

(** A database in which every stored point is near every query point. *)
Definition everywhere (_ : GeoPoint) (_ : float) (_ : option GeoPoint) : bool := true.

Definition amit : User := mkUser 21%N "client".
Definition priya : User := mkUser 22%N "client".
Definition raj : User := mkUser 1%N "worker".
Definition deepak : User := mkUser 2%N "worker".
Definition sunita : User := mkUser 3%N "worker".

Definition delhi : GeoPoint := mkGeoPoint "Point" [77.2090; 28.6139]%float.
Definition nearDelhi : GeoPoint := mkGeoPoint "Point" [77.2300; 28.6500]%float.
Definition delhiNCR : GeoPoint := mkGeoPoint "Point" [77.1025; 28.7041]%float.

Definition profile (id : ObjectId) (u : User) (skills : list string) (radius : float)
           (loc : GeoPoint) (cats : list string) : Worker :=
  mkWorker id (user_id u) skills (Some radius) (Some loc) [] None 0%float 0%Z cats.

Definition rajProfile : Worker :=
  profile 11%N raj ["plumbing"; "electrical"] 15%float delhi ["plumbing"; "electrical"].
Definition deepakProfile : Worker :=
  profile 12%N deepak ["carpentry"; "painting"] 10%float nearDelhi ["carpentry"; "painting"].
Definition sunitaProfile : Worker :=
  profile 13%N sunita ["cleaning"; "gardening"] 20%float delhiNCR ["cleaning"; "gardening"].

Definition workers : list Worker := [rajProfile; deepakProfile; sunitaProfile].

Definition job (id : ObjectId) (title category address : string) (loc : GeoPoint)
           (timeStart timeEnd status : string) (client : User) (worker : option ObjectId)
  : Job :=
  mkJob id title "..." (Some category) (Some loc) (Some address) 1800%float
        (Some 1700000000000%Z) timeStart timeEnd [] status (user_id client) worker
        1690000000000%Z None 10%float.

Definition bathroomLeak : Job :=
  job 101%N "Fix Bathroom Leak" "plumbing" "A-15, Vasant Kunj, New Delhi, Delhi 110070"
      delhi "10:00" "12:00" "pending" amit None.

Definition electricalWiring : Job :=
  job 102%N "Electrical Wiring Installation" "electrical"
      "C-45, Greater Kailash Part 1, New Delhi, Delhi 110048"
      nearDelhi "14:00" "17:00" "pending" priya None.

(** A job whose address has no comma. *)
Definition bakerStreet : Job :=
  job 103%N "Paint Living Room" "painting" "221B Baker Street"
      delhiNCR "09:00" "18:00" "pending" amit None.

(** The bathroom job once Raj has accepted it. *)
Definition acceptedLeak : Job := assignJob (user_id raj) bathroomLeak.

(** A job of Raj's that is due on 5 November 2023 (12:00 UTC) and starts
    at 03:00. *)
Definition earlyShift : Job :=
  mkJob 110%N "Unblock Kitchen Drain" "..." (Some "plumbing") (Some delhi)
        (Some "A-15, Vasant Kunj, New Delhi, Delhi 110070") 1800%float
        (Some 1699185600000%Z) "03:00" "05:00" [] "in progress" (user_id amit)
        (Some (user_id raj)) 1690000000000%Z None 10%float.

(** Three completed jobs of Sunita, posted by Priya. *)
Definition gardenMaintenance : Job :=
  job 106%N "Garden Maintenance" "gardening" "112, Model Town, New Delhi, Delhi 110009"
      delhiNCR "08:00" "12:00" "completed" priya (Some (user_id sunita)).
Definition hedgeTrimming : Job :=
  job 107%N "Hedge Trimming" "gardening" "14, Model Town, New Delhi, Delhi 110009"
      delhiNCR "08:00" "12:00" "completed" priya (Some (user_id sunita)).
Definition lawnMowing : Job :=
  job 108%N "Lawn Mowing" "gardening" "16, Model Town, New Delhi, Delhi 110009"
      delhiNCR "08:00" "12:00" "completed" priya (Some (user_id sunita)).

Definition completedJobs : list Job := [gardenMaintenance; hedgeTrimming; lawnMowing].

(** A worker profile with the given categories and no skills. *)
Definition withCategories (cats : list string) : Worker :=
  profile 14%N raj [] 15%float nearDelhi cats.

End Sample.

(* ================================================================= *)
(** * The other handlers of the same files *)

(** ** The category listings *)

(** A JavaScript [Set] of strings: its elements in insertion order, the
    order in which [Array.from] lists them. *)
Module JSSet.

Definition t : Type := list string.

Definition has (x : string) (s : t) : bool := existsb (String.eqb x) s.

(** [s.add(x)]. *)
Definition add (x : string) (s : t) : t := if has x s then s else (s ++ [x])%list.

End JSSet.

(** [defaultCategories], the same list in each of the listings. *)
Definition defaultCategories : list string :=
  ["plumbing"; "electrical"; "carpentry"; "painting"; "cleaning"; "gardening";
   "moving"; "appliance_repair"; "hvac"; "roofing"; "other"].

(** [xs.forEach(x => categories.add(f(x)))]. *)
Definition addEach (f : string -> string) (xs : list string) (categories : JSSet.t)
  : JSSet.t :=
  fold_left (fun set x => JSSet.add (f x) set) xs categories.

(** [s.toLowerCase().trim()]. *)
Definition lowerTrim (s : string) : string := JSString.trim (JSString.toLowerCase s).

(** [exports.getCategories] (controllers/jobController.js). *)
Definition getCategories (workers : list Worker) : Response :=
  let categories :=
    fold_left
      (fun set worker =>
         addEach lowerTrim (w_categories worker)
           (addEach lowerTrim (w_skills worker) set))
      workers [] in
  let categories := addEach (fun cat => cat) defaultCategories categories in
  mkResponse 200 (JArray (map JString categories)).

(** [router.get('/categories', auth, isWorker, ...)] (routes/worker.js):
    the same body behind the [isWorker] middleware. *)
Definition workerCategories (workers : list Worker) (user : User) : Response :=
  if negb (String.eqb (userType user) "worker")
  then mkResponse 403 (JObject [("message", JString "Access denied. Worker only route.")])
  else getCategories workers.

(** [router.get('/categories', auth, ...)] (routes/jobs.js): the skills
    only, lower-cased and not trimmed. *)
Definition routeCategories (workers : list Worker) : Response :=
  let categories :=
    fold_left (fun set worker => addEach JSString.toLowerCase (w_skills worker) set)
              workers [] in
  let categories := addEach (fun cat => cat) defaultCategories categories in
  res_json (JArray (map JString categories)).

(* ================================================================= *)
(** ** Job listings *)

(** The filter [{ status: 'pending', worker: { $exists: false } }]. *)
Definition pendingUnassigned (j : Job) : bool :=
  String.eqb (j_status j) "pending"
  && match j_worker j with None => true | Some _ => false end.

(** [router.get('/debug/all-jobs', auth, isWorker, ...)] (routes/worker.js). *)
Definition debugAllJobs (jobs : list Job) (user : User) : Response :=
  if negb (String.eqb (userType user) "worker")
  then mkResponse 403 (JObject [("message", JString "Access denied. Worker only route.")])
  else
    let allJobs := sortByCreatedAtDesc (filter pendingUnassigned jobs) in
    res_json (JObject
      [("success", JBool true);
       ("count", JInt (Z.of_nat (List.length allJobs)));
       ("data", JArray (map (fun j => JObject (Job_toObject j)) allJobs))]).

(* ================================================================= *)
(** ** routes/jobs.js: the GET routes *)

(** The one segment of a request path, as the routes of this router see
    it.  The path is what follows the mount point [/api/jobs], without
    the query: a slash and a segment that has no slash in it, with one
    more slash allowed at the end (the router is not strict). *)
Fixpoint dropLastSlash (s : string) : string :=
  match s with
  | EmptyString => EmptyString
  | String c EmptyString => if Ascii.eqb c "/" then EmptyString else s
  | String c r => String c (dropLastSlash r)
  end.

Definition segmentOf (path : string) : option string :=
  match path with
  | String c rest =>
      let seg := dropLastSlash rest in
      if Ascii.eqb c "/" && negb (String.eqb seg "") && negb (JSString.includes "/" seg)
      then Some seg
      else None
  | EmptyString => None
  end.

(** The handlers [router.get] registers, in the order of the file. *)
Inductive JobsGetRoute : Type :=
| Categories        (* router.get('/categories', ...) *)
| Available         (* router.get('/available', ...) *)
| NearbyJobs        (* router.get('/nearby-jobs', ...) *)
| MyPosts           (* router.get('/my-posts', ...) *)
| MyAssignments     (* router.get('/my-assignments', ...) *)
| JobById           (* router.get('/:id', ...) *)
| LatestTimestamp.  (* router.get('/latest-timestamp', ...) *)

(** A route path of one segment: the segment as written, or a parameter
    ([None], for ['/:id']). *)
Definition jobsGetLayers : list (option string * JobsGetRoute) :=
  [(Some "categories", Categories);
   (Some "available", Available);
   (Some "nearby-jobs", NearbyJobs);
   (Some "my-posts", MyPosts);
   (Some "my-assignments", MyAssignments);
   (None, JobById);
   (Some "latest-timestamp", LatestTimestamp)].

(** A written segment matches up to letter case (the router is not case
    sensitive); a parameter matches every segment. *)
Definition layerMatches (pattern : option string) (seg : string) : bool :=
  match pattern with
  | Some written => String.eqb (JSString.toLowerCase seg) (JSString.toLowerCase written)
  | None => true
  end.

(** Where the router sends a GET request. *)
Inductive Routed : Type :=
| ToHandler (route : JobsGetRoute) (id : string)
    (* [id] is [req.params.id]; empty for a route without a parameter *)
| BadParameter   (* the parameter does not decode; the error is passed on *)
| NoRoute.       (* no route matches; the request is passed on *)

Section JobsRouter.

(** [decodeURIComponent] on a string with escapes; [None] when it throws.
    A JavaScript built-in: the development is parametric in it. *)
Variable decodeEscapes : string -> option string.

(** The router's [decode_param]: [decodeURIComponent(val)], which changes
    nothing in a string without a percent sign. *)
Definition decode_param (val : string) : option string :=
  if JSString.includes "%" val then decodeEscapes val else Some val.

(** The first registered route that matches answers: each handler of
    this router sends a response (after [auth], which sends one itself
    or calls the handler), none passes the request on. *)
Definition jobsGet (path : string) : Routed :=
  match segmentOf path with
  | None => NoRoute
  | Some seg =>
      match find (fun layer => layerMatches (fst layer) seg) jobsGetLayers with
      | Some (Some _, route) => ToHandler route ""
      | Some (None, route) =>
          match decode_param seg with
          | Some id => ToHandler route id
          | None => BadParameter
          end
      | None => NoRoute
      end
  end.

(** Whether the driver reads a string of twelve characters as an
    ObjectId, as its older versions do. *)
Variable twelveBytes : bool.

(** The ObjectId a well-formed string stands for, and [error.message] of
    the error Mongoose raises for another string. *)
Variable idOfString : string -> ObjectId.
Variable castMessage : string -> string.

Definition isHexDigit (c : ascii) : bool :=
  let n := nat_of_ascii c in
  ((48 <=? n) && (n <=? 57) || (65 <=? n) && (n <=? 70) || (97 <=? n) && (n <=? 102))%nat.

(** The cast of [findById]: a string is an ObjectId when it is 24
    hexadecimal digits (or twelve characters, see above). *)
Definition castObjectId (s : string) : option ObjectId :=
  if ((String.length s =? 24)%nat && forallb isHexDigit (list_ascii_of_string s))
     || (twelveBytes && (String.length s =? 12)%nat)
  then Some (idOfString s)
  else None.

(** What the handler of ['/:id'] sends: a failure, or the job document
    with its [user] and [worker] populated. *)
Inductive JobDetails : Type :=
| SendsJobDetails (job : Job)
| DetailsFailure (r : Response).

(** [router.get('/:id', auth, ...)] (routes/jobs.js). *)
Definition routeJobById (jobs : list Job) (id : string) : JobDetails :=
  match castObjectId id with
  | None => DetailsFailure (mkResponse 500 (JObject [("message", JString (castMessage id))]))
  | Some oid =>
      match findJobById jobs oid with
      | None => DetailsFailure (mkResponse 404 (JObject [("message", JString "Job not found")]))
      | Some job => SendsJobDetails job
      end
  end.

End JobsRouter.

(* ================================================================= *)
(** ** Writes to the jobs collection *)

(** The [enum] of [status] in [jobSchema]. *)
Definition jobStatusEnum : list string :=
  ["pending"; "in progress"; "completed"; "cancelled"].

(** The validators of [jobSchema] on a document ([job.save()] runs them
    on every path of the document, and refuses to store it when one
    fails): [required] on a string refuses the empty string as it refuses
    a missing value; [category] and [status] are in their enumerations;
    the coordinates pass the schema's validator; the budget is a number
    (the cast refuses [NaN]) and at least 0; the deadline is a valid date;
    the radius is between 1 and 50. *)
Definition jobValid (j : Job) : bool :=
  nonEmpty (j_title j)
  && nonEmpty (j_description j)
  && match j_category j with
     | Some c => existsb (String.eqb c) jobCategoryEnum
     | None => false
     end
  && match j_location j with
     | Some loc => String.eqb (point_type loc) "Point"
                   && jobCoordinatesValidator (coordinates loc)
     | None => false
     end
  && match j_address j with Some a => nonEmpty a | None => false end
  && (0 <=? j_budget j)%float
  && match j_deadline j with Some _ => true | None => false end
  && nonEmpty (j_timeStart j)
  && nonEmpty (j_timeEnd j)
  && existsb (String.eqb (j_status j)) jobStatusEnum
  && (1 <=? j_radius j)%float && (j_radius j <=? 50)%float.

(** The fields of [req.body] a job is created from.  The text fields are
    strings or left out (the form parser of the route delivers strings);
    the coordinates and the budget are whatever [parseFloat] is given. *)
Record JobBody : Type := mkJobBody {
  b_title : option string;
  b_description : option string;
  b_category : option string;
  b_address : option string;
  b_latitude : JSValue;
  b_longitude : JSValue;
  b_budget : JSValue;
  b_deadline : option string;
  b_timeStart : option string;
  b_timeEnd : option string
}.

Definition setStatus (status : string) (j : Job) : Job :=
  mkJob (j_id j) (j_title j) (j_description j) (j_category j) (j_location j)
        (j_address j) (j_budget j) (j_deadline j) (j_timeStart j) (j_timeEnd j)
        (j_images j) status (j_user j) (j_worker j) (j_createdAt j)
        (j_completedAt j) (j_radius j).

Definition setCompletedAt (t : Z) (j : Job) : Job :=
  mkJob (j_id j) (j_title j) (j_description j) (j_category j) (j_location j)
        (j_address j) (j_budget j) (j_deadline j) (j_timeStart j) (j_timeEnd j)
        (j_images j) (j_status j) (j_user j) (j_worker j) (j_createdAt j)
        (Some t) (j_radius j).

(** [job.user.toString() !== req.user._id.toString() &&
    (!job.worker || job.worker.toString() !== req.user._id.toString())]. *)
Definition notAuthorized (job : Job) (user : User) : bool :=
  negb (N.eqb (j_user job) (user_id user))
  && match j_worker job with
     | None => true
     | Some w => negb (N.eqb w (user_id user))
     end.

(** What a job creation leaves behind: the response and the two
    collections. *)
Record CreateResult : Type := mkCreateResult {
  cr_response : Response;
  cr_jobs : list Job;
  cr_workers : list Worker
}.

(** What a status update leaves behind: the response, the jobs
    collection, and the user whose [completedJobs] it increments
    ([User.findByIdAndUpdate(job.worker, { $inc: { completedJobs: 1 } })]),
    if any. *)
Record StatusResult : Type := mkStatusResult {
  sr_response : Response;
  sr_jobs : list Job;
  sr_userInc : option ObjectId
}.

Section JobWrites.

Variable parseFloatString : string -> float.

(** [new Date(s)] on a string: the engine's reader of date-time
    strings, an Invalid Date when it finds none. *)
Variable parseDate : string -> JSDate.Date.

(** [error.message] of the error [job.save()] throws for a document that
    fails the validators (the text is Mongoose's). *)
Variable validationMessage : Job -> string.

Definition orEmpty (s : option string) : string :=
  match s with Some x => x | None => "" end.

(** [new Job(jobData)]: the document before it is validated.  [title] is
    trimmed by the schema; [status], [createdAt] and [radius] take their
    defaults; a text path that is left out is shown as the empty string,
    which [required] refuses as well. *)
Definition newJob (newId : ObjectId) (createdAt : Z) (user : User) (b : JobBody)
           (files : option (list string)) (location : GeoPoint) : Job :=
  mkJob newId
        (JSString.trim (orEmpty (b_title b)))
        (orEmpty (b_description b))
        (b_category b)
        (Some location)
        (b_address b)
        (parseFloat parseFloatString (b_budget b))
        (match b_deadline b with Some s => parseDate s | None => None end)
        (orEmpty (b_timeStart b))
        (orEmpty (b_timeEnd b))
        (match files with
         | Some fs => map (fun filename => ("/uploads/" ++ filename)%string) fs
         | None => []
         end)
        "pending" (user_id user) None createdAt None 10%float.

(** [exports.createJob] (controllers/jobController.js).  [newId] is the
    [_id] the new document gets, [createdAt] the time it is built at,
    [notifiedAt] the time of the dispatch. *)
Definition createJob (newId : ObjectId) (createdAt notifiedAt : Z)
           (jobs : list Job) (workers : list Worker) (user : User)
           (b : JobBody) (files : option (list string)) : CreateResult :=
  if negb (String.eqb (userType user) "client")
  then mkCreateResult (errorHandler "Only clients can create jobs" 403) jobs workers
  else
    match createJob_location parseFloatString (b_latitude b) (b_longitude b) with
    | inl refused => mkCreateResult refused jobs workers
    | inr locationObj =>
        let job := newJob newId createdAt user b files locationObj in
        if jobValid job
        then mkCreateResult
               (mkResponse 201 (JObject [("success", JBool true);
                                         ("data", JObject (Job_toObject job))]))
               (jobs ++ [job])%list
               (snd (sendNotificationsToMatchingWorkers notifiedAt job workers))
        else mkCreateResult (errorHandler (validationMessage job) 400) jobs workers
    end.

(** [router.post('/create', auth, upload.array('images', 5), ...)]
    (routes/jobs.js). *)
Definition routeCreate (newId : ObjectId) (createdAt notifiedAt : Z)
           (jobs : list Job) (workers : list Worker) (user : User)
           (b : JobBody) (files : option (list string)) : CreateResult :=
  if negb (String.eqb (userType user) "client")
  then mkCreateResult
         (mkResponse 403 (JObject [("message", JString "Only clients can post jobs")]))
         jobs workers
  else
    match routeCreate_location parseFloatString (b_latitude b) (b_longitude b) with
    | inl refused => mkCreateResult refused jobs workers
    | inr location =>
        let job := newJob newId createdAt user b files location in
        if jobValid job
        then mkCreateResult
               (mkResponse 201 (JObject (Job_toObject job)))
               (jobs ++ [job])%list
               (snd (sendNotificationsToMatchingWorkers notifiedAt job workers))
        else mkCreateResult
               (mkResponse 400 (JObject [("message", JString (validationMessage job))]))
               jobs workers
    end.

(** [exports.updateJobStatus] (controllers/jobController.js), for a
    [status] that is a string. *)
Definition updateJobStatus (now : Z) (jobs : list Job) (user : User) (id : ObjectId)
           (status : string) : StatusResult :=
  match findJobById jobs id with
  | None => mkStatusResult (errorHandler "Job not found" 404) jobs None
  | Some job =>
      if notAuthorized job user
      then mkStatusResult (errorHandler "Not authorized" 403) jobs None
      else
        let job := setStatus status job in
        let completed := String.eqb status "completed" in
        let job := if completed then setCompletedAt now job else job in
        let userInc := if completed then j_worker job else None in
        if jobValid job
        then mkStatusResult
               (mkResponse 200 (JObject [("success", JBool true);
                                         ("data", JObject (Job_toObject job))]))
               (saveJob job jobs) userInc
        else mkStatusResult (errorHandler (validationMessage job) 400) jobs userInc
  end.

(** [router.patch('/:id/status', auth, ...)] (routes/jobs.js). *)
Definition routeStatus (now : Z) (jobs : list Job) (user : User) (id : ObjectId)
           (status : string) : StatusResult :=
  match findJobById jobs id with
  | None => mkStatusResult (mkResponse 404 (JObject [("message", JString "Job not found")]))
                           jobs None
  | Some job =>
      if notAuthorized job user
      then mkStatusResult (mkResponse 403 (JObject [("message", JString "Not authorized")]))
                          jobs None
      else
        let job := setStatus status job in
        let completed := String.eqb status "completed" in
        let job := if completed then setCompletedAt now job else job in
        let userInc := if completed then j_worker job else None in
        if jobValid job
        then mkStatusResult (res_json (JObject (Job_toObject job))) (saveJob job jobs) userInc
        else mkStatusResult
               (mkResponse 400 (JObject [("message", JString (validationMessage job))]))
               jobs userInc
  end.

(** [router.post('/:id/review', auth, ...)] (routes/jobs.js): the body of
    [addReview] with the route's responses. *)
Definition routeReview (strictQuery : bool) (jobs : list Job) (user : User)
           (id : ObjectId) (rating review : Json) : ReviewResult :=
  match findJobById jobs id with
  | None => mkReviewResult (mkResponse 404 (JObject [("message", JString "Job not found")]))
                           jobs None
  | Some j =>
      let job := loadJob j in
      if negb (N.eqb (j_user (jd_doc job)) (user_id user))
      then mkReviewResult (mkResponse 403 (JObject [("message", JString "Not authorized")]))
                          jobs None
      else if negb (String.eqb (j_status (jd_doc job)) "completed")
      then mkReviewResult
             (mkResponse 400 (JObject [("message", JString "Can only review completed jobs")]))
             jobs None
      else
        let job := setOwn "rating" rating job in
        let job := setOwn "review" review job in
        let jobs' := saveJob (jd_doc job) jobs in
        let workerJobs := findRatedJobs strictQuery (j_worker (jd_doc job)) jobs' in
        mkReviewResult
          (res_json (JObject (Job_toObject (jd_doc job))))
          jobs'
          (Some (j_worker (jd_doc job), averageRating workerJobs))
  end.

(** One request that writes to the jobs collection, seen from the
    collection: the handlers of controllers/jobController.js and the
    routes of routes/jobs.js that create, accept, update or review a
    job. *)
Inductive JobsStep : list Job -> list Job -> Prop :=
| step_createJob newId createdAt notifiedAt jobs workers user b files :
    JobsStep jobs (cr_jobs (createJob newId createdAt notifiedAt jobs workers user b files))
| step_routeCreate newId createdAt notifiedAt jobs workers user b files :
    JobsStep jobs (cr_jobs (routeCreate newId createdAt notifiedAt jobs workers user b files))
| step_acceptJob jobs user id :
    JobsStep jobs (snd (acceptJob jobs user id))
| step_routeAccept jobs user id :
    JobsStep jobs (snd (routeAccept jobs user id))
| step_updateJobStatus now jobs user id status :
    JobsStep jobs (sr_jobs (updateJobStatus now jobs user id status))
| step_routeStatus now jobs user id status :
    JobsStep jobs (sr_jobs (routeStatus now jobs user id status))
| step_addReview strictQuery jobs user id rating review :
    JobsStep jobs (rr_jobs (addReview strictQuery jobs user id rating review))
| step_routeReview strictQuery jobs user id rating review :
    JobsStep jobs (rr_jobs (routeReview strictQuery jobs user id rating review)).

(** Any number of such requests, one after the other. *)
Inductive JobsSteps : list Job -> list Job -> Prop :=
| steps_none jobs : JobsSteps jobs jobs
| steps_more jobs jobs' jobs'' :
    JobsSteps jobs jobs' -> JobsStep jobs' jobs'' -> JobsSteps jobs jobs''.

End JobWrites.

(* ================================================================= *)
(** ** Worker profiles *)

(** What a profile handler sends: a failure, or the profile document
    with a status code (bare, or as the [data] of
    [{ success: true, data }]). *)
Inductive ProfileResponse : Type :=
| SendsProfile (code : nat) (worker : Worker)
| SendsFailure (r : Response).

Definition setSkills (skills : list string) (w : Worker) : Worker :=
  mkWorker (w_id w) (w_user w) skills (w_serviceRadius w) (w_location w)
           (w_notifications w) (w_city w) (w_rating w) (w_completedJobs w)
           (w_categories w).

Definition setCategories (categories : list string) (w : Worker) : Worker :=
  mkWorker (w_id w) (w_user w) (w_skills w) (w_serviceRadius w) (w_location w)
           (w_notifications w) (w_city w) (w_rating w) (w_completedJobs w)
           categories.

Definition setServiceRadius (r : option float) (w : Worker) : Worker :=
  mkWorker (w_id w) (w_user w) (w_skills w) r (w_location w)
           (w_notifications w) (w_city w) (w_rating w) (w_completedJobs w)
           (w_categories w).

Definition setCity (c : option string) (w : Worker) : Worker :=
  mkWorker (w_id w) (w_user w) (w_skills w) (w_serviceRadius w) (w_location w)
           (w_notifications w) c (w_rating w) (w_completedJobs w)
           (w_categories w).

(** [Worker.findOneAndUpdate({ user }, update, { new: true })]: the first
    profile of the user is changed and returned.  No [save] middleware
    runs, so the pre-save hook does not. *)
Fixpoint findOneAndUpdate (user : ObjectId) (update : Worker -> Worker)
         (workers : list Worker) : option Worker * list Worker :=
  match workers with
  | [] => (None, [])
  | w :: r =>
      if N.eqb (w_user w) user then (Some (update w), update w :: r)
      else let '(found, r') := findOneAndUpdate user update r in (found, w :: r')
  end.

(** [skills ? skills.map(skill => skill.toLowerCase().trim()) : ['general']]. *)
Definition normalizedSkills (skills : option (list string)) : list string :=
  match skills with
  | Some l => map lowerTrim l
  | None => ["general"]
  end.

(** [v || undefined] for an optional number and an optional string. *)
Definition truthyNumber (v : option float) : option float :=
  match v with
  | Some x => if JSNumber.falsy x then None else Some x
  | None => None
  end.

Definition truthyString (v : option string) : option string :=
  match v with
  | Some (String c r) => Some (String c r)
  | _ => None
  end.

(** A key of [$set] whose value may be [undefined].  Mongoose leaves such
    a key out of the update when [omitUndefined] is on (always, from
    version 6); otherwise the path is set to [null]. *)
Definition setOrSkip {A : Type} (omitUndefined : bool) (set : option A -> Worker -> Worker)
           (v : option A) (w : Worker) : Worker :=
  match v with
  | Some _ => set v w
  | None => if omitUndefined then w else set None w
  end.

(** [router.put('/profile', auth, isWorker, ...)] (routes/worker.js), for
    skills that are strings, a numeric radius and a city that is a
    string. *)
Definition putProfile (omitUndefined : bool) (workers : list Worker) (user : User)
           (skills : option (list string)) (serviceRadius : option float)
           (city : option string) : ProfileResponse * list Worker :=
  if negb (String.eqb (userType user) "worker")
  then (SendsFailure
          (mkResponse 403 (JObject [("message", JString "Access denied. Worker only route.")])),
        workers)
  else
    let updateObj w :=
      setOrSkip omitUndefined setCity (truthyString city)
        (setOrSkip omitUndefined setServiceRadius (truthyNumber serviceRadius)
           (setCategories (normalizedSkills skills)
              (setSkills (normalizedSkills skills) w))) in
    match findOneAndUpdate (user_id user) updateObj workers with
    | (Some worker, workers') => (SendsProfile 200 worker, workers')
    | (None, _) =>
        (SendsFailure
           (mkResponse 404 (JObject [("message", JString "Worker profile not found")])),
         workers)
    end.

Section Profiles.

Variable parseFloatString : string -> float.

(** Whether the database stores a profile with these coordinates: the
    collection has a [2dsphere] index on [location], and MongoDB refuses
    a document whose point it cannot index. *)
Variable indexed : list float -> bool.

(** [error.message] of the error a refused profile raises. *)
Variable refusalMessage : Worker -> string.

(** The update validators ([runValidators: true]) on the skills of an
    update, and the message of the error they raise. *)
Variable skillsAccepted : list string -> bool.
Variable updateMessage : list string -> string.

(** [Worker.create(data)]: the document is validated, the pre-save hook
    runs, and the database stores it. [None] when the creation throws. *)
Definition createWorker (w : Worker) (workers : list Worker)
  : option (Worker * list Worker) :=
  if workerValid w
  then
    let w := preSave w in
    if match w_location w with Some loc => indexed (coordinates loc) | None => false end
    then Some (w, (workers ++ [w])%list)
    else None
  else None.

(** [router.post('/ensure-profile', auth, isWorker, ...)]
    (routes/worker.js), for skills that are strings.  ([experience] is
    not a path of [workerSchema] and is not stored.) *)
Definition ensureProfile (newId : ObjectId) (workers : list Worker) (user : User)
           (latitude longitude : JSValue) (skills : option (list string))
  : ProfileResponse * list Worker :=
  if negb (String.eqb (userType user) "worker")
  then (SendsFailure
          (mkResponse 403 (JObject [("message", JString "Access denied. Worker only route.")])),
        workers)
  else
    match find (fun w => N.eqb (w_user w) (user_id user)) workers with
    | Some worker => (SendsProfile 200 worker, workers)
    | None =>
        let coordinates := ensureProfile_coordinates parseFloatString latitude longitude in
        let data :=
          mkWorker newId (user_id user) (normalizedSkills skills) (Some 50%float)
                   (Some (mkGeoPoint "Point" coordinates)) [] None 0%float 0%Z
                   (normalizedSkills skills) in
        match createWorker data workers with
        | Some (worker, workers') => (SendsProfile 200 worker, workers')
        | None =>
            (SendsFailure
               (mkResponse 500 (JObject [("success", JBool false);
                                         ("message", JString "Failed to ensure worker profile");
                                         ("error", JString (refusalMessage data))])),
             workers)
        end
    end.

(** [exports.register] (controllers/userController.js), the part that
    creates the worker profile of a new user of type worker: the
    location it is given. *)
Definition register_location (cityLatitude cityLongitude : JSValue) (city : option string)
  : GeoPoint :=
  match validateCoordinates parseFloatString cityLatitude cityLongitude with
  | Some locationObj => locationObj
  | None =>
      match truthyString city with
      | Some _ => mkGeoPoint "Point" [77.2090; 28.6139]%float
      | None => mkGeoPoint "Point" [77.2090; 28.6139]%float
      end
  end.

(** The profile [register] creates for the new user [userId]. *)
Definition registerWorker (newId userId : ObjectId) (workers : list Worker)
           (skills : option (list string)) (city : option string)
           (cityLatitude cityLongitude : JSValue) : option (Worker * list Worker) :=
  let locationObj := register_location cityLatitude cityLongitude city in
  let workerData :=
    mkWorker newId userId
             (match skills with Some l => l | None => [] end)
             (Some 10%float) (Some locationObj) []
             (Some (match truthyString city with Some c => c | None => "" end))
             0%float 0%Z [] in
  createWorker workerData workers.

(** [exports.updateWorkerProfile] (controllers/userController.js), for
    skills that are strings, a numeric radius and a city that is a
    string. *)
Definition updateWorkerProfile (workers : list Worker) (user : User)
           (skills : option (list string)) (serviceRadius : option float)
           (city : option string) (cityLatitude cityLongitude : JSValue)
  : ProfileResponse * list Worker :=
  if negb (String.eqb (userType user) "worker")
  then (SendsFailure (errorHandler "Not authorized to update worker profile" 403), workers)
  else
    let withSkills w :=
      match skills with Some l => setSkills (map lowerTrim l) w | None => w end in
    let withRadius w :=
      match truthyNumber serviceRadius with
      | Some r => setServiceRadius (Some r) w
      | None => w
      end in
    let withCity w :=
      match truthyString city with Some c => setCity (Some c) w | None => w end in
    match updateWorkerProfile_location parseFloatString cityLatitude cityLongitude with
    | Some (inl refused) => (SendsFailure refused, workers)
    | location =>
        let withLocation w :=
          match location with Some (inr locationObj) => setLocation locationObj w | _ => w end in
        let updateData w := withLocation (withCity (withRadius (withSkills w))) in
        if match skills with Some l => skillsAccepted (map lowerTrim l) | None => true end
        then
          match findOneAndUpdate (user_id user) updateData workers with
          | (Some worker, workers') => (SendsProfile 200 worker, workers')
          | (None, _) => (SendsFailure (errorHandler "Worker profile not found" 404), workers)
          end
        else
          (SendsFailure
             (errorHandler (updateMessage (match skills with Some l => map lowerTrim l
                                                       | None => [] end)) 500),
           workers)
    end.

(** One request that writes to the workers collection, seen from the
    collection.  The [_id] a new profile gets is new; the user
    [register] creates a profile for is new as well: no profile refers
    to it. *)
Inductive WorkersStep : list Worker -> list Worker -> Prop :=
| step_ensureProfile newId workers user latitude longitude skills :
    ~ In newId (map w_id workers) ->
    WorkersStep workers (snd (ensureProfile newId workers user latitude longitude skills))
| step_putProfile omitUndefined workers user skills serviceRadius city :
    WorkersStep workers (snd (putProfile omitUndefined workers user skills serviceRadius city))
| step_updateWorkerProfile workers user skills serviceRadius city cityLatitude cityLongitude :
    WorkersStep workers
      (snd (updateWorkerProfile workers user skills serviceRadius city
              cityLatitude cityLongitude))
| step_updateLocation workers user latitude longitude :
    WorkersStep workers (snd (updateLocation parseFloatString workers user latitude longitude))
| step_dispatch now job workers :
    WorkersStep workers (snd (sendNotificationsToMatchingWorkers now job workers))
| step_register newId userId workers skills city cityLatitude cityLongitude worker workers' :
    ~ In newId (map w_id workers) ->
    ~ In userId (map w_user workers) ->
    registerWorker newId userId workers skills city cityLatitude cityLongitude
    = Some (worker, workers') ->
    WorkersStep workers workers'.

Inductive WorkersSteps : list Worker -> list Worker -> Prop :=
| wsteps_none workers : WorkersSteps workers workers
| wsteps_more workers workers' workers'' :
    WorkersSteps workers workers' -> WorkersStep workers' workers'' ->
    WorkersSteps workers workers''.

End Profiles.

(* ================================================================= *)
(** ** The notification list *)

(** [notifications.filter(n => !n.isRead).length]. *)
Definition unreadCount (notifications : list Notification) : nat :=
  List.length (filter (fun n => negb (n_isRead n)) notifications).

(** [notifications.sort((a, b) => b.createdAt - a.createdAt)]: newest
    first, and notifications of the same time in the order they had (the
    sort is stable). *)
Fixpoint insertNewest (n : Notification) (l : list Notification) : list Notification :=
  match l with
  | [] => [n]
  | x :: r => if (n_createdAt x <=? n_createdAt n)%Z then n :: l
              else x :: insertNewest n r
  end.

Definition sortNewestFirst (l : list Notification) : list Notification :=
  fold_right insertNewest [] l.

(** What [router.get('/notifications', auth, isWorker, ...)] sends: a
    failure, or the list of notifications and the count of the unread
    ones.  An entry of the list stands for the object the route builds
    from the fields of a notification and the selected fields of the job
    [populate] found for it ([None] is [null]). *)
Inductive NotificationsResponse : Type :=
| SendsNotifications (notifications : list (Notification * option Job)) (unread : nat)
| NotificationsFailure (r : Response).

(** [router.get('/notifications', auth, isWorker, ...)] (routes/worker.js). *)
Definition getNotifications (workers : list Worker) (jobs : list Job) (user : User)
  : NotificationsResponse :=
  if negb (String.eqb (userType user) "worker")
  then NotificationsFailure
         (mkResponse 403 (JObject [("message", JString "Access denied. Worker only route.")]))
  else
    match find (fun w => N.eqb (w_user w) (user_id user)) workers with
    | None => NotificationsFailure
                (mkResponse 404 (JObject [("message", JString "Worker not found")]))
    | Some worker =>
        let notifications := sortNewestFirst (w_notifications worker) in
        SendsNotifications
          (map (fun notification =>
                  (notification,
                   match n_job notification with
                   | Some id => findJobById jobs id
                   | None => None
                   end))
               notifications)
          (unreadCount notifications)
    end.

(* ================================================================= *)
(** ** middleware/error.js and middleware/auth.js *)

Module Middleware.

(** [err.code]: absent, a number or a string. *)
Inductive ErrorCode : Type :=
| NoCode
| NumberCode (n : Z)
| StringCode (s : string).

(** The properties of an error the error middleware reads.
    [e_statusCode] is the own property an [ErrorResponse] carries;
    [e_value] is [err.value] as the template literal prints it;
    [e_keyValue] is [Object.keys(err.keyValue)] and [e_errors] the
    messages of [Object.values(err.errors)], [None] when the property is
    missing (reading its keys or values then throws). *)
Record JSError : Type := mkJSError {
  e_name : string;
  e_message : string;
  e_statusCode : option nat;
  e_code : ErrorCode;
  e_value : string;
  e_keyValue : option (list string);
  e_errors : option (list string);
  e_stack : string
}.

(** [new ErrorResponse(message, statusCode)], the class the handlers
    import from utils/errorResponse.js: an [Error] with that message and
    the own property [statusCode]. *)
Definition ErrorResponse (message : string) (statusCode : nat) : JSError :=
  mkJSError "Error" message (Some statusCode) NoCode "" None None "".

(** [String.prototype.toUpperCase] on one character of the ASCII range. *)
Definition upper_ascii (c : ascii) : ascii :=
  let n := nat_of_ascii c in
  if (97 <=? n)%nat && (n <=? 122)%nat then ascii_of_nat (n - 32) else c.

(** [field.charAt(0).toUpperCase() + field.slice(1)]. *)
Definition capitalize (field : string) : string :=
  match field with
  | EmptyString => EmptyString
  | String c r => String (upper_ascii c) r
  end.

(** [err.code === n] and [err.code === s]. *)
Definition codeIsNumber (n : Z) (c : ErrorCode) : bool :=
  match c with NumberCode m => Z.eqb m n | _ => false end.

Definition codeIsString (s : string) (c : ErrorCode) : bool :=
  match c with StringCode s' => String.eqb s' s | _ => false end.

(** The [error] variable of the middleware: its [statusCode] and its
    [message]. *)
Definition ErrorState : Type := (option nat * string)%type.

(** [errorHandler] (middleware/error.js). [development] is
    [process.env.NODE_ENV === 'development']; [None] when the middleware
    itself throws. *)
Definition errorHandler (development : bool) (err : JSError) : option Response :=
  let error : ErrorState := (e_statusCode err, e_message err) in
  let error : ErrorState :=
    if String.eqb (e_name err) "CastError"
    then (Some 404%nat, ("Resource not found with id of " ++ e_value err)%string)
    else error in
  let afterDuplicateKey : option ErrorState :=
    if codeIsNumber 11000 (e_code err)
    then match e_keyValue err with
         | Some (field :: _) =>
             Some (Some 400%nat, (capitalize field ++ " already exists")%string)
         | _ => None
         end
    else Some error in
  match afterDuplicateKey with
  | None => None
  | Some error =>
      let afterValidation : option ErrorState :=
        if String.eqb (e_name err) "ValidationError"
        then match e_errors err with
             | Some messages => Some (Some 400%nat, JSString.join "," messages)
             | None => None
             end
        else Some error in
      match afterValidation with
      | None => None
      | Some error =>
          let error : ErrorState :=
            if String.eqb (e_name err) "JsonWebTokenError"
            then (Some 401%nat, "Invalid token") else error in
          let error : ErrorState :=
            if String.eqb (e_name err) "TokenExpiredError"
            then (Some 401%nat, "Token expired") else error in
          let error : ErrorState :=
            if codeIsString "LIMIT_FILE_SIZE" (e_code err)
            then (Some 400%nat, "File size too large") else error in
          let error : ErrorState :=
            if codeIsString "LIMIT_UNEXPECTED_FILE" (e_code err)
            then (Some 400%nat, "Unexpected file type") else error in
          Some (mkResponse
                  (match fst error with
                   | Some (S n) => S n
                   | _ => 500%nat
                   end)
                  (JObject
                     ([("success", JBool false);
                       ("error", JString (match snd error with
                                          | EmptyString => "Server Error"
                                          | m => m
                                          end))]
                      ++ (if development
                          then [("stack", JString (e_stack err));
                                ("errorName", JString (e_name err))]
                          else []))%list))
      end
  end.

(** [s.replace(pattern, replacement)] for a string pattern: the first
    occurrence is replaced. *)
Fixpoint dropChars (n : nat) (s : string) : string :=
  match n, s with
  | S k, String _ r => dropChars k r
  | _, _ => s
  end.

Fixpoint replace (pattern replacement s : string) : string :=
  if String.prefix pattern s
  then (replacement ++ dropChars (String.length pattern) s)%string
  else match s with
       | EmptyString => EmptyString
       | String c r => String c (replace pattern replacement r)
       end.

(** What [jwt.verify(token, secret)] and the lookup of [decoded._id]
    come to: a payload with a well-formed [_id], one without [_id], one
    whose [_id] cannot be cast to an id, an expired token, and a token
    that does not verify. *)
Inductive Verdict : Type :=
| DecodedId (id : ObjectId)
| DecodedWithoutId
| DecodedBadId
| TokenExpired
| TokenRejected.

(** The auth middleware (middleware/auth.js): the response it sends, or
    the user and the token it puts in the request before [next()]. *)
Definition auth (verify : string -> Verdict) (users : list User)
           (authorization : option string) : Response + (User * string) :=
  let token := option_map (replace "Bearer " "") authorization in
  match token with
  | None | Some EmptyString =>
      inl (mkResponse 401 (JObject [("message", JString "No token, authorization denied")]))
  | Some token =>
      match verify token with
      | DecodedId id =>
          match find (fun u => N.eqb (user_id u) id) users with
          | Some user => inr (user, token)
          | None => inl (mkResponse 401 (JObject [("message", JString "User not found")]))
          end
      | DecodedWithoutId =>
          inl (mkResponse 401 (JObject [("message", JString "User not found")]))
      | TokenExpired =>
          inl (mkResponse 401
                 (JObject [("message", JString "Session expired, please login again");
                           ("expired", JBool true)]))
      | DecodedBadId | TokenRejected =>
          inl (mkResponse 401 (JObject [("message", JString "Invalid authentication token")]))
      end
  end.

End Middleware.

(* ================================================================= *)
(** ** The vocabulary of the further statements *)

(** The strings a response lists, when its body is an array of strings. *)
Definition listed (r : Response) : list string :=
  match body r with
  | JArray l => flat_map (fun v => match v with JString s => [s] | _ => [] end) l
  | _ => []
  end.

(** The objects in the [data] array of a response. *)
Definition dataOf (r : Response) : list Obj.t :=
  match Obj.get "data" (bodyProps r) with
  | Some (JArray l) => flat_map (fun v => match v with JObject o => [o] | _ => [] end) l
  | _ => []
  end.

(** Newest first: every document is at least as new as those after it. *)
Definition newestFirst (l : list Job) : Prop :=
  StronglySorted (fun a b => (j_createdAt b <= j_createdAt a)%Z) l.

Definition newestNotificationFirst (l : list Notification) : Prop :=
  StronglySorted (fun a b => (n_createdAt b <= n_createdAt a)%Z) l.

(** The pair is the origin: both numbers are zero ([0] or [-0]). *)
Definition isOrigin (lat lng : float) : bool :=
  (JSNumber.strict_eq lng 0 && JSNumber.strict_eq lat 0)%float.

(** The user is the poster of the job or the worker assigned to it. *)
Definition posterOrWorker (job : Job) (user : User) : Prop :=
  j_user job = user_id user \/ j_worker job = Some (user_id user).

(** The job [id] is stored, posted by [poster] and assigned to
    [worker]. *)
Definition assignedTo (id poster worker : ObjectId) (jobs : list Job) : Prop :=
  exists job, findJobById jobs id = Some job
              /\ j_user job = poster /\ j_worker job = Some worker.

(** Every stored job passes the validators of the schema. *)
Definition allValid (jobs : list Job) : Prop :=
  Forall (fun j => jobValid j = true) jobs.

(** The profiles have distinct ids and no user has two of them. *)
Definition profilesDistinct (workers : list Worker) : Prop :=
  NoDup (map w_id workers) /\ NoDup (map w_user workers).

(** The first profile of a user, as [Worker.findOne({ user })] finds
    it. *)
Definition profileOf (user : User) (workers : list Worker) : option Worker :=
  find (fun w => N.eqb (w_user w) (user_id user)) workers.

(** No category of the list is a category a job can have. *)
Definition noJobCategory (cats : list string) : Prop :=
  forall c, In c cats -> ~ In c jobCategoryEnum.

(* ================================================================= *)
(** ** More sample data *)

Module Scenario.

(** A reader of date-time strings that knows one date. *)
Definition oneDate (_ : string) : JSDate.Date := Some 1700000000000%Z.

Definition noMessage (_ : Job) : string := "validation failed".

Definition leakBody : JobBody :=
  mkJobBody (Some "  Fix Bathroom Leak ") (Some "The tap leaks") (Some "plumbing")
            (Some "A-15, Vasant Kunj, New Delhi, Delhi 110070")
            (JSNum 28.6139) (JSNum 77.2090) (JSNum 1800) (Some "2023-11-14")
            (Some "10:00") (Some "12:00").

(** Raj's profile with two notifications, the older one read. *)
Definition rajNotified : Worker :=
  mkWorker 11%N 1%N ["plumbing"; "electrical"] (Some 15%float) (Some Sample.delhi)
           [mkNotification "new_job" "New job available: Fix Bathroom Leak" (Some 101%N)
                           true 1690000000000%Z;
            mkNotification "new_job" "New job available: Electrical Wiring Installation"
                           (Some 102%N) false 1690000500000%Z]
           None 0%float 0%Z ["plumbing"; "electrical"].

(** Raj's profile after [PUT /profile] with the skills Plumbing and
    Welding: the categories are the skills as sent, lower-cased. *)
Definition welder : Worker :=
  mkWorker 11%N 1%N ["plumbing"; "welding"] (Some 15%float) (Some Sample.delhi) []
           None 0%float 0%Z ["plumbing"; "welding"].

Definition anyIndex (_ : list float) : bool := true.
Definition noRefusal (_ : Worker) : string := "refused".
Definition anySkills (_ : list string) : bool := true.
Definition noUpdateMessage (_ : list string) : string := "refused".

End Scenario.

(* ================================================================= *)
(** * Facts about the numbers *)

Module FloatFacts.

Local Open Scope float_scope.

Lemma SFcompare_swap (x y : spec_float) :
  SFcompare y x = option_map CompOpp (SFcompare x y).
Proof.
  destruct x as [sx|sx| |sx mx ex], y as [sy|sy| |sy my ey]; simpl; try reflexivity;
    try (destruct sx; reflexivity); try (destruct sy; reflexivity);
    try (destruct sx, sy; reflexivity).
  destruct sx, sy; simpl; try reflexivity;
    rewrite (Z.compare_antisym ex ey);
    destruct (ex ?= ey)%Z; simpl; try reflexivity;
    change (Pos.compare_cont Eq my mx) with (Pos.compare my mx);
    change (Pos.compare_cont Eq mx my) with (Pos.compare mx my);
    rewrite (Pos.compare_antisym mx my); destruct (mx ?= my)%positive; reflexivity.
Qed.

Lemma SFcompare_refl (x : spec_float) :
  SFcompare x x = match x with S754_nan => None | _ => Some Eq end.
Proof.
  destruct x as [s|s| |s m e]; simpl; try reflexivity; try (destruct s; reflexivity).
  destruct s; rewrite Z.compare_refl;
  change (Pos.compare_cont Eq m m) with (Pos.compare m m);
  rewrite Pos.compare_refl; reflexivity.
Qed.

Lemma is_nan_spec (x : float) : is_nan x = true <-> Prim2SF x = S754_nan.
Proof.
  unfold is_nan. rewrite eqb_spec. unfold SFeqb. rewrite SFcompare_refl.
  destruct (Prim2SF x); simpl; split; intros H; congruence.
Qed.

Lemma not_nan_spec (x : float) : is_nan x = false <-> Prim2SF x <> S754_nan.
Proof.
  rewrite <- is_nan_spec. destruct (is_nan x); split; congruence.
Qed.

Lemma SFcompare_defined (x y : spec_float) :
  x <> S754_nan -> y <> S754_nan -> exists c, SFcompare x y = Some c.
Proof.
  intros Hx Hy.
  destruct x as [sx|sx| |sx mx ex], y as [sy|sy| |sy my ey]; simpl; try congruence; eauto.
Qed.

(** On numbers, [x < y] is the negation of [y <= x]. *)
Lemma ltb_negb_leb (x y : float) :
  is_nan x = false -> is_nan y = false -> (x <? y) = negb (y <=? x).
Proof.
  intros Hx Hy. apply not_nan_spec in Hx. apply not_nan_spec in Hy.
  rewrite ltb_spec, leb_spec. unfold SFltb, SFleb.
  rewrite (SFcompare_swap (Prim2SF x) (Prim2SF y)).
  destruct (SFcompare_defined _ _ Hx Hy) as [c ->].
  destruct c; reflexivity.
Qed.

(** The range test of the validators, read as an interval. *)
Lemma outside_iff (lo hi x : float) :
  is_nan lo = false -> is_nan hi = false -> is_nan x = false ->
  ((x <? lo) || (hi <? x))%bool = false <-> JSNumber.within lo hi x.
Proof.
  intros Hlo Hhi Hx. unfold JSNumber.within.
  rewrite (ltb_negb_leb x lo Hx Hlo), (ltb_negb_leb hi x Hhi Hx).
  destruct (lo <=? x), (x <=? hi); simpl; intuition congruence.
Qed.

Lemma nan_add (x : float) : nan + x = nan.
Proof. apply Prim2SF_inj. rewrite add_spec. reflexivity. Qed.

Lemma nan_div (x : float) : nan / x = nan.
Proof. apply Prim2SF_inj. rewrite div_spec. reflexivity. Qed.

End FloatFacts.

(* ================================================================= *)
(** * Coordinate validation *)

Section ValidateCoordinates.

Import FloatFacts.
Local Open Scope float_scope.

Variable parseFloatString : string -> float.

(** C1. For every pair of raw values, [validateCoordinates] returns
    [null] exactly when one of the parsed values is not a number, the
    latitude is outside [-90, 90] or the longitude is outside
    [-180, 180]; in every other case it returns the point whose
    coordinates are [[lng, lat]], longitude first.  The function is total:
    no input makes it throw. *)
Theorem validateCoordinates_spec (latRaw lngRaw : JSValue) :
  let lat := parseFloat parseFloatString latRaw in
  let lng := parseFloat parseFloatString lngRaw in
  (invalidPair lat lng <-> validateCoordinates parseFloatString latRaw lngRaw = None)
  /\ (~ invalidPair lat lng ->
      validateCoordinates parseFloatString latRaw lngRaw
      = Some {| point_type := "Point"; coordinates := [lng; lat] |}).
Proof.
  intros lat lng. unfold validateCoordinates, invalidPair. fold lat lng.
  destruct (is_nan lat) eqn:Hlat; [simpl; split; [tauto | intros H; exfalso; apply H; auto] |].
  destruct (is_nan lng) eqn:Hlng; [simpl; split; [tauto | intros H; exfalso; apply H; auto] |].
  simpl.
  pose proof (outside_iff (-90) 90 lat eq_refl eq_refl Hlat) as Ha.
  pose proof (outside_iff (-180) 180 lng eq_refl eq_refl Hlng) as Hb.
  destruct ((lat <? -90) || (90 <? lat))%bool eqn:Ea;
    [ simpl; split; [ split; [reflexivity|];
                      intros _; right; right; left; intros W; apply Ha in W; discriminate
                    | intros H; exfalso; apply H; right; right; left;
                      intros W; apply Ha in W; discriminate ] | ].
  simpl.
  destruct ((lng <? -180) || (180 <? lng))%bool eqn:Eb.
  - simpl. split.
    + split; [reflexivity|]. intros _. right; right; right. intros W. apply Hb in W. discriminate.
    + intros H. exfalso. apply H. right; right; right. intros W. apply Hb in W. discriminate.
  - simpl.
    assert (Wa : JSNumber.within (-90) 90 lat) by (apply Ha; reflexivity).
    assert (Wb : JSNumber.within (-180) 180 lng) by (apply Hb; reflexivity).
    split; [| reflexivity].
    split; [| discriminate].
    intros [H|[H|[H|H]]]; try discriminate; contradiction.
Qed.

(** X4. A point the validator returns satisfies the validator of the
    job schema. *)
Lemma validateCoordinates_passes_schema (latRaw lngRaw : JSValue) (p : GeoPoint) :
  validateCoordinates parseFloatString latRaw lngRaw = Some p ->
  jobCoordinatesValidator (coordinates p) = true.
Proof.
  unfold validateCoordinates.
  set (lat := parseFloat parseFloatString latRaw).
  set (lng := parseFloat parseFloatString lngRaw).
  destruct (is_nan lat) eqn:Hlat; [discriminate|].
  destruct (is_nan lng) eqn:Hlng; [discriminate|]. simpl.
  rewrite (ltb_negb_leb lat (-90) Hlat eq_refl), (ltb_negb_leb 90 lat eq_refl Hlat),
    (ltb_negb_leb lng (-180) Hlng eq_refl), (ltb_negb_leb 180 lng eq_refl Hlng).
  unfold jobCoordinatesValidator.
  destruct (-90 <=? lat) eqn:E1, (lat <=? 90) eqn:E2,
           (-180 <=? lng) eqn:E3, (lng <=? 180) eqn:E4; simpl; try discriminate.
  intros H. injection H as <-. unfold elem. simpl.
  rewrite E1, E2, E3, E4. reflexivity.
Qed.

End ValidateCoordinates.

Example validateCoordinates_delhi :
  validateCoordinates Sample.noNumber (JSNum 28.6139) (JSNum 77.2090)
  = Some (mkGeoPoint "Point" [77.2090; 28.6139]%float).
Proof. reflexivity. Qed.

Lemma validateCoordinates_passes_schema_witness :
  jobCoordinatesValidator (coordinates Sample.delhi) = true.
Proof.
  apply (validateCoordinates_passes_schema Sample.noNumber (JSNum 28.6139) (JSNum 77.2090)
           Sample.delhi).
  reflexivity.
Defined.

Example validateCoordinates_rejects :
  validateCoordinates Sample.noNumber (JSNum 91) (JSNum 10) = None
  /\ validateCoordinates Sample.noNumber (JSNum 10) (JSNum (-180.5)) = None
  /\ validateCoordinates Sample.noNumber JSUndefined (JSNum 10) = None
  /\ validateCoordinates Sample.noNumber (JSStr "north") (JSNum 10) = None
  /\ validateCoordinates Sample.noNumber (JSNum infinity) (JSNum 10) = None.
Proof. repeat split; reflexivity. Qed.

(* ================================================================= *)
(** * The point (0, 0) *)

Lemma find_findOneAndSetLocation (u : ObjectId) (loc : GeoPoint) (ws : list Worker) (w : Worker) :
  find (fun w => N.eqb (w_user w) u) ws = Some w ->
  fst (findOneAndSetLocation u loc ws) = Some (setLocation loc w)
  /\ find (fun w => N.eqb (w_user w) u) (snd (findOneAndSetLocation u loc ws))
     = Some (setLocation loc w).
Proof.
  induction ws as [|x r IH]; simpl; [discriminate|].
  destruct (N.eqb (w_user x) u) eqn:E.
  - intros H. injection H as ->. simpl. rewrite E. split; reflexivity.
  - intros H. specialize (IH H).
    destruct (findOneAndSetLocation u loc r) as [found r']. simpl in *.
    rewrite E. exact IH.
Qed.

(** C10, as the code has it. For latitude 0 and longitude 0 the validator
    returns the point [[0, 0]]: [createJob] builds the job with it, the
    schema validator of the job lets it through, and the update-location
    route stores it as the worker's location.  Of the places where the
    server decides on coordinates, five do not take the pair: the
    nearby-jobs route, which answers 400 to a worker registered at
    [(0, 0)]; [isValidCoordinates]; the inline check of the [POST /create]
    route, which refuses every coordinate that is zero; the ensure-profile
    route, which creates the profile at its default coordinates instead;
    and [updateWorkerProfile], which leaves the location as it was. *)
Theorem origin_accepted_and_refused (parseFloatString : string -> float) :
  validateCoordinates parseFloatString (JSNum 0) (JSNum 0)
  = Some (mkGeoPoint "Point" [0; 0]%float)
  /\ createJob_location parseFloatString (JSNum 0) (JSNum 0)
     = inr (mkGeoPoint "Point" [0; 0]%float)
  /\ jobCoordinatesValidator [0; 0]%float = true
  /\ (forall workers user w,
        isWorker user ->
        find (fun w => N.eqb (w_user w) (user_id user)) workers = Some w ->
        statusCode (fst (updateLocation parseFloatString workers user (JSNum 0) (JSNum 0))) = 200
        /\ find (fun w => N.eqb (w_user w) (user_id user))
             (snd (updateLocation parseFloatString workers user (JSNum 0) (JSNum 0)))
           = Some (setLocation (mkGeoPoint "Point" [0; 0]%float) w))
  /\ isValidCoordinates [0; 0]%float = false
  /\ (forall M nearSphere workers jobs user w,
        isWorker user ->
        find (fun w => N.eqb (w_user w) (user_id user)) workers = Some w ->
        w_location w = Some (mkGeoPoint "Point" [0; 0]%float) ->
        statusCode (nearbyJobs M nearSphere workers jobs user) = 400)
  /\ (forall c,
        accepts parseFloatString c 0 0 = false
        <-> c = ByRouteCreate \/ c = ByEnsureProfile \/ c = ByUpdateWorkerProfile
            \/ c = ByNearbyJobsLocationCheck \/ c = ByIsValidCoordinates)
  /\ ensureProfile_coordinates parseFloatString (JSNum 0) (JSNum 0)
     = [77.2090; 28.6139]%float
  /\ updateWorkerProfile_location parseFloatString (JSNum 0) (JSNum 0) = None.
Proof.
  split; [reflexivity|]. split; [reflexivity|]. split; [reflexivity|].
  split; [|split; [reflexivity|split; [|split; [|split; reflexivity]]]].
  - intros workers user w Hu Hf. unfold isWorker in Hu. unfold updateLocation.
    rewrite Hu. change (validateCoordinates parseFloatString (JSNum 0) (JSNum 0))
      with (Some (mkGeoPoint "Point" [0; 0]%float)).
    change (negb ("worker" =? "worker")%string) with false. cbv iota.
    destruct (find_findOneAndSetLocation (user_id user)
                (mkGeoPoint "Point" [0; 0]%float) workers w Hf) as [H1 H2].
    destruct (findOneAndSetLocation (user_id user) (mkGeoPoint "Point" [0; 0]%float) workers)
      as [found ws']. simpl in H1, H2. subst found. split; [reflexivity | exact H2].
  - intros M nearSphere workers jobs user w Hu Hf Hl. unfold isWorker in Hu.
    unfold nearbyJobs. rewrite Hu.
    change (negb ("worker" =? "worker")%string) with false. cbv iota.
    rewrite Hf, Hl. unfold locationRejected. rewrite Hl. reflexivity.
  - intros c. destruct c; cbn; split; intros H;
      try discriminate; try reflexivity; auto 6;
      destruct H as [H|[H|[H|[H|H]]]]; discriminate.
Qed.

(** C10, as the claim states it: the nearby-jobs check and
    [isValidCoordinates] are the only checks that refuse [(0, 0)].  The
    [POST /create] route of routes/jobs.js refuses it as well. *)
Lemma origin_refused_by_route_create :
  routeCreate_location Sample.noNumber (JSNum 0) (JSNum 0)
  = inl (mkResponse 400 (JObject [("message", JString "Invalid coordinates")]))
  /\ ~ (forall c,
          accepts Sample.noNumber c 0 0 = false ->
          c = ByNearbyJobsLocationCheck \/ c = ByIsValidCoordinates).
Proof.
  split; [reflexivity|]. intros H.
  destruct (H ByRouteCreate eq_refl) as [E|E]; discriminate.
Qed.

(* ================================================================= *)
(** * Signs, magnitudes and rounding *)
Module FloatSign.

Local Open Scope float_scope.

Lemma SFopp_involutive (x : spec_float) : SFopp (SFopp x) = x.
Proof. destruct x; simpl; rewrite ?negb_involutive; reflexivity. Qed.

(** Rounding does not look at the sign. *)
Lemma binary_round_aux_negb (s : bool) (m e : Z) (l : location) :
  binary_round_aux prec emax (negb s) m e l = SFopp (binary_round_aux prec emax s m e l).
Proof.
  unfold binary_round_aux.
  destruct (shr_fexp prec emax m e l) as [mrs' e'].
  destruct (shr_fexp prec emax _ e' loc_Exact) as [mrs'' e''].
  destruct (shr_m mrs''); simpl; try reflexivity.
  destruct (Z.leb e'' _); reflexivity.
Qed.

Lemma binary_round_negb (s : bool) (m : positive) (e : Z) :
  binary_round prec emax (negb s) m e = SFopp (binary_round prec emax s m e).
Proof.
  unfold binary_round. destruct (shl_align m e _) as [mz ez].
  apply binary_round_aux_negb.
Qed.

Lemma xorb_negb_l (a b : bool) : xorb (negb a) b = negb (xorb a b).
Proof. destruct a, b; reflexivity. Qed.

Lemma SFmul_opp_l (x y : spec_float) :
  SF64mul (SFopp x) y = SFopp (SF64mul x y).
Proof.
  unfold SF64mul.
  destruct x as [sx|sx| |sx mx ex], y as [sy|sy| |sy my ey]; simpl;
    rewrite ?xorb_negb_l; try reflexivity.
  apply binary_round_aux_negb.
Qed.

Lemma SFmul_comm (x y : spec_float) : SF64mul x y = SF64mul y x.
Proof.
  unfold SF64mul.
  destruct x as [sx|sx| |sx mx ex], y as [sy|sy| |sy my ey]; simpl;
    rewrite ?(xorb_comm sx sy); try reflexivity.
  rewrite (Pos.mul_comm mx my), (Z.add_comm ex ey). reflexivity.
Qed.

Lemma SFdiv_opp_l (x y : spec_float) :
  SF64div (SFopp x) y = SFopp (SF64div x y).
Proof.
  unfold SF64div.
  destruct x as [sx|sx| |sx mx ex], y as [sy|sy| |sy my ey]; simpl;
    rewrite ?xorb_negb_l; try reflexivity.
  destruct (SFdiv_core_binary prec emax (Z.pos mx) ex (Z.pos my) ey) as [[mz ez] lz].
  apply binary_round_aux_negb.
Qed.

Lemma binary_normalize_opp (m e : Z) :
  m <> 0%Z ->
  binary_normalize prec emax (- m) e false = SFopp (binary_normalize prec emax m e false).
Proof.
  destruct m as [|p|p]; intros H; try congruence; simpl.
  - apply (binary_round_negb false).
  - rewrite <- (binary_round_negb true). reflexivity.
Qed.

(** Subtraction the other way round gives the opposite number, except
    that an exact cancellation gives [+0] both ways. *)
Lemma SFsub_swap (x y : spec_float) :
  SF64sub y x = SFopp (SF64sub x y)
  \/ (SF64sub x y = S754_zero false /\ SF64sub y x = S754_zero false).
Proof.
  unfold SF64sub.
  destruct x as [sx|sx| |sx mx ex], y as [sy|sy| |sy my ey]; simpl;
    try (left; reflexivity);
    try (destruct sx, sy; simpl; auto; fail);
    try (left; rewrite negb_involutive; reflexivity).
  rewrite (Z.min_comm ey ex).
  set (ez := Z.min ex ey).
  set (A := cond_Zopp sx (Z.pos (fst (shl_align mx ex ez)))).
  set (B := cond_Zopp sy (Z.pos (fst (shl_align my ey ez)))).
  destruct (Z.eq_dec (A - B) 0) as [E|E].
  - right. replace (B - A)%Z with 0%Z by lia. rewrite E. split; reflexivity.
  - left. replace (B - A)%Z with (- (A - B))%Z by lia.
    apply binary_normalize_opp; assumption.
Qed.

(** The same facts on the numbers themselves. *)

Lemma opp_involutive (x : float) : - - x = x.
Proof. apply Prim2SF_inj. rewrite !opp_spec. apply SFopp_involutive. Qed.

Lemma mul_opp_l (x y : float) : (- x) * y = - (x * y).
Proof. apply Prim2SF_inj. rewrite opp_spec, !mul_spec, opp_spec. apply SFmul_opp_l. Qed.

Lemma mul_comm (x y : float) : x * y = y * x.
Proof. apply Prim2SF_inj. rewrite !mul_spec. apply SFmul_comm. Qed.

Lemma mul_opp_opp (x y : float) : (- x) * (- y) = x * y.
Proof.
  rewrite mul_opp_l, (mul_comm x (- y)), mul_opp_l, opp_involutive. apply mul_comm.
Qed.

Lemma div_opp_l (x y : float) : (- x) / y = - (x / y).
Proof. apply Prim2SF_inj. rewrite opp_spec, !div_spec, opp_spec. apply SFdiv_opp_l. Qed.

Lemma sub_swap (x y : float) :
  y - x = - (x - y) \/ (x - y = 0 /\ y - x = 0).
Proof.
  destruct (SFsub_swap (Prim2SF x) (Prim2SF y)) as [H|[H1 H2]].
  - left. apply Prim2SF_inj. rewrite opp_spec, !sub_spec. exact H.
  - right. split; apply Prim2SF_inj; rewrite sub_spec; assumption.
Qed.

End FloatSign.

Module FloatBounds.

Local Open Scope Z_scope.

Lemma digits2_pos_size (p : positive) : digits2_pos p = Pos.size p.
Proof. induction p; simpl; congruence. Qed.

Lemma Zdigits2_nonneg (m : Z) : 0 <= Zdigits2 m.
Proof. destruct m; simpl; lia. Qed.

Lemma Zdigits2_gt (m : Z) : 0 <= m -> m < 2 ^ Zdigits2 m.
Proof.
  destruct m as [|p|p]; intros H; try (simpl; lia).
  change (Zdigits2 (Z.pos p)) with (Z.pos (digits2_pos p)).
  rewrite digits2_pos_size.
  pose proof (Pos.size_gt p) as G.
  apply Pos2Z.pos_lt_pos in G. rewrite Pos2Z.inj_pow in G. exact G.
Qed.

Lemma Zdigits2_le_pow (m : Z) : 0 < m -> 2 ^ (Zdigits2 m - 1) <= m.
Proof.
  destruct m as [|p|p]; intros H; try lia.
  change (Zdigits2 (Z.pos p)) with (Z.pos (digits2_pos p)).
  rewrite digits2_pos_size.
  pose proof (Pos.size_le p) as G.
  apply Pos2Z.pos_le_pos in G. rewrite Pos2Z.inj_pow in G.
  change (Z.pos p~0) with (2 * Z.pos p) in G.
  replace (Z.pos (Pos.size p)) with (Z.succ (Z.pos (Pos.size p) - 1)) in G at 1 by lia.
  rewrite Z.pow_succ_r in G by lia. lia.
Qed.

(** A non-negative integer below [2^k] has at most [k] binary digits. *)
Lemma Zdigits2_bound (m k : Z) : 0 <= m -> 0 <= k -> m < 2 ^ k -> Zdigits2 m <= k.
Proof.
  intros Hm Hk Hlt.
  destruct (Z.eq_dec m 0) as [->|Hne]; [simpl; lia|].
  destruct (Z_le_gt_dec (Zdigits2 m) k) as [|Hgt]; [assumption|exfalso].
  pose proof (Zdigits2_le_pow m ltac:(lia)) as Hle.
  assert (2 ^ k <= 2 ^ (Zdigits2 m - 1)) by (apply Z.pow_le_mono_r; lia).
  lia.
Qed.

Lemma Zdigits2_mono (a b : Z) : 0 <= a <= b -> Zdigits2 a <= Zdigits2 b.
Proof.
  intros H. apply Zdigits2_bound; try lia.
  - apply Zdigits2_nonneg.
  - pose proof (Zdigits2_gt b ltac:(lia)). lia.
Qed.

Lemma Zdigits2_succ (b : Z) : 0 <= b -> Zdigits2 (b + 1) <= Zdigits2 b + 1.
Proof.
  intros H. apply Zdigits2_bound; try lia.
  - pose proof (Zdigits2_nonneg b). lia.
  - pose proof (Zdigits2_gt b H) as G.
    rewrite Z.pow_add_r by (try apply Zdigits2_nonneg; lia).
    pose proof (Z.pow_pos_nonneg 2 (Zdigits2 b) ltac:(lia) (Zdigits2_nonneg b)). lia.
Qed.

Lemma Zdigits2_mul (a b : Z) :
  0 <= a -> 0 <= b -> Zdigits2 (a * b) <= Zdigits2 a + Zdigits2 b.
Proof.
  intros Ha Hb.
  pose proof (Zdigits2_nonneg a). pose proof (Zdigits2_nonneg b).
  apply Zdigits2_bound; try nia.
  rewrite Z.pow_add_r by lia.
  pose proof (Zdigits2_gt a Ha). pose proof (Zdigits2_gt b Hb). nia.
Qed.

(** One step of the right shift keeps a non-negative mantissa
    non-negative and does not increase it. *)
Lemma shr_1_bound (mrs : shr_record) :
  0 <= shr_m mrs -> 0 <= shr_m (shr_1 mrs) <= shr_m mrs.
Proof.
  destruct mrs as [m r s]; simpl. destruct m as [|[p|p|]|[p|p|]]; simpl; lia.
Qed.

Lemma iter_shr_1_bound (p : positive) (mrs : shr_record) :
  0 <= shr_m mrs -> 0 <= shr_m (iter_pos shr_1 p mrs) <= shr_m mrs.
Proof.
  revert mrs. induction p as [p IH|p IH|]; intros mrs H; simpl.
  - pose proof (shr_1_bound mrs H) as H1.
    pose proof (IH _ (proj1 H1)) as H2.
    pose proof (IH _ (proj1 H2)) as H3. lia.
  - pose proof (IH _ H) as H2.
    pose proof (IH _ (proj1 H2)) as H3. lia.
  - apply shr_1_bound; assumption.
Qed.

Lemma shr_record_of_loc_m (m : Z) (l : location) : shr_m (shr_record_of_loc m l) = m.
Proof. destruct l as [|[| |]]; reflexivity. Qed.

(** [shr_fexp]: the mantissa does not grow, and the exponent becomes the
    larger of the old one and the canonical one. *)
Lemma shr_fexp_bound (m e : Z) (l : location) :
  0 <= m ->
  let '(mrs, e') := shr_fexp prec emax m e l in
  0 <= shr_m mrs <= m /\ e' = Z.max e (fexp prec emax (Zdigits2 m + e)).
Proof.
  intros Hm. unfold shr_fexp, shr.
  destruct (fexp prec emax (Zdigits2 m + e) - e) as [|p|p] eqn:E.
  - rewrite shr_record_of_loc_m. split; lia.
  - pose proof (iter_shr_1_bound p (shr_record_of_loc m l)) as H.
    rewrite shr_record_of_loc_m in H. split; [apply H; assumption | lia].
  - rewrite shr_record_of_loc_m. split; lia.
Qed.

Lemma round_nearest_even_bound (m : Z) (l : location) :
  0 <= m -> m <= round_nearest_even m l <= m + 1.
Proof.
  intros H. destruct l as [|[| |]]; simpl; try lia.
  destruct (Z.even m); lia.
Qed.

(** Rounding [m * 2^e] with [m] of at most [D] digits and [m * 2^e] below
    [2^B]: no overflow when the bounds leave room, and the exponent of the
    result is bounded. *)
Lemma binary_round_aux_bounded (s : bool) (m e : Z) (l : location) (D B : Z) :
  0 <= m -> Zdigits2 m <= D -> e <= B -> Zdigits2 m + e <= B + prec ->
  -1000 <= B -> Z.max B (B + D - 52) <= emax - prec ->
  binary_round_aux prec emax s m e l = S754_zero s
  \/ exists m' e', binary_round_aux prec emax s m e l = S754_finite s m' e'
                   /\ e' <= Z.max B (B + D - 52).
Proof.
  intros Hm HD He HB Hlow Hroom. unfold binary_round_aux.
  pose proof (shr_fexp_bound m e l Hm) as H1.
  destruct (shr_fexp prec emax m e l) as [mrs' e'].
  destruct H1 as [Hm' He'].
  set (m1 := round_nearest_even (shr_m mrs') (loc_of_shr_record mrs')).
  pose proof (round_nearest_even_bound (shr_m mrs') (loc_of_shr_record mrs') (proj1 Hm')) as Hr.
  fold m1 in Hr.
  pose proof (shr_fexp_bound m1 e' loc_Exact ltac:(lia)) as H2.
  destruct (shr_fexp prec emax m1 e' loc_Exact) as [mrs'' e''].
  destruct H2 as [Hm'' He''].
  assert (Hd1 : Zdigits2 m1 <= D + 1).
  { pose proof (Zdigits2_mono m1 (m + 1) ltac:(lia)).
    pose proof (Zdigits2_succ m Hm). lia. }
  unfold fexp, SpecFloat.emin, prec, emax in *.
  assert (Hb : e'' <= Z.max B (B + D - 52)) by lia.
  destruct (shr_m mrs'') as [|p|p] eqn:E; [left; reflexivity | right | lia].
  exists p, e''.
  replace (e'' <=? 1024 - 53) with true by (symmetry; apply Z.leb_le; lia).
  split; [reflexivity | assumption].
Qed.

End FloatBounds.

Module FloatSmall.

Import FloatFacts FloatSign FloatBounds.
Local Open Scope Z_scope.

Lemma valid_digits (s : bool) (m : positive) (e : Z) :
  valid_binary (S754_finite s m e) = true -> Zdigits2 (Z.pos m) <= prec.
Proof.
  simpl. unfold bounded, canonical_mantissa, fexp, SpecFloat.emin, prec, emax.
  intros H. apply andb_prop in H. destruct H as [H _].
  apply Z.eqb_eq in H. lia.
Qed.

Lemma SFsmall_weaken (B B' : Z) (x : spec_float) : B <= B' -> SFsmall B x -> SFsmall B' x.
Proof. destruct x; simpl; intros; try assumption; lia. Qed.

Lemma SFmul_small (Bx By : Z) (x y : spec_float) :
  valid_binary x = true -> valid_binary y = true ->
  SFsmall Bx x -> SFsmall By y ->
  -1000 <= Bx + By -> Bx + By + 107 <= emax - prec ->
  SFsmall (Bx + By + 107) (SF64mul x y).
Proof.
  intros Vx Vy Sx Sy Hlow Hroom. unfold SF64mul.
  destruct x as [sx|sx| |sx mx ex], y as [sy|sy| |sy my ey]; simpl in Sx, Sy;
    try contradiction; try exact I.
  pose proof (valid_digits _ _ _ Vx) as Dx. pose proof (valid_digits _ _ _ Vy) as Dy.
  pose proof (Zdigits2_mul (Z.pos mx) (Z.pos my) ltac:(lia) ltac:(lia)) as Dm.
  change (Z.pos mx * Z.pos my) with (Z.pos (mx * my)) in Dm.
  change (SFsmall (Bx + By + 107)
            (binary_round_aux prec emax (xorb sx sy) (Z.pos (mx * my)) (ex + ey) loc_Exact)).
  pose proof (binary_round_aux_bounded (xorb sx sy) (Z.pos (mx * my)) (ex + ey) loc_Exact
                106 (Bx + By + 53)) as R.
  unfold prec, emax in Dx, Dy, Hroom.
  destruct R as [E|(m' & e' & E & He)];
    try (unfold prec, emax; lia); rewrite E; simpl; lia.
Qed.

Lemma SFdiv_small (Bx Ly : Z) (x : spec_float) (sy : bool) (my : positive) (ey : Z) :
  valid_binary x = true -> valid_binary (S754_finite sy my ey) = true ->
  SFsmall Bx x -> Ly <= ey ->
  -1000 <= Bx - Ly -> Bx - Ly + 54 <= emax - prec ->
  SFsmall (Bx - Ly + 54) (SF64div x (S754_finite sy my ey)).
Proof.
  intros Vx Vy Sx Hy Hlow Hroom. unfold SF64div.
  destruct x as [sx|sx| |sx mx ex]; simpl in Sx; try contradiction; try exact I.
  pose proof (valid_digits _ _ _ Vx) as Dx. pose proof (valid_digits _ _ _ Vy) as Dy.
  cbv beta iota delta [SFdiv]. unfold SFdiv_core_binary.
  set (d1 := Zdigits2 (Z.pos mx)) in *. set (d2 := Zdigits2 (Z.pos my)) in *.
  set (e' := Z.min (fexp prec emax (d1 + ex - (d2 + ey))) (ex - ey)).
  set (s := ex - ey - e').
  set (m' := match s with Z.pos _ => Z.shiftl (Z.pos mx) s | 0 => Z.pos mx | Z.neg _ => 0 end).
  assert (Hd1 : 1 <= d1) by (unfold d1; simpl; lia).
  assert (Hd2 : 1 <= d2) by (unfold d2; simpl; lia).
  assert (Hs : 0 <= s) by (unfold s, e'; lia).
  assert (Hs' : s <= Z.max 0 (d2 + 53 - d1)).
  { unfold s, e', fexp, SpecFloat.emin, prec, emax. lia. }
  assert (Hm' : m' = Z.pos mx * 2 ^ s).
  { unfold m'. destruct s as [|p|p] eqn:Es; try lia.
    rewrite Z.shiftl_mul_pow2 by lia. reflexivity. }
  assert (Hm'pos : 0 < m').
  { rewrite Hm'. pose proof (Z.pow_pos_nonneg 2 s ltac:(lia) Hs). nia. }
  assert (Hdm' : Zdigits2 m' <= d1 + s).
  { apply Zdigits2_bound; try lia.
    rewrite Hm', Z.pow_add_r by lia.
    pose proof (Zdigits2_gt (Z.pos mx) ltac:(lia)). fold d1 in H.
    pose proof (Z.pow_pos_nonneg 2 s ltac:(lia) Hs). nia. }
  pose proof (Z_div_mod m' (Z.pos my) ltac:(lia)) as Hdiv.
  destruct (Z.div_eucl m' (Z.pos my)) as [q r].
  destruct Hdiv as [Hq Hr].
  assert (Hq0 : 0 <= q) by nia.
  assert (Hqm : q <= m') by nia.
  pose proof (Zdigits2_mono q m' ltac:(lia)) as Hdq.
  pose proof (binary_round_aux_bounded (xorb sx sy) q e' (new_location (Z.pos my) r)
                106 (Bx - Ly)) as R.
  assert (He' : e' <= ex - ey) by (unfold e'; lia).
  assert (Hse : s + e' = ex - ey) by (unfold s; lia).
  unfold prec, emax in Dx, Dy, Hroom.
  destruct R as [E|(m'' & e'' & E & He)]; try (unfold prec, emax; lia).
  - rewrite E. exact I.
  - rewrite E. simpl. lia.
Qed.

(** A number between [-c] and [c] has at most the exponent of [c]. *)
Lemma within_small (c x : float) (mc : positive) (ec : Z) :
  Prim2SF c = S754_finite false mc ec ->
  JSNumber.within (- c)%float c x -> small ec x.
Proof.
  intros Hc [Hlo Hhi]. unfold small.
  rewrite leb_spec in Hlo, Hhi. rewrite opp_spec, Hc in Hlo. rewrite Hc in Hhi.
  unfold SFleb in Hlo, Hhi. simpl in Hlo.
  destruct (Prim2SF x) as [s|s| |s m e]; simpl in *; try exact I;
    try discriminate; try (destruct s; discriminate).
  destruct s.
  - destruct (Z.compare_spec ec e); try discriminate; lia.
  - destruct (Z.compare_spec e ec); try discriminate; lia.
Qed.

Lemma small_is_finite (B : Z) (x : float) : small B x -> is_finite x = true.
Proof.
  unfold small, is_finite, is_infinity. intros H.
  assert (Hn : is_nan x = false).
  { apply not_nan_spec. intros E. rewrite E in H. exact H. }
  rewrite Hn, eqb_spec, abs_spec. simpl.
  destruct (Prim2SF x) as [s|s| |s m e]; simpl in *; try contradiction; reflexivity.
Qed.

(** A finite number minus itself is [+0]. *)
Lemma sub_self (B : Z) (x : float) : small B x -> (x - x)%float = zero.
Proof.
  unfold small. intros H. apply Prim2SF_inj. rewrite sub_spec. unfold SF64sub.
  destruct (Prim2SF x) as [s|s| |s m e]; simpl in *; try contradiction.
  - destruct s; reflexivity.
  - rewrite Z.min_id, Z.sub_diag. reflexivity.
Qed.

Lemma zero_cases (x : float) (s : bool) :
  Prim2SF x = S754_zero s -> x = zero \/ x = neg_zero.
Proof.
  intros H. rewrite <- (SF2Prim_Prim2SF x), H. destruct s; simpl; auto.
Qed.

(** A finite number times zero is a zero. *)
Lemma mul_zero_r (B : Z) (x : float) :
  small B x -> (x * zero = zero \/ x * zero = neg_zero)%float.
Proof.
  unfold small. intros H.
  apply (zero_cases _ (xorb (match Prim2SF x with
                             | S754_zero s | S754_finite s _ _ => s | _ => false end) false)).
  rewrite mul_spec. unfold SF64mul.
  destruct (Prim2SF x) as [s|s| |s m e]; simpl in *; try contradiction; reflexivity.
Qed.

Lemma mul_small (Bx By : Z) (x y : float) :
  small Bx x -> small By y ->
  -1000 <= Bx + By -> Bx + By + 107 <= emax - prec ->
  small (Bx + By + 107) (x * y)%float.
Proof.
  unfold small. intros. rewrite mul_spec.
  apply SFmul_small; auto using Prim2SF_valid.
Qed.

Lemma toRad_small (B : Z) (x : float) :
  small B x -> -900 <= B <= 700 -> small (B + 155) (toRad x).
Proof.
  unfold small, toRad. intros Hx HB. rewrite div_spec.
  change (Prim2SF 180) with (S754_finite false 6333186975989760 (-45)).
  replace (B + 155) with ((B + (-51) + 107) - (-45) + 54) by lia.
  apply SFdiv_small; try apply Prim2SF_valid; unfold prec, emax; try lia.
  - apply (Prim2SF_valid 180%float).
  - apply (mul_small B (-51) x JSMath.PI Hx); unfold prec, emax; try lia.
    unfold small. vm_compute. discriminate.
Qed.

End FloatSmall.

(* ================================================================= *)
(** * The distance functions *)

Section Distances.

Import FloatFacts FloatSign FloatBounds FloatSmall.
Local Open Scope float_scope.

Variable M : MathLib.
Hypothesis HM : MathAssumptions M.

Lemma toRad_opp (x : float) : toRad (- x) = - toRad x.
Proof. unfold toRad. rewrite mul_opp_l, div_opp_l. reflexivity. Qed.

Lemma mul_opp_r (x y : float) : x * (- y) = - (x * y).
Proof. rewrite (mul_comm x (- y)), mul_opp_l, (mul_comm y x). reflexivity. Qed.

(** The squared sine of half the angle between two coordinates does not
    depend on their order. *)
Lemma haversine_swap (x y : float) :
  Math_sin M (toRad (y - x) / 2) * Math_sin M (toRad (y - x) / 2)
  = Math_sin M (toRad (x - y) / 2) * Math_sin M (toRad (x - y) / 2).
Proof.
  destruct (sub_swap x y) as [E|[E1 E2]].
  - rewrite E, toRad_opp, div_opp_l, (sin_odd M HM). apply mul_opp_opp.
  - rewrite E1, E2. reflexivity.
Qed.

(** The same under a common factor, as the longitude term has it. *)
Lemma scaled_haversine_swap (k x y : float) :
  k * Math_sin M (toRad (y - x) / 2) * Math_sin M (toRad (y - x) / 2)
  = k * Math_sin M (toRad (x - y) / 2) * Math_sin M (toRad (x - y) / 2).
Proof.
  destruct (sub_swap x y) as [E|[E1 E2]].
  - rewrite E, toRad_opp, div_opp_l, (sin_odd M HM), !mul_opp_r, mul_opp_l, opp_involutive.
    reflexivity.
  - rewrite E1, E2. reflexivity.
Qed.

Lemma geolocation_calculateDistance_sym (a b : list float) :
  geolocation_calculateDistance M a b = geolocation_calculateDistance M b a.
Proof.
  unfold geolocation_calculateDistance.
  pose proof (haversine_swap (elem a 1) (elem b 1)) as H1.
  pose proof (scaled_haversine_swap
                (Math_cos M (toRad (elem a 1)) * Math_cos M (toRad (elem b 1)))
                (elem a 0) (elem b 0)) as H0.
  unfold toRad in H0, H1. cbv zeta.
  rewrite H1, H0.
  rewrite (mul_comm (Math_cos M (elem a 1 * JSMath.PI / 180))
                    (Math_cos M (elem b 1 * JSMath.PI / 180))).
  reflexivity.
Qed.

Lemma calculateDistance_sym (a b : list float) :
  calculateDistance M a b = calculateDistance M b a.
Proof.
  unfold calculateDistance.
  rewrite (orb_comm (List.length a <? 2)%nat).
  destruct ((List.length b <? 2)%nat || (List.length a <? 2)%nat)%bool; [reflexivity|].
  apply (geolocation_calculateDistance_sym a b).
Qed.

Lemma latitude_small (lat : float) : JSNumber.within (-90) 90 lat -> small (-46) lat.
Proof. apply (within_small 90 lat 6333186975989760 (-46)). reflexivity. Qed.

Lemma longitude_small (lng : float) : JSNumber.within (-180) 180 lng -> small (-45) lng.
Proof. apply (within_small 180 lng 6333186975989760 (-45)). reflexivity. Qed.

Lemma cos_small (x : float) (B : Z) : small B x -> small (-52) (Math_cos M x).
Proof.
  intros H. apply (within_small 1 _ 4503599627370496 (-52)); [reflexivity|].
  apply (cos_range M HM). apply (small_is_finite B). exact H.
Qed.

(** The haversine term of a point against itself. *)
Lemma haversine_self (lat : float) :
  JSNumber.within (-90) 90 lat ->
  Math_sin M (toRad 0 / 2) * Math_sin M (toRad 0 / 2) +
  Math_cos M (toRad lat) * Math_cos M (toRad lat) *
  Math_sin M (toRad 0 / 2) * Math_sin M (toRad 0 / 2) = 0.
Proof.
  intros Hlat.
  change (toRad 0 / 2) with 0. rewrite (sin_zero M HM).
  pose proof (toRad_small (-46) lat (latitude_small lat Hlat) ltac:(lia)) as Hr.
  pose proof (cos_small _ _ Hr) as Hc.
  pose proof (mul_small (-52) (-52) _ _ Hc Hc ltac:(lia) ltac:(unfold emax, prec; lia)) as Hcc.
  destruct (mul_zero_r _ _ Hcc) as [E|E]; unfold zero in E; rewrite E; reflexivity.
Qed.

Lemma geolocation_calculateDistance_self (p : list float) :
  validPoint p -> geolocation_calculateDistance M p p = 0.
Proof.
  intros (lng & lat & -> & Hlng & Hlat).
  unfold geolocation_calculateDistance, elem. simpl nth.
  rewrite (sub_self _ lat (latitude_small lat Hlat)).
  rewrite (sub_self _ lng (longitude_small lng Hlng)).
  cbv zeta.
  pose proof (haversine_self lat Hlat) as H. unfold toRad in H.
  unfold zero. rewrite H.
  change (JSMath.sqrt 0) with 0. change (JSMath.sqrt (1 - 0)) with 1.
  rewrite (atan2_zero M HM). reflexivity.
Qed.

Lemma calculateDistance_self (p : list float) :
  validPoint p -> calculateDistance M p p = 0.
Proof.
  intros H. pose proof (geolocation_calculateDistance_self p H) as G.
  destruct H as (lng & lat & -> & _). exact G.
Qed.

(** C9. With a Math library that meets [MathAssumptions], both distance
    functions give the same number for [(a, b)] and [(b, a)], whatever the
    two arrays hold, and give 0 for a valid point against itself.  The
    equalities are exact, not up to a tolerance: every step of the
    computation commutes with the exchange of the two points. *)
Theorem distance_symmetric_and_zero :
  (forall a b : list float,
      calculateDistance M a b = calculateDistance M b a
      /\ geolocation_calculateDistance M a b = geolocation_calculateDistance M b a)
  /\ (forall p : list float,
        validPoint p ->
        calculateDistance M p p = 0 /\ geolocation_calculateDistance M p p = 0).
Proof.
  split.
  - intros a b. split; [apply calculateDistance_sym | apply geolocation_calculateDistance_sym].
  - intros p Hp. split;
      [apply calculateDistance_self | apply geolocation_calculateDistance_self]; exact Hp.
Qed.

End Distances.

Lemma smallAngleMath_assumptions : MathAssumptions Sample.smallAngleMath.
Proof.
  constructor; simpl.
  - reflexivity.
  - reflexivity.
  - intros x _. split; reflexivity.
  - reflexivity.
Defined.

Lemma delhi_valid : validPoint (coordinates Sample.delhi).
Proof.
  exists 77.2090%float, 28.6139%float. repeat split; reflexivity.
Defined.

Lemma distance_symmetric_and_zero_witness :
  calculateDistance Sample.smallAngleMath (coordinates Sample.delhi)
    (coordinates Sample.nearDelhi)
  = calculateDistance Sample.smallAngleMath (coordinates Sample.nearDelhi)
      (coordinates Sample.delhi)
  /\ geolocation_calculateDistance Sample.smallAngleMath (coordinates Sample.delhi)
       (coordinates Sample.delhi) = 0%float.
Proof.
  destruct (distance_symmetric_and_zero Sample.smallAngleMath smallAngleMath_assumptions)
    as [Hsym Hzero].
  split.
  - exact (proj1 (Hsym (coordinates Sample.delhi) (coordinates Sample.nearDelhi))).
  - exact (proj2 (Hzero (coordinates Sample.delhi) delhi_valid)).
Defined.

Example distance_delhi_to_itself :
  calculateDistance Sample.smallAngleMath (coordinates Sample.delhi) (coordinates Sample.delhi)
  = 0%float
  /\ calculateDistance Sample.smallAngleMath [77.2090%float] (coordinates Sample.delhi)
     = (-1)%float.
Proof. split; reflexivity. Qed.

(* ================================================================= *)
(** * Categories from skills *)

Lemma workerCategoryEnum_split : workerCategoryEnum = (validCategories ++ ["general"])%list.
Proof. reflexivity. Qed.

(** The hook maps a skill to the category it stands for. *)
Lemma skillCategory_spec (skill : string) : categoryOfSkill skill (skillCategory skill).
Proof.
  unfold skillCategory, categoryOfSkill.
  destruct (find _ validCategories) as [cat|] eqn:E.
  - left. apply find_some in E. destruct E as [Hin Hf].
    split; [|exact Hf].
    rewrite workerCategoryEnum_split. apply in_or_app. left. exact Hin.
  - destruct (eqb_ci "general" skill) eqn:G.
    + left. split; [|reflexivity]. rewrite workerCategoryEnum_split.
      apply in_or_app. right. left. reflexivity.
    + right. split; [|reflexivity]. intros c' Hin.
      rewrite workerCategoryEnum_split in Hin. apply in_app_or in Hin.
      destruct Hin as [Hin|[<-|[]]]; [|exact G].
      apply (find_none _ _ E c' Hin).
Qed.

Lemma map_skillCategory_spec (skills : list string) :
  Forall2 categoryOfSkill skills (map skillCategory skills).
Proof.
  induction skills as [|a l IH]; simpl; constructor; [apply skillCategory_spec | exact IH].
Qed.

Lemma enum_lower (c : string) : In c workerCategoryEnum -> JSString.toLowerCase c = c.
Proof.
  unfold workerCategoryEnum. simpl.
  intros H. repeat (destruct H as [<-|H]; [reflexivity|]). contradiction.
Qed.

(** A skill stands for one category only. *)
Lemma categoryOfSkill_unique (skill c c' : string) :
  categoryOfSkill skill c -> categoryOfSkill skill c' -> c = c'.
Proof.
  unfold categoryOfSkill, eqb_ci.
  intros [[Hin H]|[Hno ->]] [[Hin' H']|[Hno' ->]].
  - apply String.eqb_eq in H, H'.
    rewrite <- (enum_lower c Hin), <- (enum_lower c' Hin'). congruence.
  - rewrite (Hno' c Hin) in H. discriminate.
  - rewrite (Hno c' Hin') in H'. discriminate.
  - reflexivity.
Qed.

(** C8. Saving a worker profile that has no category and at least one
    skill sets its categories to the list of the categories its skills
    stand for, skill by skill: the category of the closed enumeration the
    skill equals up to letter case, or [general] when there is none.
    Saving a profile that has a category leaves the profile as it is. *)
Theorem preSave_derives_categories (w : Worker) :
  (w_categories w = [] -> w_skills w <> [] ->
   Forall2 categoryOfSkill (w_skills w) (w_categories (preSave w)))
  /\ (w_categories w <> [] -> preSave w = w).
Proof.
  split.
  - intros Hc Hs. unfold preSave. rewrite Hc.
    destruct (w_skills w) as [|s r] eqn:E; [congruence|]. simpl w_categories.
    apply map_skillCategory_spec.
  - intros Hc. unfold preSave. destruct (w_categories w); [congruence|reflexivity].
Qed.

Example preSave_example :
  w_categories (preSave (Sample.profile 15%N Sample.raj ["Plumbing"; "welding"; "HVAC"]
                           10%float Sample.delhi []))
  = ["plumbing"; "general"; "hvac"]
  /\ preSave Sample.rajProfile = Sample.rajProfile.
Proof. split; reflexivity. Qed.

(* ================================================================= *)
(** * Plain objects and split strings *)

Module ObjFacts.

Lemma get_set_same (k : string) (v : Json) (o : Obj.t) : Obj.get k (Obj.set k v o) = Some v.
Proof.
  induction o as [|[k' v'] r IH]; simpl.
  - rewrite String.eqb_refl. reflexivity.
  - destruct (String.eqb k k') eqn:E; simpl; rewrite ?String.eqb_refl, ?E; auto.
Qed.

Lemma get_set_other (k k' : string) (v : Json) (o : Obj.t) :
  k <> k' -> Obj.get k (Obj.set k' v o) = Obj.get k o.
Proof.
  intros Hne. apply String.eqb_neq in Hne.
  induction o as [|[k'' v''] r IH]; simpl.
  - rewrite Hne. reflexivity.
  - destruct (String.eqb k' k'') eqn:E; simpl.
    + apply String.eqb_eq in E. subst k''. rewrite Hne. reflexivity.
    + rewrite IH. reflexivity.
Qed.

Lemma get_delete_same (k : string) (o : Obj.t) : Obj.get k (Obj.delete k o) = None.
Proof.
  unfold Obj.delete. induction o as [|[k' v'] r IH]; simpl; [reflexivity|].
  destruct (String.eqb k k') eqn:E; simpl; [exact IH|]. rewrite E. exact IH.
Qed.

Lemma get_delete_other (k k' : string) (o : Obj.t) :
  k <> k' -> Obj.get k (Obj.delete k' o) = Obj.get k o.
Proof.
  intros Hne. unfold Obj.delete.
  induction o as [|[k'' v''] r IH]; simpl; [reflexivity|].
  destruct (String.eqb k' k'') eqn:E; simpl.
  - apply String.eqb_eq in E. subst k''.
    apply String.eqb_neq in Hne. rewrite Hne. exact IH.
  - rewrite IH. reflexivity.
Qed.

End ObjFacts.

Module SplitFacts.
Import JSString.

Lemma split_cons (sep : ascii) (s : string) :
  exists seg segs, split sep s = seg :: segs.
Proof.
  induction s as [|c r IH]; simpl; [eauto|].
  destruct (Ascii.eqb c sep); [eauto|].
  destruct IH as (seg & segs & ->). eauto.
Qed.

Lemma join_cons (sep p : string) (q : string) (ps : list string) :
  join sep (p :: q :: ps) = (p ++ sep ++ join sep (q :: ps))%string.
Proof. reflexivity. Qed.

(** Joining the segments with the separator gives the string back. *)
Lemma join_split (sep : ascii) (s : string) :
  join (String sep EmptyString) (split sep s) = s.
Proof.
  induction s as [|c r IH]; simpl; [reflexivity|].
  destruct (Ascii.eqb c sep) eqn:E.
  - apply Ascii.eqb_eq in E. subst c.
    destruct (split_cons sep r) as (seg & segs & Hs). rewrite Hs in *.
    rewrite join_cons, IH. reflexivity.
  - destruct (split_cons sep r) as (seg & segs & Hs). rewrite Hs in *.
    destruct segs as [|q qs].
    + simpl in *. congruence.
    + rewrite join_cons in *.
      change (String c seg ++ String sep EmptyString
                ++ join (String sep EmptyString) (q :: qs))%string
        with (String c (seg ++ String sep EmptyString
                          ++ join (String sep EmptyString) (q :: qs))%string).
      rewrite IH. reflexivity.
Qed.

Lemma split_length (sep : ascii) (s : string) :
  (1 <? List.length (split sep s))%nat = contains sep s.
Proof.
  induction s as [|c r IH]; simpl; [reflexivity|].
  destruct (Ascii.eqb c sep); simpl.
  - destruct (split_cons sep r) as (seg & segs & ->). reflexivity.
  - destruct (split_cons sep r) as (seg & segs & Hs). rewrite Hs in *. exact IH.
Qed.

(** [parts.slice(1).join(sep)] is the text after the first separator. *)
Lemma join_slice1_split (sep : ascii) (s : string) :
  join (String sep EmptyString) (slice1 (split sep s)) = afterFirst sep s.
Proof.
  unfold slice1. induction s as [|c r IH]; simpl; [reflexivity|].
  destruct (Ascii.eqb c sep) eqn:E; simpl.
  - apply join_split.
  - destruct (split_cons sep r) as (seg & segs & Hs). rewrite Hs in *. exact IH.
Qed.

End SplitFacts.

(* ================================================================= *)
(** * Nearby jobs: what a result shows *)

Section NearbyJobResults.

Import ObjFacts SplitFacts.

(** C6, as the code has it. For a job with an address and a location,
    the object the nearby-jobs route returns has no [location] property,
    has the [distance] the distance function gives from the worker's
    coordinates to the job's, and has an [approximateLocation] that is the
    text after the first comma of the address, without surrounding white
    space, when the address has a comma, and the whole address when it has
    none. *)
Theorem approximateJob_shape (M : MathLib) (workerCoords : list float) (job : Job)
        (address : string) (loc : GeoPoint) :
  j_address job = Some address -> j_location job = Some loc ->
  Obj.get "location" (approximateJob M workerCoords job) = None
  /\ Obj.get "distance" (approximateJob M workerCoords job)
     = Some (JNumber (calculateDistance M workerCoords (coordinates loc)))
  /\ Obj.get "approximateLocation" (approximateJob M workerCoords job)
     = Some (JString (approximateLocationOf address)).
Proof.
  intros Ha Hl. unfold approximateJob.
  rewrite Ha, Hl. split; [apply get_delete_same|].
  destruct address as [|c r].
  { split.
    - rewrite get_delete_other by discriminate. apply get_set_same.
    - rewrite get_delete_other by discriminate.
      rewrite get_set_other by discriminate. apply get_set_same. }
  set (a := String c r).
  rewrite split_length, join_slice1_split.
  split.
  - rewrite get_delete_other by discriminate. apply get_set_same.
  - rewrite get_delete_other by discriminate.
    rewrite get_set_other by discriminate.
    rewrite get_set_same. unfold approximateLocationOf.
    destruct (contains "," a); reflexivity.
Qed.

Lemma get_address_toObject (job : Job) (address : string) :
  j_address job = Some address ->
  Obj.get "address" (Job_toObject job) = Some (JString address).
Proof.
  intros Ha. unfold Job_toObject. rewrite Ha.
  destruct (j_category job), (j_location job), (j_worker job), (j_completedAt job);
    reflexivity.
Qed.

(** X2. The object the nearby-jobs route returns for a job still has
    the job's [address] property, the full address: only [location] is
    deleted. *)
Lemma approximateJob_keeps_address (M : MathLib) (workerCoords : list float) (job : Job)
      (address : string) :
  j_address job = Some address ->
  Obj.get "address" (approximateJob M workerCoords job) = Some (JString address).
Proof.
  intros Ha. unfold approximateJob.
  rewrite get_delete_other by discriminate.
  destruct (j_location job).
  - rewrite !get_set_other by discriminate. apply get_address_toObject. exact Ha.
  - rewrite get_set_other by discriminate. apply get_address_toObject. exact Ha.
Qed.

End NearbyJobResults.

Lemma approximateJob_shape_witness :
  Obj.get "location"
    (approximateJob Sample.smallAngleMath (coordinates Sample.nearDelhi) Sample.bathroomLeak)
  = None
  /\ Obj.get "distance"
       (approximateJob Sample.smallAngleMath (coordinates Sample.nearDelhi)
          Sample.bathroomLeak)
     = Some (JNumber (calculateDistance Sample.smallAngleMath
                        (coordinates Sample.nearDelhi) (coordinates Sample.delhi)))
  /\ Obj.get "approximateLocation"
       (approximateJob Sample.smallAngleMath (coordinates Sample.nearDelhi)
          Sample.bathroomLeak)
     = Some (JString (approximateLocationOf "A-15, Vasant Kunj, New Delhi, Delhi 110070")).
Proof.
  apply (approximateJob_shape Sample.smallAngleMath (coordinates Sample.nearDelhi)
           Sample.bathroomLeak "A-15, Vasant Kunj, New Delhi, Delhi 110070" Sample.delhi).
  - reflexivity.
  - reflexivity.
Defined.

Lemma approximateJob_keeps_address_witness :
  Obj.get "address"
    (approximateJob Sample.smallAngleMath (coordinates Sample.nearDelhi) Sample.bathroomLeak)
  = Some (JString "A-15, Vasant Kunj, New Delhi, Delhi 110070").
Proof.
  apply (approximateJob_keeps_address Sample.smallAngleMath (coordinates Sample.nearDelhi)
           Sample.bathroomLeak "A-15, Vasant Kunj, New Delhi, Delhi 110070").
  reflexivity.
Defined.

Example approximateLocation_of_sample_addresses :
  approximateLocationOf "A-15, Vasant Kunj, New Delhi, Delhi 110070"
  = "Vasant Kunj, New Delhi, Delhi 110070"
  /\ approximateLocationOf "221B Baker Street" = "221B Baker Street"
  /\ getApproximateAddress (Some "A-15, Vasant Kunj, New Delhi, Delhi 110070")
     = "Vasant Kunj, New Delhi, Delhi 110070".
Proof. repeat split; reflexivity. Qed.

(** C6, as the claim states it: the approximate location is the address
    with its first comma-delimited segment removed.  For an address
    without a comma that is the empty string, while the route returns the
    whole address, street included. *)
Lemma approximateLocation_counterexample :
  Obj.get "approximateLocation"
    (approximateJob Sample.smallAngleMath (coordinates Sample.nearDelhi) Sample.bakerStreet)
  = Some (JString "221B Baker Street")
  /\ withoutFirstSegment "221B Baker Street" = ""
  /\ Obj.get "approximateLocation"
       (approximateJob Sample.smallAngleMath (coordinates Sample.nearDelhi)
          Sample.bakerStreet)
     <> Some (JString (withoutFirstSegment "221B Baker Street")).
Proof.
  split; [reflexivity|]. split; [reflexivity|]. vm_compute. discriminate.
Qed.

(* ================================================================= *)
(** * Nearby jobs: the category filter *)

Lemma insertByCreatedAt_In (j x : Job) (l : list Job) :
  In x (insertByCreatedAt j l) <-> x = j \/ In x l.
Proof.
  induction l as [|y r IH]; simpl; [intuition|].
  destruct (j_createdAt y <=? j_createdAt j)%Z; simpl; [intuition|].
  rewrite IH. intuition.
Qed.

Lemma sortByCreatedAtDesc_In (x : Job) (l : list Job) :
  In x (sortByCreatedAtDesc l) <-> In x l.
Proof.
  unfold sortByCreatedAtDesc. induction l as [|y r IH]; simpl; [tauto|].
  rewrite insertByCreatedAt_In, IH. intuition.
Qed.

Lemma In_firstn {A : Type} (n : nat) (l : list A) (x : A) : In x (firstn n l) -> In x l.
Proof.
  intros H. rewrite <- (firstn_skipn n l). apply in_or_app. left. exact H.
Qed.

(** A job the query returns is a stored job that satisfies the filter. *)
Lemma findNearbyJobs_In (nearSphere : GeoPoint -> float -> option GeoPoint -> bool)
      (q : NearbyQuery) (jobs : list Job) (j : Job) :
  In j (findNearbyJobs nearSphere q jobs) ->
  In j jobs /\ matchesNearbyQuery nearSphere q j = true.
Proof.
  unfold findNearbyJobs. intros H. apply In_firstn in H.
  apply (proj1 (sortByCreatedAtDesc_In _ _)) in H.
  apply (proj1 (filter_In _ _ _)) in H. exact H.
Qed.

Lemma categoryClause_singleton (a : string) :
  categoryClause [a] = if String.eqb "general" a then None else Some [a].
Proof.
  unfold categoryClause, includesGeneral. cbn [List.length existsb].
  change (0 <? 1)%nat with true. change (1 =? 1)%nat with true.
  cbn [andb]. rewrite orb_false_r.
  destruct (String.eqb "general" a); reflexivity.
Qed.

(** C5, as the code has it. For a worker whose category list has no
    repeated entry, the nearby-jobs query carries no category clause
    exactly when the list is empty or is the single entry [general]; the
    filter then tests the status, the assignment and the distance only, so
    a job of any category passes it.  When the query carries the clause,
    every job it returns has a category of the worker's list. *)
Theorem nearby_category_filter (cats : list string) :
  NoDup cats ->
  (categoryClause cats = None <-> cats = [] \/ cats = ["general"])
  /\ (forall nearSphere w loc j,
        w_categories w = cats -> categoryClause cats = None ->
        matchesNearbyQuery nearSphere (nearbyQuery w loc) j
        = String.eqb (j_status j) "pending"
          && match j_worker j with None => true | Some _ => false end
          && nearSphere loc (serviceRadiusOrDefault (w_serviceRadius w) * 1000)%float
               (j_location j))
  /\ (forall nearSphere w loc jobs j,
        w_categories w = cats -> categoryClause cats <> None ->
        In j (findNearbyJobs nearSphere (nearbyQuery w loc) jobs) ->
        exists c, j_category j = Some c /\ In c cats).
Proof.
  intros _. split; [|split].
  - destruct cats as [|a [|b r]].
    + split; [auto | reflexivity].
    + rewrite categoryClause_singleton.
      destruct (String.eqb_spec "general" a) as [<-|Hne].
      * split; [auto | reflexivity].
      * split; [discriminate|]. intros [H|H]; [discriminate | congruence].
    + split; [discriminate|]. intros [H|H]; discriminate.
  - intros nearSphere w loc j Hw Hnone.
    unfold matchesNearbyQuery, nearbyQuery. cbn [q_status q_geometry q_maxDistance q_category].
    rewrite Hw, Hnone. apply andb_true_r.
  - intros nearSphere w loc jobs j Hw Hsome Hin.
    apply findNearbyJobs_In in Hin. destruct Hin as [_ Hm].
    unfold matchesNearbyQuery, nearbyQuery in Hm. simpl in Hm. rewrite Hw in Hm.
    destruct (categoryClause cats) as [cs|] eqn:E; [|congruence].
    assert (cs = cats) as ->.
    { unfold categoryClause in E. destruct (_ && _); congruence. }
    apply andb_prop in Hm. destruct Hm as [_ Hc].
    destruct (j_category j) as [c|]; [|discriminate].
    exists c. split; [reflexivity|].
    apply existsb_exists in Hc. destruct Hc as (x & Hx & Heq).
    apply String.eqb_eq in Heq. subst x. exact Hx.
Qed.

Lemma nearby_category_filter_witness :
  (categoryClause ["plumbing"] = None <-> ["plumbing"] = [] \/ ["plumbing"] = ["general"])
  /\ (forall nearSphere w loc j,
        w_categories w = ["plumbing"] -> categoryClause ["plumbing"] = None ->
        matchesNearbyQuery nearSphere (nearbyQuery w loc) j
        = String.eqb (j_status j) "pending"
          && match j_worker j with None => true | Some _ => false end
          && nearSphere loc (serviceRadiusOrDefault (w_serviceRadius w) * 1000)%float
               (j_location j))
  /\ (forall nearSphere w loc jobs j,
        w_categories w = ["plumbing"] -> categoryClause ["plumbing"] <> None ->
        In j (findNearbyJobs nearSphere (nearbyQuery w loc) jobs) ->
        exists c, j_category j = Some c /\ In c ["plumbing"]).
Proof.
  apply (nearby_category_filter ["plumbing"]).
  constructor; [simpl; tauto | constructor].
Defined.

(** A worker of category [plumbing] does not get the electrical job; a
    worker of category [general] does. *)
Example plumber_excluded_from_electrical :
  findNearbyJobs Sample.everywhere
    (nearbyQuery (Sample.withCategories ["plumbing"]) Sample.nearDelhi)
    [Sample.electricalWiring] = []
  /\ findNearbyJobs Sample.everywhere
       (nearbyQuery (Sample.withCategories ["general"]) Sample.nearDelhi)
       [Sample.electricalWiring] = [Sample.electricalWiring].
Proof. split; reflexivity. Qed.

(** C5, as the claim states it: the filter is skipped exactly when the
    category set is [{general}], and a worker whose set lacks the job's
    category is excluded.  A worker with no category at all is neither:
    its query carries no category clause and returns the electrical
    job. *)
Lemma category_filter_counterexample :
  categoryClause (w_categories (Sample.withCategories [])) = None
  /\ ~ isGeneralSet (w_categories (Sample.withCategories []))
  /\ ~ In "electrical" (w_categories (Sample.withCategories []))
  /\ In Sample.electricalWiring
       (findNearbyJobs Sample.everywhere
          (nearbyQuery (Sample.withCategories []) Sample.nearDelhi)
          [Sample.electricalWiring]).
Proof.
  split; [reflexivity|]. split; [|split].
  - intros H. destruct (proj2 (H "general") eq_refl).
  - intros [].
  - vm_compute. left. reflexivity.
Qed.

(** X3. A worker whose categories are [general] twice (what the pre-save
    hook derives from two skills outside the enumeration) gets the
    category clause on [general], which no job of the job enumeration
    satisfies. *)
Lemma general_twice_matches_no_job
      (nearSphere : GeoPoint -> float -> option GeoPoint -> bool)
      (w : Worker) (loc : GeoPoint) (j : Job) (c : string) :
  w_categories w = ["general"; "general"] ->
  j_category j = Some c -> In c jobCategoryEnum ->
  matchesNearbyQuery nearSphere (nearbyQuery w loc) j = false.
Proof.
  intros Hw Hc Hin. unfold matchesNearbyQuery, nearbyQuery.
  cbn [q_status q_geometry q_maxDistance q_category]. rewrite Hw, Hc.
  change (categoryClause ["general"; "general"]) with (Some ["general"; "general"]).
  apply andb_false_intro2.
  simpl in Hin. repeat (destruct Hin as [<-|Hin]; [reflexivity|]). contradiction.
Qed.

Lemma general_twice_matches_no_job_witness :
  matchesNearbyQuery Sample.everywhere
    (nearbyQuery (Sample.withCategories ["general"; "general"]) Sample.nearDelhi)
    Sample.electricalWiring = false.
Proof.
  apply (general_twice_matches_no_job Sample.everywhere
           (Sample.withCategories ["general"; "general"]) Sample.nearDelhi
           Sample.electricalWiring "electrical").
  - reflexivity.
  - reflexivity.
  - simpl. tauto.
Defined.

Example two_unknown_skills_give_general_twice :
  w_categories (preSave (Sample.profile 16%N Sample.raj ["welding"; "masonry"]
                           10%float Sample.delhi []))
  = ["general"; "general"].
Proof. reflexivity. Qed.

(* ================================================================= *)
(** * Accepting a job twice *)

Lemma findJobById_id (jobs : list Job) (id : ObjectId) (j : Job) :
  findJobById jobs id = Some j -> j_id j = id.
Proof.
  unfold findJobById. intros H. apply find_some in H. destruct H as [_ H].
  apply N.eqb_eq in H. exact H.
Qed.

(** After [save], looking the document up by its id finds the saved
    one. *)
Lemma findJobById_saveJob (jobs : list Job) (j j' : Job) :
  findJobById jobs (j_id j') = Some j ->
  findJobById (saveJob j' jobs) (j_id j') = Some j'.
Proof.
  unfold findJobById, saveJob.
  induction jobs as [|x r IH]; simpl; [discriminate|].
  destruct (N.eqb (j_id x) (j_id j')) eqn:E.
  - intros _. simpl. rewrite N.eqb_refl. reflexivity.
  - intros H. simpl. rewrite E. apply IH. exact H.
Qed.

(** C7. A worker who accepts a job that is pending and unassigned gets
    status 200, and the stored job then has the worker as its [worker] and
    the status ['in progress'].  A second call on the same job, by any
    worker, is answered with the error 'Job is no longer available'
    (status 400) and leaves the collection, and so the job's worker and
    status, as the first call left it.  Both the controller and the route
    of routes/jobs.js behave so. *)
Theorem acceptJob_once (jobs : list Job) (user again : User) (id : ObjectId) (job : Job) :
  isWorker user -> isWorker again ->
  findJobById jobs id = Some job ->
  j_status job = "pending" -> j_worker job = None ->
  (statusCode (fst (acceptJob jobs user id)) = 200
   /\ findJobById (snd (acceptJob jobs user id)) id = Some (assignJob (user_id user) job)
   /\ j_worker (assignJob (user_id user) job) = Some (user_id user)
   /\ j_status (assignJob (user_id user) job) = "in progress"
   /\ acceptJob (snd (acceptJob jobs user id)) again id
      = (errorHandler "Job is no longer available" 400, snd (acceptJob jobs user id)))
  /\ (statusCode (fst (routeAccept jobs user id)) = 200
      /\ findJobById (snd (routeAccept jobs user id)) id = Some (assignJob (user_id user) job)
      /\ routeAccept (snd (routeAccept jobs user id)) again id
         = (mkResponse 400 (JObject [("message", JString "Job is no longer available")]),
            snd (routeAccept jobs user id))).
Proof.
  intros Hu Ha Hf Hs Hw. unfold isWorker in Hu, Ha.
  set (accepted := assignJob (user_id user) job).
  assert (Hav : noLongerAvailable job = false).
  { unfold noLongerAvailable. rewrite Hs, Hw. reflexivity. }
  pose proof (findJobById_id _ _ _ Hf) as Hid.
  assert (Hf' : findJobById (saveJob accepted jobs) id = Some accepted).
  { rewrite <- Hid. apply (findJobById_saveJob jobs job accepted).
    change (findJobById jobs (j_id job) = Some job). rewrite Hid. exact Hf. }
  unfold acceptJob, routeAccept. rewrite Hu, Ha.
  change (negb ("worker" =? "worker")%string) with false. cbv iota.
  rewrite Hf, Hav. cbn [fst snd statusCode]. fold accepted. rewrite Hf'.
  change (noLongerAvailable accepted) with true.
  repeat split; reflexivity.
Qed.

Lemma acceptJob_once_witness :
  (statusCode (fst (acceptJob [Sample.bathroomLeak; Sample.electricalWiring] Sample.raj 101%N))
   = 200
   /\ findJobById (snd (acceptJob [Sample.bathroomLeak; Sample.electricalWiring]
                          Sample.raj 101%N)) 101%N
      = Some (assignJob (user_id Sample.raj) Sample.bathroomLeak)
   /\ j_worker (assignJob (user_id Sample.raj) Sample.bathroomLeak)
      = Some (user_id Sample.raj)
   /\ j_status (assignJob (user_id Sample.raj) Sample.bathroomLeak) = "in progress"
   /\ acceptJob (snd (acceptJob [Sample.bathroomLeak; Sample.electricalWiring]
                        Sample.raj 101%N)) Sample.deepak 101%N
      = (errorHandler "Job is no longer available" 400,
         snd (acceptJob [Sample.bathroomLeak; Sample.electricalWiring] Sample.raj 101%N)))
  /\ (statusCode (fst (routeAccept [Sample.bathroomLeak; Sample.electricalWiring]
                         Sample.raj 101%N)) = 200
      /\ findJobById (snd (routeAccept [Sample.bathroomLeak; Sample.electricalWiring]
                             Sample.raj 101%N)) 101%N
         = Some (assignJob (user_id Sample.raj) Sample.bathroomLeak)
      /\ routeAccept (snd (routeAccept [Sample.bathroomLeak; Sample.electricalWiring]
                             Sample.raj 101%N)) Sample.deepak 101%N
         = (mkResponse 400 (JObject [("message", JString "Job is no longer available")]),
            snd (routeAccept [Sample.bathroomLeak; Sample.electricalWiring]
                   Sample.raj 101%N))).
Proof.
  apply (acceptJob_once [Sample.bathroomLeak; Sample.electricalWiring]
           Sample.raj Sample.deepak 101%N Sample.bathroomLeak);
    reflexivity.
Defined.

(* ================================================================= *)
(** * Reviews *)

Section Reviews.

Import FloatFacts.

Lemma rating_not_a_schema_path :
  inSchema jobSchemaPaths "rating" = false /\ inSchema jobSchemaPaths "review" = false.
Proof. split; reflexivity. Qed.

(** Had the three documents carried the ratings 5, 4 and 3 as
    properties, the reduction would give their mean. *)
Lemma averageRating_of_rated_documents :
  averageRating
    [setOwn "rating" (JNumber 5) (loadJob Sample.gardenMaintenance);
     setOwn "rating" (JNumber 4) (loadJob Sample.hedgeTrimming);
     setOwn "rating" (JNumber 3) (loadJob Sample.lawnMowing)]
  = 4%float.
Proof. reflexivity. Qed.

Lemma fold_plus_nan (l : list JobDoc) :
  fold_left (fun acc job => plus acc (readOwn "rating" job)) l nan = nan.
Proof.
  induction l as [|d r IH]; simpl; [reflexivity|].
  destruct (readOwn "rating" d); simpl; rewrite ?nan_add; exact IH.
Qed.

(** Documents that come from a query have no [rating] property: the
    reduction over them is [NaN], also over none of them (0 / 0). *)
Lemma averageRating_loaded (jobs : list Job) :
  averageRating (map loadJob jobs) = nan.
Proof.
  unfold averageRating. destruct jobs as [|j r]; [reflexivity|].
  simpl fold_left. change (plus 0 (readOwn "rating" (loadJob j))) with nan.
  rewrite fold_plus_nan. apply nan_div.
Qed.

(** X1. Whatever the collection holds and whatever rating is sent, the
    rating [addReview] passes to the users collection is [NaN]. *)
Lemma addReview_rating_nan (strictQuery : bool) (jobs : list Job) (user : User)
      (id : ObjectId) (rating review : Json) (w : option ObjectId) (avg : float) :
  rr_userUpdate (addReview strictQuery jobs user id rating review) = Some (w, avg) ->
  avg = nan.
Proof.
  unfold addReview.
  destruct (findJobById jobs id) as [j|]; [|discriminate].
  cbn [jd_doc loadJob].
  destruct (negb (N.eqb (j_user j) (user_id user))); [discriminate|].
  destruct (negb (String.eqb (j_status j) "completed")); [discriminate|].
  cbn [rr_userUpdate]. unfold findRatedJobs. rewrite averageRating_loaded.
  intros H. injection H as _ <-. reflexivity.
Qed.

End Reviews.

Lemma addReview_rating_nan_witness : nan = nan.
Proof.
  apply (addReview_rating_nan false Sample.completedJobs Sample.priya 106%N
           (JNumber 5) (JString "Excellent work!") (Some (user_id Sample.sunita)) nan).
  reflexivity.
Defined.

(** C3, on the code. Priya reviews the last of Sunita's three completed
    jobs with the rating 3.  [rating] is not a path of the job schema: the
    save stores nothing of it (the collection is as before, and the stored
    job has no [rating]), the query for rated jobs returns documents
    without a [rating] property or none at all, and the rating sent to the
    users collection is [NaN], with either setting of [strictQuery]. *)
Theorem addReview_does_not_average :
  rr_userUpdate (addReview false Sample.completedJobs Sample.priya 108%N
                   (JNumber 3) (JString "Good work"))
  = Some (Some (user_id Sample.sunita), nan)
  /\ rr_userUpdate (addReview true Sample.completedJobs Sample.priya 108%N
                      (JNumber 3) (JString "Good work"))
     = Some (Some (user_id Sample.sunita), nan)
  /\ rr_jobs (addReview false Sample.completedJobs Sample.priya 108%N
                (JNumber 3) (JString "Good work"))
     = Sample.completedJobs
  /\ Obj.get "rating" (Job_toObject Sample.lawnMowing) = None.
Proof. repeat split; reflexivity. Qed.


(* ================================================================= *)
(** * Notification fan-out *)

Section FanOut.

Variable g : Worker -> option Worker.
Hypothesis g_id : forall w w', g w = Some w' -> w_id w' = w_id w.

Lemma find_id_none (ms : list Worker) (i : ObjectId) :
  ~ In i (map w_id ms) -> find (fun m => N.eqb (w_id m) i) ms = None.
Proof.
  induction ms as [|m r IH]; simpl; [reflexivity|]. intros H.
  destruct (N.eqb_spec (w_id m) i) as [E|E]; [exfalso; auto|]. apply IH. tauto.
Qed.

(** Saving the changed documents one after the other changes exactly the
    stored documents that have their ids. *)
Lemma fold_save (ms db : list Worker) :
  NoDup (map w_id ms) -> fold_left (saveChanged g) ms db = map (updatedBy g ms) db.
Proof.
  revert db. induction ms as [|m r IH]; intros db Hnd; simpl.
  - unfold updatedBy. simpl. symmetry. apply map_id.
  - inversion Hnd as [|i l Hni Hr]; subst. rewrite (IH _ Hr).
    unfold saveChanged at 1. destruct (g m) as [m'|] eqn:Eg.
    + pose proof (g_id m m' Eg) as Hid.
      unfold saveWorker. rewrite map_map. apply map_ext. intros w.
      unfold updatedBy. simpl. rewrite Hid.
      destruct (N.eqb_spec (w_id w) (w_id m)) as [E|E].
      * rewrite Hid, (find_id_none r (w_id m) Hni), <- E, N.eqb_refl, Eg. reflexivity.
      * destruct (N.eqb_spec (w_id m) (w_id w)); [congruence|reflexivity].
    + apply map_ext. intros w. unfold updatedBy. simpl.
      destruct (N.eqb_spec (w_id m) (w_id w)) as [E|E]; [|reflexivity].
      rewrite Eg, <- E, (find_id_none r (w_id m) Hni). reflexivity.
Qed.

Lemma find_filter_id (p : Worker -> bool) (db : list Worker) (w : Worker) :
  NoDup (map w_id db) -> In w db ->
  find (fun m => N.eqb (w_id m) (w_id w)) (filter p db) = if p w then Some w else None.
Proof.
  induction db as [|x r IH]; simpl; [tauto|]. intros Hnd Hin.
  inversion Hnd as [|i l Hni Hr]; subst.
  destruct Hin as [->|Hin].
  - destruct (p w) eqn:Ep; simpl.
    + rewrite N.eqb_refl. reflexivity.
    + apply find_id_none. intros H. apply Hni.
      apply in_map_iff in H. destruct H as (y & Hy & Hin).
      apply filter_In in Hin. apply in_map_iff. exists y. tauto.
  - assert (Hne : w_id x <> w_id w).
    { intros E. apply Hni. rewrite E. apply in_map. exact Hin. }
    destruct (p x); simpl.
    + destruct (N.eqb_spec (w_id x) (w_id w)); [contradiction|]. apply IH; assumption.
    + apply IH; assumption.
Qed.

Lemma NoDup_filter_ids (p : Worker -> bool) (db : list Worker) :
  NoDup (map w_id db) -> NoDup (map w_id (filter p db)).
Proof.
  induction db as [|x r IH]; simpl; [auto|]. intros Hnd.
  inversion Hnd as [|i l Hni Hr]; subst.
  destruct (p x); simpl; [|auto]. constructor; [|auto].
  intros H. apply Hni. apply in_map_iff in H. destruct H as (y & Hy & Hin).
  apply filter_In in Hin. apply in_map_iff. exists y. tauto.
Qed.

Lemma fold_save_filter (p : Worker -> bool) (db : list Worker) :
  NoDup (map w_id db) ->
  fold_left (saveChanged g) (filter p db) db
  = map (fun w => if p w then match g w with Some w' => w' | None => w end else w) db.
Proof.
  intros Hnd. rewrite fold_save by (apply NoDup_filter_ids; exact Hnd).
  apply map_ext_in. intros w Hin. unfold updatedBy.
  rewrite (find_filter_id p db w Hnd Hin). destruct (p w); reflexivity.
Qed.

End FanOut.

Lemma preSave_id (w : Worker) : w_id (preSave w) = w_id w.
Proof. unfold preSave. destruct (w_categories w), (w_skills w); reflexivity. Qed.

Lemma preSave_notifications (w : Worker) : w_notifications (preSave w) = w_notifications w.
Proof. unfold preSave. destruct (w_categories w), (w_skills w); reflexivity. Qed.

Lemma withNotification_id (now : Z) (job : Job) (w w' : Worker) :
  withNotification now job w = Some w' -> w_id w' = w_id w.
Proof.
  unfold withNotification.
  destruct (validOnSave (pushNotification (newJobNotification now job) w)); [|discriminate].
  intros H. injection H as <-. rewrite preSave_id. reflexivity.
Qed.

(** The notification of the dispatch passes the validators, so a
    document with it is saved exactly when the stored document is one
    the validators pass. *)
Lemma validOnSave_push (now : Z) (job : Job) (w : Worker) :
  validOnSave (pushNotification (newJobNotification now job) w) = validOnSave w.
Proof.
  unfold validOnSave, workerValid, pushNotification.
  cbn [w_skills w_categories w_location w_notifications].
  rewrite forallb_app. cbn [forallb].
  change (notificationValid (newJobNotification now job)) with true.
  rewrite !andb_true_r. reflexivity.
Qed.

Lemma withNotification_valid (now : Z) (job : Job) (w : Worker) :
  validOnSave w = true ->
  withNotification now job w = Some (preSave (pushNotification (newJobNotification now job) w)).
Proof. intros H. unfold withNotification. rewrite validOnSave_push, H. reflexivity. Qed.

Lemma withNotification_invalid (now : Z) (job : Job) (w : Worker) :
  validOnSave w = false -> withNotification now job w = None.
Proof. intros H. unfold withNotification. rewrite validOnSave_push, H. reflexivity. Qed.

Lemma notified_user (now : Z) (job : Job) (category : string) (w : Worker) :
  w_user (notified now job category w) = w_user w.
Proof.
  unfold notified, withNotification.
  destruct (matchesCategory category w); [|reflexivity].
  destruct (validOnSave (pushNotification (newJobNotification now job) w)); [|reflexivity].
  unfold preSave.
  destruct (w_categories (pushNotification (newJobNotification now job) w)),
    (w_skills (pushNotification (newJobNotification now job) w)); reflexivity.
Qed.

(** What the dispatch does to one document, case by case. *)
Lemma notified_cases (now : Z) (job : Job) (category : string) (w : Worker) :
  (matchesCategory category w = true -> validOnSave w = true ->
   notified now job category w = preSave (pushNotification (newJobNotification now job) w)
   /\ w_notifications (notified now job category w)
      = (w_notifications w ++ [newJobNotification now job])%list)
  /\ (matchesCategory category w = true -> validOnSave w = false ->
      notified now job category w = w)
  /\ (matchesCategory category w = false -> notified now job category w = w).
Proof.
  unfold notified. split; [|split].
  - intros -> Hv. rewrite (withNotification_valid now job w Hv). split; [reflexivity|].
    rewrite preSave_notifications. reflexivity.
  - intros -> Hv. rewrite (withNotification_invalid now job w Hv). reflexivity.
  - intros ->. reflexivity.
Qed.

Lemma fold_left_same {A B : Type} (f g : A -> B -> A) (l : list B) (a : A) :
  (forall x y, f x y = g x y) -> fold_left f l a = fold_left g l a.
Proof.
  intros H. revert a. induction l as [|y r IH]; intros a; simpl; [reflexivity|].
  rewrite H. apply IH.
Qed.

(** What the dispatch does to the collection, for a job with a
    category. *)
Lemma dispatch_map (now : Z) (job : Job) (workers : list Worker) (category : string) :
  NoDup (map w_id workers) -> j_category job = Some category -> category <> "" ->
  snd (sendNotificationsToMatchingWorkers now job workers)
  = map (notified now job category) workers.
Proof.
  intros Hnd Hc Hne. unfold sendNotificationsToMatchingWorkers. rewrite Hc.
  destruct category as [|c r]; [congruence|].
  set (cat := String c r) in *.
  destruct (List.length (filter (matchesCategory cat) workers) =? 0)%nat eqn:E.
  - simpl. apply Nat.eqb_eq in E. apply length_zero_iff_nil in E.
    symmetry. rewrite <- (map_id workers) at 2. apply map_ext_in.
    intros w Hw. unfold notified.
    destruct (matchesCategory cat w) eqn:Em; [|reflexivity].
    exfalso. assert (In w (filter (matchesCategory cat) workers))
      by (apply filter_In; auto).
    rewrite E in H. exact H.
  - cbn [snd].
    rewrite (fold_left_same _ (saveChanged (withNotification now job))).
    + apply (fold_save_filter (withNotification now job) (withNotification_id now job)).
      exact Hnd.
    + intros db m. unfold saveChanged, saveLoadedWorker, withNotification.
      destruct (validOnSave (pushNotification (newJobNotification now job) m)); reflexivity.
Qed.

Lemma jobCategoryEnum_nonEmpty (c : string) : In c jobCategoryEnum -> c <> "".
Proof.
  intros H ->. simpl in H. repeat (destruct H as [H|H]; [discriminate|]). contradiction.
Qed.


Lemma sample_workers_distinct : NoDup (map w_id Sample.workers).
Proof.
  repeat constructor; simpl; intuition discriminate.
Defined.


Example dispatch_without_category :
  sendNotificationsToMatchingWorkers 1700000000000%Z
    (mkJob 109%N "Untitled" "..." None None None 0%float None "" "" [] "pending" 21%N None
           1690000000000%Z None 10%float)
    Sample.workers
  = (MissingCategory, Sample.workers).
Proof. reflexivity. Qed.


(* ================================================================= *)
(** * The location disclosure gate *)

Lemma forallb_seq2 (p : nat -> nat -> bool) (a b : nat) :
  forallb (fun x => forallb (p x) (seq 0 b)) (seq 0 a) = true ->
  forall x y, (x < a)%nat -> (y < b)%nat -> p x y = true.
Proof.
  intros H x y Hx Hy. rewrite forallb_forall in H.
  specialize (H x (proj2 (in_seq a 0 x) ltac:(lia))).
  rewrite forallb_forall in H.
  exact (H y (proj2 (in_seq b 0 y) ltac:(lia))).
Qed.

Lemma readsClock_all :
  forallb (fun hh => forallb (readsClock hh) (seq 0 100)) (seq 0 100) = true.
Proof. vm_compute. reflexivity. Qed.

Lemma makesStart_all :
  forallb (fun hh => forallb (makesStart hh) (seq 0 100)) (seq 0 100) = true.
Proof. vm_compute. reflexivity. Qed.

Lemma makesReveal_all :
  forallb (fun h => forallb (makesReveal h) (seq 0 60)) (seq 0 24) = true.
Proof. vm_compute. reflexivity. Qed.

(** The route reads the hour and the minute of a clock time back. *)
Lemma clock_fields (numericLiteral : string -> float) (hh mm : nat) :
  (hh < 100)%nat -> (mm < 100)%nat ->
  map (JSString.Number numericLiteral) (JSString.split ":" (clock hh mm))
  = [JSNumber.ofZ (Z.of_nat hh); JSNumber.ofZ (Z.of_nat mm)].
Proof.
  intros Hh Hm.
  pose proof (forallb_seq2 readsClock 100 100 readsClock_all hh mm Hh Hm) as H.
  unfold readsClock in H.
  unfold JSString.Number.
  destruct (JSString.split ":" (clock hh mm)) as [|a [|b [|c r]]]; cbn [map] in *;
    try discriminate;
    destruct (JSString.digitsValue 0 (JSString.trim a)) as [x|]; try discriminate;
    destruct (JSString.digitsValue 0 (JSString.trim b)) as [y|]; try discriminate.
  apply andb_prop in H. destruct H as [H1 H2].
  apply Z.eqb_eq in H1, H2. subst x y. reflexivity.
Qed.

(** The time within the day that [setHours] makes of a clock time. *)
Lemma MakeTime_clock (hh mm : nat) :
  (hh < 100)%nat -> (mm < 100)%nat ->
  JSDate.MakeTime (JSNumber.ofZ (Z.of_nat hh)) (JSNumber.ofZ (Z.of_nat mm)) 0 0
  = Some (clockTime hh mm).
Proof.
  intros Hh Hm.
  pose proof (forallb_seq2 makesStart 100 100 makesStart_all hh mm Hh Hm) as H.
  unfold makesStart in H.
  destruct (JSDate.MakeTime (JSNumber.ofZ (Z.of_nat hh)) (JSNumber.ofZ (Z.of_nat mm)) 0 0)
    as [t|]; [|discriminate].
  apply Z.eqb_eq in H. rewrite H. reflexivity.
Qed.

(** The time within the day that [setHours(getHours() - 3)] makes of a
    local time on a full minute. *)
Lemma MakeTime_minus3 (h m : Z) :
  (0 <= h < 24)%Z -> (0 <= m < 60)%Z ->
  JSDate.MakeTime (JSNumber.ofZ h - 3)%float (JSNumber.ofZ m) (JSNumber.ofZ 0)
                  (JSNumber.ofZ 0)
  = Some ((h - 3) * JSDate.msPerHour + m * JSDate.msPerMinute)%Z.
Proof.
  intros Hh Hm.
  pose proof (forallb_seq2 makesReveal 24 60 makesReveal_all (Z.to_nat h) (Z.to_nat m)
                ltac:(lia) ltac:(lia)) as H.
  unfold makesReveal in H. rewrite !Z2Nat.id in H by lia.
  destruct (JSDate.MakeTime (JSNumber.ofZ h - 3)%float (JSNumber.ofZ m) (JSNumber.ofZ 0)
              (JSNumber.ofZ 0)) as [t|]; [|discriminate].
  apply Z.eqb_eq in H. rewrite H. reflexivity.
Qed.

Section Disclosure.

Import JSDate.
Local Open Scope Z_scope.

Variable numericLiteral : string -> float.
Variable LocalTZA : Z -> bool -> Z.

(** [d.setHours(d.getHours() - 3)] moves a local time on a full minute
    back by three hours. *)
Lemma setHours_minus3 (lt : Z) :
  lt mod msPerMinute = 0 ->
  0 <= HourFromTime lt < 24 /\ 0 <= MinFromTime lt < 60
  /\ SecFromTime lt = 0 /\ msFromTime lt = 0
  /\ MakeDate (Day lt) ((HourFromTime lt - 3) * msPerHour + MinFromTime lt * msPerMinute)
     = lt - 3 * msPerHour.
Proof.
  unfold MakeDate, Day, HourFromTime, MinFromTime, SecFromTime, msFromTime,
    msPerDay, msPerHour, msPerMinute, msPerSecond.
  intros H. repeat split; Z.div_mod_to_equations; lia.
Qed.

Lemma TimeClip_in_range (t : Z) : Z.abs t <= 8640000000000000 -> TimeClip t = Some t.
Proof. intros H. unfold TimeClip. apply Z.leb_le in H. rewrite H. reflexivity. Qed.

Lemma startLocal_minute (D : Z) (hh mm : nat) :
  startLocal LocalTZA D hh mm mod msPerMinute = 0.
Proof.
  unfold startLocal, MakeDate, clockTime, msPerDay, msPerHour, msPerMinute.
  Z.div_mod_to_equations. lia.
Qed.

Lemma startOn_bounds (D : Z) (hh mm : nat) :
  ordinaryDate LocalTZA D -> (hh < 100)%nat -> (mm < 100)%nat ->
  Z.abs (startOn LocalTZA D hh mm) <= 8640000000000000 - msPerDay.
Proof.
  unfold ordinaryDate, startOn, startLocal, UTC, MakeDate, clockTime, Day, LocalTime.
  intros [HD Htz] Hh Hm.
  pose proof (Htz D true) as H1.
  pose proof (Htz ((D + LocalTZA D true) / msPerDay * msPerDay
                   + (Z.of_nat hh * msPerHour + Z.of_nat mm * msPerMinute)) false) as H2.
  unfold msPerDay, msPerHour, msPerMinute in *. Z.div_mod_to_equations. lia.
Qed.

(** Later clock times of a day are later on the local clock. *)
Lemma startLocal_clock (D : Z) (hh mm : nat) :
  startLocal LocalTZA D hh mm
  = startLocal LocalTZA D 0 0 + Z.of_nat hh * msPerHour + Z.of_nat mm * msPerMinute.
Proof.
  unfold startLocal, MakeDate, clockTime. lia.
Qed.

(** The start the route computes is the clock time on the deadline's
    date. *)
Lemma jobStart_clock (job : Job) (D : Z) (hh mm : nat) :
  j_deadline job = Some D -> j_timeStart job = clock hh mm ->
  ordinaryDate LocalTZA D -> (hh < 100)%nat -> (mm < 100)%nat ->
  jobStart numericLiteral LocalTZA job = Some (startOn LocalTZA D hh mm).
Proof.
  intros HD Ht Hord Hh Hm.
  pose proof (startOn_bounds D hh mm Hord Hh Hm) as Hb.
  unfold jobStart. rewrite HD, Ht, (clock_fields numericLiteral hh mm Hh Hm).
  cbn [nth]. unfold setHours4. rewrite (MakeTime_clock hh mm Hh Hm).
  fold (startLocal LocalTZA D hh mm). fold (startOn LocalTZA D hh mm).
  apply TimeClip_in_range. unfold msPerDay in Hb. lia.
Qed.

(** The reveal time the route computes is the start of the job on the
    deadline's date minus three hours, when the zone's offset does not
    change between the two. *)
Lemma revealTimeOf_clock (job : Job) (D : Z) (hh mm : nat) :
  j_deadline job = Some D -> j_timeStart job = clock hh mm ->
  ordinaryDate LocalTZA D -> sameOffset LocalTZA D hh mm ->
  (hh < 100)%nat -> (mm < 100)%nat ->
  revealTimeOf numericLiteral LocalTZA job = Some (revealOn LocalTZA D hh mm).
Proof.
  intros HD Ht Hord [Hs1 Hs2] Hh Hm.
  pose proof (startOn_bounds D hh mm Hord Hh Hm) as Hb.
  unfold revealTimeOf. rewrite (jobStart_clock job D hh mm HD Ht Hord Hh Hm).
  unfold setHours1, getHours.
  assert (Hlt : LocalTime LocalTZA (startOn LocalTZA D hh mm) = startLocal LocalTZA D hh mm).
  { unfold LocalTime. rewrite Hs1. unfold startOn, UTC, offsetAt. lia. }
  rewrite Hlt.
  destruct (setHours_minus3 _ (startLocal_minute D hh mm)) as (HH & HM & HS & Hms & Hmk).
  rewrite HS, Hms, (MakeTime_minus3 _ _ HH HM), Hmk.
  unfold UTC. rewrite Hs2.
  replace (startLocal LocalTZA D hh mm - 3 * msPerHour - offsetAt LocalTZA D hh mm)
    with (revealOn LocalTZA D hh mm)
    by (unfold revealOn, startOn, UTC, offsetAt; lia).
  apply TimeClip_in_range.
  unfold revealOn, msPerDay, msPerHour in *. lia.
Qed.


End Disclosure.


(** The deadline 2023-11-14 22:13:20 UTC with the start 10:00, in UTC:
    hidden at 06:55 of that day, revealed at 07:05. *)
Example disclosure_at_0655_and_0705 :
  bodyProps (jobLocation Sample.noNumber Sample.utc (startOn Sample.utc 1700000000000 6 55)
               [Sample.acceptedLeak] Sample.raj (Some 101%N))
  = [("available", JBool false);
     ("message", JString "Exact location will be available 3 hours before the job starts");
     ("revealTime", JDate (Some (startOn Sample.utc 1700000000000 7 0)))]
  /\ bodyProps (jobLocation Sample.noNumber Sample.utc
                  (startOn Sample.utc 1700000000000 7 5)
                  [Sample.acceptedLeak] Sample.raj (Some 101%N))
     = [("available", JBool true);
        ("exactLocation", JObject [("latitude", JNumber 28.6139); ("longitude", JNumber 77.2090)]);
        ("exactAddress", JString "A-15, Vasant Kunj, New Delhi, Delhi 110070")].
Proof. split; reflexivity. Qed.


(* ================================================================= *)
(** * The category listings *)

Module SetFacts.

Lemma has_In (x : string) (s : JSSet.t) : JSSet.has x s = true <-> In x s.
Proof.
  unfold JSSet.has. rewrite existsb_exists. split.
  - intros (y & Hy & E). apply String.eqb_eq in E. subst. exact Hy.
  - intros H. exists x. split; [exact H|apply String.eqb_refl].
Qed.

Lemma add_In (c x : string) (s : JSSet.t) : In c (JSSet.add x s) <-> In c s \/ c = x.
Proof.
  unfold JSSet.add. destruct (JSSet.has x s) eqn:E.
  - apply has_In in E. split; [tauto|]. intros [H| ->]; assumption.
  - rewrite in_app_iff. simpl. intuition congruence.
Qed.

Lemma NoDup_snoc (x : string) (s : list string) :
  NoDup s -> ~ In x s -> NoDup (s ++ [x]).
Proof.
  induction s as [|y r IH]; simpl; intros Hnd Hx.
  - constructor; [tauto|constructor].
  - inversion Hnd as [|y' r' Hy Hr]; subst. constructor.
    + rewrite in_app_iff. simpl. intuition congruence.
    + apply IH; tauto.
Qed.

Lemma add_NoDup (x : string) (s : JSSet.t) : NoDup s -> NoDup (JSSet.add x s).
Proof.
  intros H. unfold JSSet.add. destruct (JSSet.has x s) eqn:E; [exact H|].
  apply NoDup_snoc; [exact H|]. intros Hin. apply has_In in Hin. congruence.
Qed.

Lemma addEach_In (f : string -> string) (xs : list string) (s : JSSet.t) (c : string) :
  In c (addEach f xs s) <-> In c s \/ exists x, In x xs /\ c = f x.
Proof.
  unfold addEach. revert s. induction xs as [|x r IH]; intros s; simpl.
  - split; [tauto|]. intros [H|(x & [] & _)]. exact H.
  - rewrite IH, add_In. split.
    + intros [[H|H]|(y & Hy & E)].
      * left. exact H.
      * right. exists x. tauto.
      * right. exists y. tauto.
    + intros [H|(y & [<-|Hy] & E)].
      * left. left. exact H.
      * left. right. exact E.
      * right. exists y. tauto.
Qed.

Lemma addEach_NoDup (f : string -> string) (xs : list string) (s : JSSet.t) :
  NoDup s -> NoDup (addEach f xs s).
Proof.
  unfold addEach. revert s. induction xs as [|x r IH]; intros s H; simpl; [exact H|].
  apply IH. apply add_NoDup. exact H.
Qed.

(** What the loop over the workers collects, for the two ways a worker
    adds to the set. *)
Lemma collect_In (g : JSSet.t -> Worker -> JSSet.t) (P : Worker -> string -> Prop)
      (workers : list Worker) (s : JSSet.t) (c : string) :
  (forall s w c, In c (g s w) <-> In c s \/ P w c) ->
  In c (fold_left g workers s) <-> In c s \/ exists w, In w workers /\ P w c.
Proof.
  intros Hg. revert s. induction workers as [|w r IH]; intros s; simpl.
  - split; [tauto|]. intros [H|(w & [] & _)]. exact H.
  - rewrite IH, Hg. split.
    + intros [[H|H]|(y & Hy & E)].
      * left. exact H.
      * right. exists w. tauto.
      * right. exists y. tauto.
    + intros [H|(y & [<-|Hy] & E)].
      * left. left. exact H.
      * left. right. exact E.
      * right. exists y. tauto.
Qed.

Lemma collect_NoDup (g : JSSet.t -> Worker -> JSSet.t) (workers : list Worker) (s : JSSet.t) :
  (forall s w, NoDup s -> NoDup (g s w)) -> NoDup s -> NoDup (fold_left g workers s).
Proof.
  intros Hg. revert s. induction workers as [|w r IH]; intros s H; simpl; [exact H|].
  apply IH. apply Hg. exact H.
Qed.

End SetFacts.

Lemma listed_strings (code : nat) (l : list string) :
  listed (mkResponse code (JArray (map JString l))) = l.
Proof.
  unfold listed. cbn [body]. induction l as [|x r IH]; simpl; [reflexivity|].
  f_equal. exact IH.
Qed.

Lemma defaultCategories_trimmed (c : string) :
  In c defaultCategories -> JSString.trim c = c.
Proof.
  intros H. simpl in H.
  repeat (destruct H as [<-|H]; [reflexivity|]). contradiction.
Qed.

Lemma getCategories_In (workers : list Worker) (c : string) :
  In c (listed (getCategories workers)) <->
  In c defaultCategories
  \/ exists w s, In w workers
                 /\ (In s (w_skills w) \/ In s (w_categories w))
                 /\ c = lowerTrim s.
Proof.
  unfold getCategories. rewrite listed_strings.
  rewrite SetFacts.addEach_In.
  rewrite (SetFacts.collect_In _
             (fun w c => exists s, (In s (w_skills w) \/ In s (w_categories w))
                                   /\ c = lowerTrim s)).
  - simpl In at 1. split.
    + intros [[[]|(w & Hw & s & Hs & E)]|(x & Hx & ->)].
      * right. exists w, s. tauto.
      * left. exact Hx.
    + intros [H|(w & s & Hw & Hs & E)].
      * right. exists c. tauto.
      * left. right. exists w. split; [exact Hw|]. exists s. tauto.
  - intros s w c'. rewrite !SetFacts.addEach_In. split.
    + intros [[H|(x & Hx & E)]|(x & Hx & E)].
      * left. exact H.
      * right. exists x. tauto.
      * right. exists x. tauto.
    + intros [H|(x & [Hx|Hx] & E)].
      * left. left. exact H.
      * left. right. exists x. tauto.
      * right. exists x. tauto.
Qed.

(** X6. The categories [getCategories] lists are the eleven default
    categories and the skills and categories of the worker profiles,
    lower-cased and trimmed: every one of them and nothing else, and each
    once.  The route of routes/worker.js sends the same list to a
    worker. *)
Theorem getCategories_lists (workers : list Worker) :
  statusCode (getCategories workers) = 200
  /\ (forall c,
        In c (listed (getCategories workers)) <->
        In c defaultCategories
        \/ exists w s, In w workers
                       /\ (In s (w_skills w) \/ In s (w_categories w))
                       /\ c = lowerTrim s)
  /\ NoDup (listed (getCategories workers))
  /\ (forall user, userType user = "worker" ->
                   workerCategories workers user = getCategories workers).
Proof.
  split; [reflexivity|]. split; [apply getCategories_In|]. split.
  - unfold getCategories. rewrite listed_strings.
    apply SetFacts.addEach_NoDup. apply SetFacts.collect_NoDup; [|constructor].
    intros s w H. apply SetFacts.addEach_NoDup, SetFacts.addEach_NoDup. exact H.
  - intros user Hu. unfold workerCategories. rewrite Hu. reflexivity.
Qed.

(** X7. The listing of routes/jobs.js reads the skills only and does not
    trim them: it lists the default categories and the lower-cased
    skills, each once; whatever it lists is, once trimmed, in the listing
    of [getCategories]. *)
Theorem routeCategories_lists (workers : list Worker) :
  (forall c,
      In c (listed (routeCategories workers)) <->
      In c defaultCategories
      \/ exists w s, In w workers /\ In s (w_skills w) /\ c = JSString.toLowerCase s)
  /\ NoDup (listed (routeCategories workers))
  /\ (forall c, In c (listed (routeCategories workers)) ->
                In (JSString.trim c) (listed (getCategories workers))).
Proof.
  assert (H1 : forall c,
      In c (listed (routeCategories workers)) <->
      In c defaultCategories
      \/ exists w s, In w workers /\ In s (w_skills w) /\ c = JSString.toLowerCase s).
  { intros c. unfold routeCategories, res_json. rewrite listed_strings.
    rewrite SetFacts.addEach_In.
    rewrite (SetFacts.collect_In _
               (fun w c => exists s, In s (w_skills w) /\ c = JSString.toLowerCase s)).
    - simpl In at 1. split.
      + intros [[[]|(w & Hw & s & Hs & E)]|(x & Hx & ->)].
        * right. exists w, s. tauto.
        * left. exact Hx.
      + intros [H|(w & s & Hw & Hs & E)].
        * right. exists c. tauto.
        * left. right. exists w. split; [exact Hw|]. exists s. tauto.
    - intros s w c'. rewrite SetFacts.addEach_In. reflexivity. }
  split; [exact H1|]. split.
  - unfold routeCategories, res_json. rewrite listed_strings.
    apply SetFacts.addEach_NoDup. apply SetFacts.collect_NoDup; [|constructor].
    intros s w H. apply SetFacts.addEach_NoDup. exact H.
  - intros c Hc. apply H1 in Hc.
    apply getCategories_In.
    destruct Hc as [Hd|(w & s & Hw & Hs & ->)].
    + left. rewrite (defaultCategories_trimmed c Hd). exact Hd.
    + right. exists w, s. split; [exact Hw|]. split; [left; exact Hs|reflexivity].
Qed.
(* ================================================================= *)
(** * Job listings *)

Lemma insertByCreatedAt_sorted (j : Job) (l : list Job) :
  newestFirst l -> newestFirst (insertByCreatedAt j l).
Proof.
  unfold newestFirst. induction l as [|x r IH]; simpl; intros H.
  - constructor; constructor.
  - inversion H as [|x' r' Hr Hx]; subst.
    destruct (Z.leb_spec (j_createdAt x) (j_createdAt j)) as [Hle|Hlt].
    + constructor; [exact H|]. constructor; [exact Hle|].
      rewrite Forall_forall in *. intros y Hy. specialize (Hx y Hy). lia.
    + constructor; [apply IH; exact Hr|].
      rewrite Forall_forall in *. intros y Hy.
      apply insertByCreatedAt_In in Hy. destruct Hy as [->|Hy]; [lia|auto].
Qed.

Lemma sortByCreatedAtDesc_sorted (l : list Job) : newestFirst (sortByCreatedAtDesc l).
Proof.
  unfold sortByCreatedAtDesc. induction l as [|x r IH]; simpl.
  - constructor.
  - apply insertByCreatedAt_sorted. exact IH.
Qed.

Lemma insertByCreatedAt_length (j : Job) (l : list Job) :
  List.length (insertByCreatedAt j l) = S (List.length l).
Proof.
  induction l as [|x r IH]; simpl; [reflexivity|].
  destruct (j_createdAt x <=? j_createdAt j)%Z; simpl; [reflexivity|].
  rewrite IH. reflexivity.
Qed.

Lemma sortByCreatedAtDesc_length (l : list Job) :
  List.length (sortByCreatedAtDesc l) = List.length l.
Proof.
  unfold sortByCreatedAtDesc. induction l as [|x r IH]; simpl; [reflexivity|].
  rewrite insertByCreatedAt_length, IH. reflexivity.
Qed.

Lemma StronglySorted_firstn {A : Type} (R : A -> A -> Prop) (n : nat) (l : list A) :
  StronglySorted R l -> StronglySorted R (firstn n l).
Proof.
  revert n. induction l as [|x r IH]; intros n H.
  - rewrite firstn_nil. constructor.
  - destruct n as [|n]; simpl; [constructor|].
    inversion H as [|x' r' Hr Hx]; subst. constructor; [apply IH; exact Hr|].
    rewrite Forall_forall in *. intros y Hy. apply Hx.
    apply In_firstn in Hy. exact Hy.
Qed.

Lemma dataOf_objects (code : nat) (props : list (string * Json)) (l : list Obj.t) :
  Obj.get "data" props = Some (JArray (map JObject l)) ->
  dataOf (mkResponse code (JObject props)) = l.
Proof.
  intros E. unfold dataOf, bodyProps. cbn [body]. rewrite E. clear E.
  induction l as [|x r IH]; simpl; [reflexivity|]. f_equal. exact IH.
Qed.

Lemma get_location_toObject (job : Job) (loc : GeoPoint) :
  j_location job = Some loc ->
  Obj.get "location" (Job_toObject job) = Some (GeoPoint_toObject loc).
Proof.
  intros Hl. unfold Job_toObject. rewrite Hl.
  destruct (j_category job); reflexivity.
Qed.

Lemma get_id_toObject (job : Job) :
  Obj.get "_id" (Job_toObject job) = Some (JId (j_id job)).
Proof. reflexivity. Qed.

Lemma toLowerCase_length (s : string) :
  String.length (JSString.toLowerCase s) = String.length s.
Proof. induction s as [|c r IH]; simpl; [reflexivity|]. rewrite IH. reflexivity. Qed.

Lemma prefix_empty (s : string) : String.prefix "" s = true.
Proof. destruct s; reflexivity. Qed.

Lemma includes_percent_lower (s : string) :
  JSString.includes "%" (JSString.toLowerCase s) = false -> JSString.includes "%" s = false.
Proof.
  induction s as [|c r IH]; [auto|]. intros H.
  change (JSString.includes "%" (String c r))
    with (match ascii_dec "%" c with
          | left _ => String.prefix "" r
          | right _ => false
          end || JSString.includes "%" r).
  change (JSString.includes "%" (JSString.toLowerCase (String c r)))
    with (match ascii_dec "%" (JSString.lower_ascii c) with
          | left _ => String.prefix "" (JSString.toLowerCase r)
          | right _ => false
          end || JSString.includes "%" (JSString.toLowerCase r)) in H.
  apply orb_false_elim in H. destruct H as [H1 H2]. rewrite (IH H2), orb_false_r.
  destruct (ascii_dec "%" c) as [E|E]; [|reflexivity].
  subst c. change (JSString.lower_ascii "%") with "%"%char in H1.
  destruct (ascii_dec "%" "%") as [_|E]; [|congruence].
  rewrite prefix_empty in H1. discriminate H1.
Qed.

(** X8. No GET request reaches the handler of ['/latest-timestamp']: the
    route ['/:id'] is registered before it and matches every path it
    matches.  Such a request, ['/latest-timestamp'] in any letter case,
    is answered by the handler of ['/:id'] with the path segment as the
    id; the segment has sixteen characters, [findById] cannot cast it to
    an ObjectId, and the answer is the error with status 500. *)
Theorem latest_timestamp_unreachable (decodeEscapes : string -> option string)
        (twelveBytes : bool) (idOfString : string -> ObjectId)
        (castMessage : string -> string) (jobs : list Job) (path : string) :
  (forall route id, jobsGet decodeEscapes path = ToHandler route id ->
                    route <> LatestTimestamp)
  /\ (forall seg,
        segmentOf path = Some seg -> layerMatches (Some "latest-timestamp") seg = true ->
        jobsGet decodeEscapes path = ToHandler JobById seg
        /\ routeJobById twelveBytes idOfString castMessage jobs seg
           = DetailsFailure
               (mkResponse 500 (JObject [("message", JString (castMessage seg))])))
  /\ jobsGet decodeEscapes "/latest-timestamp" = ToHandler JobById "latest-timestamp"
  /\ jobsGet decodeEscapes "/Latest-Timestamp/" = ToHandler JobById "Latest-Timestamp".
Proof.
  split; [|split; [|split; reflexivity]].
  - intros route id. unfold jobsGet.
    destruct (segmentOf path) as [seg|]; [|discriminate].
    unfold jobsGetLayers. cbn [find fst].
    repeat match goal with
           | |- context [layerMatches (Some ?w) seg] =>
               destruct (layerMatches (Some w) seg);
               [intros H; injection H as <- _; discriminate|]
           end.
    cbn [layerMatches]. destruct (decode_param decodeEscapes seg); [|discriminate].
    intros H. injection H as <- _. discriminate.
  - intros seg Hs Hm. cbn [layerMatches] in Hm. apply String.eqb_eq in Hm.
    change (JSString.toLowerCase "latest-timestamp") with "latest-timestamp" in Hm.
    assert (Hlen : String.length seg = 16%nat).
    { rewrite <- toLowerCase_length, Hm. reflexivity. }
    split.
    + unfold jobsGet. rewrite Hs. unfold jobsGetLayers. cbn [find fst layerMatches].
      rewrite Hm. cbn [String.eqb Ascii.eqb Bool.eqb JSString.toLowerCase
                       JSString.lower_ascii nat_of_ascii]. cbn.
      unfold decode_param.
      rewrite (includes_percent_lower seg) by (rewrite Hm; reflexivity).
      reflexivity.
    + unfold routeJobById, castObjectId. rewrite Hlen. cbn [Nat.eqb andb].
      rewrite andb_false_r. reflexivity.
Qed.

(** X9. The debug listing sends every pending job that has no worker to
    any worker who asks, as the stored document: with the job's exact
    [location], whatever the distance and the time. *)
Theorem debugAllJobs_discloses (jobs : list Job) (user : User) (j : Job) (loc : GeoPoint) :
  isWorker user -> In j jobs ->
  j_status j = "pending" -> j_worker j = None -> j_location j = Some loc ->
  statusCode (debugAllJobs jobs user) = 200
  /\ In (Job_toObject j) (dataOf (debugAllJobs jobs user))
  /\ Obj.get "_id" (Job_toObject j) = Some (JId (j_id j))
  /\ Obj.get "location" (Job_toObject j) = Some (GeoPoint_toObject loc).
Proof.
  unfold isWorker. intros Hu Hin Hs Hw Hl. unfold debugAllJobs. rewrite Hu.
  change (negb ("worker" =? "worker")%string) with false. cbv iota.
  split; [reflexivity|]. split; [|split].
  - unfold res_json.
    rewrite <- (map_map Job_toObject JObject).
    rewrite (dataOf_objects 200 _
               (map Job_toObject (sortByCreatedAtDesc (filter pendingUnassigned jobs))))
      by reflexivity.
    apply in_map. apply sortByCreatedAtDesc_In. apply filter_In. split; [exact Hin|].
    unfold pendingUnassigned. rewrite Hs, Hw. reflexivity.
  - apply get_id_toObject.
  - apply get_location_toObject. exact Hl.
Qed.

Lemma debugAllJobs_discloses_witness :
  In (Job_toObject Sample.bathroomLeak)
     (dataOf (debugAllJobs [Sample.bathroomLeak; Sample.acceptedLeak] Sample.deepak))
  /\ Obj.get "location" (Job_toObject Sample.bathroomLeak)
     = Some (GeoPoint_toObject Sample.delhi).
Proof.
  pose proof (debugAllJobs_discloses [Sample.bathroomLeak; Sample.acceptedLeak]
                Sample.deepak Sample.bathroomLeak Sample.delhi
                eq_refl (or_introl eq_refl) eq_refl eq_refl eq_refl) as H.
  split; [exact (proj1 (proj2 H))|exact (proj2 (proj2 (proj2 H)))].
Defined.

(* ================================================================= *)
(** * Nearby jobs: the listing *)

(** X10. For a worker whose registered location passes the route's
    check, the nearby-jobs route answers with at most twenty jobs,
    newest first, every one of them a stored job that is pending and has
    no worker; [count] is their number, [data] their approximate
    descriptions in that order; and when no more than twenty stored jobs
    satisfy the query, every one that does is listed. *)
Theorem nearbyJobs_listing (M : MathLib)
        (nearSphere : GeoPoint -> float -> option GeoPoint -> bool)
        (workers : list Worker) (jobs : list Job) (user : User) (w : Worker) (loc : GeoPoint) :
  isWorker user ->
  find (fun w => N.eqb (w_user w) (user_id user)) workers = Some w ->
  w_location w = Some loc -> locationRejected w = false ->
  exists nearby,
    nearbyJobs M nearSphere workers jobs user
    = res_json (JObject
        [("success", JBool true);
         ("count", JInt (Z.of_nat (List.length nearby)));
         ("data", JArray (map (fun j => JObject (approximateJob M (coordinates loc) j))
                              nearby))])
    /\ (List.length nearby <= 20)%nat
    /\ newestFirst nearby
    /\ (forall j, In j nearby ->
                  In j jobs /\ j_status j = "pending" /\ j_worker j = None
                  /\ matchesNearbyQuery nearSphere (nearbyQuery w loc) j = true)
    /\ ((List.length (filter (matchesNearbyQuery nearSphere (nearbyQuery w loc)) jobs)
         <= 20)%nat ->
        forall j, In j jobs ->
                  matchesNearbyQuery nearSphere (nearbyQuery w loc) j = true ->
                  In j nearby).
Proof.
  unfold isWorker. intros Hu Hf Hl Hr.
  exists (findNearbyJobs nearSphere (nearbyQuery w loc) jobs).
  split; [|split; [|split; [|split]]].
  - unfold nearbyJobs. rewrite Hu.
    change (negb ("worker" =? "worker")%string) with false. cbv iota.
    rewrite Hf, Hl, Hr. rewrite length_map, map_map. reflexivity.
  - unfold findNearbyJobs. rewrite length_firstn. apply Nat.le_min_l.
  - unfold findNearbyJobs. apply StronglySorted_firstn. apply sortByCreatedAtDesc_sorted.
  - intros j Hj. apply findNearbyJobs_In in Hj. destruct Hj as [Hin Hm].
    split; [exact Hin|]. split; [|split; [|exact Hm]].
    + unfold matchesNearbyQuery in Hm. cbn [nearbyQuery q_status] in Hm.
      apply andb_prop in Hm. destruct Hm as [Hm _].
      apply andb_prop in Hm. destruct Hm as [Hm _].
      apply andb_prop in Hm. destruct Hm as [Hm _].
      apply String.eqb_eq in Hm. exact Hm.
    + unfold matchesNearbyQuery in Hm.
      apply andb_prop in Hm. destruct Hm as [Hm _].
      apply andb_prop in Hm. destruct Hm as [Hm _].
      apply andb_prop in Hm. destruct Hm as [_ Hm].
      destruct (j_worker j); [discriminate|reflexivity].
  - intros Hlen j Hin Hm. unfold findNearbyJobs.
    rewrite firstn_all2 by (rewrite sortByCreatedAtDesc_length; exact Hlen).
    apply sortByCreatedAtDesc_In. apply filter_In. split; assumption.
Qed.

Lemma nearbyJobs_listing_witness :
  exists nearby,
    nearbyJobs Sample.smallAngleMath Sample.everywhere Sample.workers
               [Sample.bathroomLeak; Sample.electricalWiring; Sample.bakerStreet] Sample.raj
    = res_json (JObject
        [("success", JBool true);
         ("count", JInt (Z.of_nat (List.length nearby)));
         ("data", JArray (map (fun j => JObject (approximateJob Sample.smallAngleMath
                                                   (coordinates Sample.delhi) j))
                              nearby))])
    /\ (List.length nearby <= 20)%nat.
Proof.
  destruct (nearbyJobs_listing Sample.smallAngleMath Sample.everywhere Sample.workers
              [Sample.bathroomLeak; Sample.electricalWiring; Sample.bakerStreet]
              Sample.raj Sample.rajProfile Sample.delhi
              eq_refl eq_refl eq_refl eq_refl) as (nearby & H1 & H2 & _).
  exists nearby. split; [exact H1|exact H2].
Defined.

(* ================================================================= *)
(** * The disclosure gate: who is answered *)

(** X11. Whenever the answer of the job-location route carries an
    [exactLocation] or an [exactAddress], the caller is a worker, the job
    asked for is stored with the caller as its worker and is pending or in
    progress, and the current time has reached the job's reveal time. *)
Theorem jobLocation_only_assigned (numericLiteral : string -> float)
        (LocalTZA : Z -> bool -> Z) (now : Z) (jobs : list Job) (user : User)
        (jobId : option ObjectId) :
  Obj.get "exactLocation" (bodyProps (jobLocation numericLiteral LocalTZA now jobs user jobId)) <> None
  \/ Obj.get "exactAddress" (bodyProps (jobLocation numericLiteral LocalTZA now jobs user jobId)) <> None ->
  userType user = "worker"
  /\ exists job, In job jobs
                 /\ jobId = Some (j_id job)
                 /\ j_worker job = Some (user_id user)
                 /\ (j_status job = "in progress" \/ j_status job = "pending")
                 /\ JSDate.ge (Some now) (revealTimeOf numericLiteral LocalTZA job) = true.
Proof.
  unfold jobLocation.
  destruct (String.eqb (userType user) "worker") eqn:Eu; cbn [negb].
  2:{ cbn. intros [H|H]; exfalso; apply H; reflexivity. }
  apply String.eqb_eq in Eu.
  destruct jobId as [id|].
  2:{ cbn. intros [H|H]; exfalso; apply H; reflexivity. }
  destruct (find (assignedActiveJob id (user_id user)) jobs) as [job|] eqn:Ef.
  2:{ cbn. intros [H|H]; exfalso; apply H; reflexivity. }
  apply find_some in Ef. destruct Ef as [Hin Ha].
  unfold assignedActiveJob in Ha.
  apply andb_prop in Ha. destruct Ha as [Ha Hst].
  apply andb_prop in Ha. destruct Ha as [Hid Hw].
  apply N.eqb_eq in Hid.
  destruct (JSDate.ge (Some now) (revealTimeOf numericLiteral LocalTZA job)) eqn:Eg.
  2:{ cbn. intros [H|H]; exfalso; apply H; reflexivity. }
  intros _. split; [exact Eu|]. exists job.
  split; [exact Hin|]. split; [congruence|]. split; [|split; [|exact Eg]].
  - unfold sameWorker in Hw. destruct (j_worker job) as [x|]; [|discriminate].
    apply N.eqb_eq in Hw. congruence.
  - apply orb_prop in Hst. destruct Hst as [H|H]; apply String.eqb_eq in H; tauto.
Qed.

Lemma jobLocation_only_assigned_witness :
  userType Sample.raj = "worker"
  /\ exists job, In job [Sample.acceptedLeak]
                 /\ Some 101%N = Some (j_id job)
                 /\ j_worker job = Some (user_id Sample.raj)
                 /\ (j_status job = "in progress" \/ j_status job = "pending")
                 /\ JSDate.ge (Some 1699999999999%Z) (revealTimeOf Sample.noNumber Sample.utc job) = true.
Proof.
  apply (jobLocation_only_assigned Sample.noNumber Sample.utc 1699999999999 [Sample.acceptedLeak] Sample.raj
           (Some 101%N)).
  left. vm_compute. discriminate.
Defined.
(* ================================================================= *)
(** * The coordinate checks compared *)

Module ZeroFacts.

Import FloatFacts.
Local Open Scope float_scope.

Lemma is_zero_cases (x : float) : is_zero x = true -> x = zero \/ x = neg_zero.
Proof.
  unfold is_zero. rewrite eqb_spec. unfold SFeqb. intros H.
  destruct (Prim2SF x) as [s|s| |s m e] eqn:E; simpl in H.
  - apply (FloatSmall.zero_cases x s E).
  - destruct s; discriminate.
  - discriminate.
  - destruct s; discriminate.
Qed.

(** [parseFloat] of a number compares as the number does. *)
Lemma parseFloat_number (pfs : string -> float) (n : float) :
  is_nan (parseFloat pfs (JSNum n)) = is_nan n
  /\ is_zero (parseFloat pfs (JSNum n)) = is_zero n
  /\ (forall c, (parseFloat pfs (JSNum n) <? c) = (n <? c))
  /\ (forall c, (c <? parseFloat pfs (JSNum n)) = (c <? n))
  /\ (forall c, (parseFloat pfs (JSNum n) <=? c) = (n <=? c))
  /\ (forall c, (c <=? parseFloat pfs (JSNum n)) = (c <=? n)).
Proof.
  unfold parseFloat. destruct (is_zero n) eqn:E; [|repeat split; auto].
  apply is_zero_cases in E. destruct E as [->| ->]; [repeat split; reflexivity|].
  repeat split; try reflexivity; intros c;
    rewrite ?ltb_spec, ?leb_spec; unfold SFltb, SFleb;
    destruct (Prim2SF c) as [s|s| |s m e]; reflexivity.
Qed.

End ZeroFacts.

(** [validateCoordinates] on two numbers, in terms of the numbers. *)
Lemma validateCoordinates_numbers (parseFloatString : string -> float) (lat lng : float) :
  validateCoordinates parseFloatString (JSNum lat) (JSNum lng) <> None
  <-> (is_nan lat || is_nan lng
       || ((lat <? -90) || (90 <? lat) || (lng <? -180) || (180 <? lng))%float)%bool = false.
Proof.
  unfold validateCoordinates. cbv zeta.
  destruct (ZeroFacts.parseFloat_number parseFloatString lat) as (Hn1 & _ & Ha1 & Hb1 & _).
  destruct (ZeroFacts.parseFloat_number parseFloatString lng) as (Hn2 & _ & Ha2 & Hb2 & _).
  rewrite Hn1, Hn2, Ha1, Hb1, Ha2, Hb2.
  destruct (is_nan lat || is_nan lng)%bool; cbn [orb].
  - split; [intros H; exfalso; apply H; reflexivity|discriminate].
  - destruct ((lat <? -90) || (90 <? lat) || (lng <? -180) || (180 <? lng))%float%bool.
    + split; [intros H; exfalso; apply H; reflexivity|discriminate].
    + split; [reflexivity|discriminate].
Qed.

(** X12. [isValidCoordinates] accepts an array exactly when it is a pair
    [[lng, lat]] that [validateCoordinates] accepts (given the latitude
    first) and that is not the origin. *)
Theorem isValidCoordinates_iff (parseFloatString : string -> float) (coords : list float) :
  isValidCoordinates coords = true <->
  exists lng lat,
    coords = [lng; lat]
    /\ validateCoordinates parseFloatString (JSNum lat) (JSNum lng) <> None
    /\ isOrigin lat lng = false.
Proof.
  destruct coords as [|lng [|lat [|x r]]];
    try (split; [discriminate|intros (a & b & E & _); discriminate]).
  assert (H : isValidCoordinates [lng; lat] = true <->
              validateCoordinates parseFloatString (JSNum lat) (JSNum lng) <> None
              /\ isOrigin lat lng = false).
  { rewrite validateCoordinates_numbers. unfold isValidCoordinates, isOrigin.
    destruct (is_nan lng), (is_nan lat), (lng <? -180)%float, (180 <? lng)%float,
      (lat <? -90)%float, (90 <? lat)%float,
      (JSNumber.strict_eq lng 0 && JSNumber.strict_eq lat 0);
      simpl; split; try discriminate; try tauto; intros [H1 H2]; discriminate. }
  rewrite H. split.
  - intros Hv. exists lng, lat. split; [reflexivity|exact Hv].
  - intros (a & b & E & Hv). injection E as <- <-. exact Hv.
Qed.

(** X13. The job route of routes/jobs.js parses the coordinates itself,
    refuses a falsy one, and leaves the range to the validator of the
    schema.  Together the two let a location through exactly when
    [validateCoordinates] accepts it and neither coordinate is zero: the
    route stores no job on the equator or on the prime meridian. *)
Theorem routeCreate_location_iff (parseFloatString : string -> float)
        (latitude longitude : JSValue) (loc : GeoPoint) :
  (routeCreate_location parseFloatString latitude longitude = inr loc
   /\ jobCoordinatesValidator (coordinates loc) = true)
  <-> (validateCoordinates parseFloatString latitude longitude = Some loc
       /\ is_zero (parseFloat parseFloatString latitude) = false
       /\ is_zero (parseFloat parseFloatString longitude) = false).
Proof.
  unfold routeCreate_location, validateCoordinates, jobCoordinatesValidator,
    JSNumber.falsy. cbv zeta.
  set (lat := parseFloat parseFloatString latitude).
  set (lng := parseFloat parseFloatString longitude).
  cbn [coordinates elem nth List.length Nat.eqb andb].
  destruct (is_nan lat) eqn:Hlat.
  { rewrite !orb_true_r. cbn [orb]. split; [intros [H _]|intros [H _]]; discriminate. }
  destruct (is_nan lng) eqn:Hlng.
  { rewrite !orb_true_r. cbn [orb]. split; [intros [H _]|intros [H _]]; discriminate. }
  rewrite (FloatFacts.ltb_negb_leb lat (-90) Hlat eq_refl),
    (FloatFacts.ltb_negb_leb 90 lat eq_refl Hlat),
    (FloatFacts.ltb_negb_leb lng (-180) Hlng eq_refl),
    (FloatFacts.ltb_negb_leb 180 lng eq_refl Hlng).
  rewrite !orb_false_r. cbn [orb].
  destruct (is_zero lng), (is_zero lat); cbn [orb];
    try (split; [intros [H _]; discriminate|intros (_ & H1 & H2); discriminate]).
  split.
  - intros [H Hv]. injection H as <-. cbn [coordinates elem nth] in Hv.
    destruct (-180 <=? lng)%float, (lng <=? 180)%float,
      (-90 <=? lat)%float, (lat <=? 90)%float; try discriminate.
    repeat split; reflexivity.
  - intros (H & _ & _).
    destruct (-180 <=? lng)%float eqn:E1, (lng <=? 180)%float eqn:E2,
      (-90 <=? lat)%float eqn:E3, (lat <=? 90)%float eqn:E4; try discriminate.
    cbn in H. injection H as <-. cbn [coordinates elem nth].
    rewrite E1, E2, E3, E4. split; reflexivity.
Qed.
(* ================================================================= *)
(** * The approximate address *)

(** X14. On every address that is not empty the helper
    [getApproximateAddress] gives what the nearby-jobs route computes
    inline: the text after the first comma, trimmed, or the whole address
    when it has no comma.  They part on an empty address, which the helper
    calls 'Unknown' and the route passes on as it is. *)
Theorem getApproximateAddress_agrees (M : MathLib) (workerCoords : list float) (job : Job) :
  (forall address,
      j_address job = Some address -> address <> "" ->
      getApproximateAddress (Some address) = approximateLocationOf address
      /\ Obj.get "approximateLocation" (approximateJob M workerCoords job)
         = Some (JString (getApproximateAddress (Some address))))
  /\ (j_address job = Some "" ->
      getApproximateAddress (j_address job) = "Unknown"
      /\ Obj.get "approximateLocation" (approximateJob M workerCoords job)
         = Some (JString ""))
  /\ getApproximateAddress None = "Unknown".
Proof.
  split; [|split; [|reflexivity]].
  - intros address Ha Hne. destruct address as [|c r]; [congruence|].
    set (a := String c r) in *.
    assert (Hg : getApproximateAddress (Some a) = approximateLocationOf a).
    { unfold getApproximateAddress, a. fold a.
      rewrite SplitFacts.split_length, SplitFacts.join_slice1_split.
      reflexivity. }
    split; [exact Hg|]. rewrite Hg.
    unfold approximateJob. rewrite Ha. unfold a at 1. fold a.
    rewrite ObjFacts.get_delete_other by discriminate.
    assert (Hs : forall o,
               Obj.get "approximateLocation"
                 (Obj.set "approximateLocation"
                    (if (1 <? List.length (JSString.split "," a))%nat
                     then JString (JSString.trim
                                     (JSString.join "," (JSString.slice1 (JSString.split "," a))))
                     else opt_json JString (Some a)) o)
               = Some (JString (approximateLocationOf a))).
    { intros o. rewrite ObjFacts.get_set_same.
      rewrite SplitFacts.split_length, SplitFacts.join_slice1_split.
      unfold approximateLocationOf. destruct (contains "," a); reflexivity. }
    destruct (j_location job).
    + rewrite ObjFacts.get_set_other by discriminate. apply Hs.
    + apply Hs.
  - intros Ha. rewrite Ha. split; [reflexivity|].
    unfold approximateJob. rewrite Ha.
    rewrite ObjFacts.get_delete_other by discriminate.
    destruct (j_location job).
    + rewrite ObjFacts.get_set_other by discriminate. apply ObjFacts.get_set_same.
    + apply ObjFacts.get_set_same.
Qed.

(* ================================================================= *)
(** * Updating the registered location *)

Lemma findOneAndSetLocation_found (u : ObjectId) (loc : GeoPoint) (ws ws' : list Worker)
      (w' : Worker) :
  findOneAndSetLocation u loc ws = (Some w', ws') ->
  exists before w after,
    ws = (before ++ w :: after)%list
    /\ w_user w = u
    /\ (forall x, In x before -> w_user x <> u)
    /\ w' = setLocation loc w
    /\ ws' = (before ++ setLocation loc w :: after)%list.
Proof.
  revert ws' w'. induction ws as [|x r IH]; intros ws' w' H; simpl in H; [discriminate|].
  destruct (N.eqb_spec (w_user x) u) as [E|E].
  - injection H as <- <-. exists [], x, r. repeat split; try assumption.
    intros y [].
  - destruct (findOneAndSetLocation u loc r) as [found r'] eqn:Er.
    injection H as -> <-.
    destruct (IH r' w' eq_refl) as (before & w & after & H1 & H2 & H3 & H4 & H5).
    exists (x :: before), w, after. subst r r'. repeat split; try assumption.
    intros y [<-|Hy]; [exact E|apply H3; exact Hy].
Qed.

Lemma findOneAndSetLocation_none (u : ObjectId) (loc : GeoPoint) (ws ws' : list Worker) :
  findOneAndSetLocation u loc ws = (None, ws') ->
  ws' = ws /\ find (fun w => N.eqb (w_user w) u) ws = None.
Proof.
  revert ws'. induction ws as [|x r IH]; intros ws' H; simpl in H.
  - injection H as <-. split; reflexivity.
  - simpl. destruct (N.eqb (w_user x) u); [discriminate|].
    destruct (findOneAndSetLocation u loc r) as [found r'] eqn:Er.
    injection H as -> <-. destruct (IH r' eq_refl) as [-> Hf]. split; [reflexivity|exact Hf].
Qed.

Lemma validateCoordinates_some (pfs : string -> float) (latitude longitude : JSValue)
      (loc : GeoPoint) :
  validateCoordinates pfs latitude longitude = Some loc ->
  loc = mkGeoPoint "Point" [parseFloat pfs longitude; parseFloat pfs latitude].
Proof.
  unfold validateCoordinates. cbv zeta.
  destruct (is_nan (parseFloat pfs latitude) || is_nan (parseFloat pfs longitude))%bool;
    [discriminate|].
  match goal with |- (if ?b then _ else _) = _ -> _ => destruct b end; [discriminate|].
  intros H. injection H as <-. reflexivity.
Qed.

(** X15. A location update that is answered with status 200 changes one
    document of the collection, the first profile of the caller, and in
    it the location only, which becomes the validated point; the answer
    gives the latitude and the longitude back as they were parsed.  Every
    other answer leaves the collection as it was. *)
Theorem updateLocation_changes_one (parseFloatString : string -> float)
        (workers : list Worker) (user : User) (latitude longitude : JSValue) :
  (statusCode (fst (updateLocation parseFloatString workers user latitude longitude)) = 200 ->
   exists loc before w after,
     validateCoordinates parseFloatString latitude longitude = Some loc
     /\ workers = (before ++ w :: after)%list
     /\ w_user w = user_id user
     /\ (forall x, In x before -> w_user x <> user_id user)
     /\ snd (updateLocation parseFloatString workers user latitude longitude)
        = (before ++ setLocation loc w :: after)%list
     /\ Obj.get "data"
          (bodyProps (fst (updateLocation parseFloatString workers user latitude longitude)))
        = Some (JObject
                  [("location", GeoPoint_toObject loc);
                   ("coordinates", JObject
                      [("latitude", JNumber (parseFloat parseFloatString latitude));
                       ("longitude", JNumber (parseFloat parseFloatString longitude))])]))
  /\ (statusCode (fst (updateLocation parseFloatString workers user latitude longitude)) <> 200 ->
      snd (updateLocation parseFloatString workers user latitude longitude) = workers).
Proof.
  unfold updateLocation.
  destruct (negb (String.eqb (userType user) "worker")).
  { cbn. split; [discriminate|reflexivity]. }
  destruct (validateCoordinates parseFloatString latitude longitude) as [loc|] eqn:Ev.
  2:{ cbn. split; [discriminate|reflexivity]. }
  destruct (findOneAndSetLocation (user_id user) loc workers) as [[w'|] ws'] eqn:Ef.
  2:{ cbn. split; [discriminate|reflexivity]. }
  cbn [fst snd statusCode res_json]. split; [|intros H; exfalso; apply H; reflexivity].
  intros _.
  destruct (findOneAndSetLocation_found _ _ _ _ _ Ef)
    as (before & w & after & H1 & H2 & H3 & H4 & H5).
  exists loc, before, w, after. repeat split; try assumption.
  subst w'. pose proof (validateCoordinates_some _ _ _ _ Ev) as ->. reflexivity.
Qed.

Lemma updateLocation_changes_one_witness :
  exists loc before w after,
    validateCoordinates Sample.noNumber (JSNum 28.65) (JSNum 77.23) = Some loc
    /\ Sample.workers = (before ++ w :: after)%list
    /\ w_user w = user_id Sample.deepak
    /\ (forall x, In x before -> w_user x <> user_id Sample.deepak)
    /\ snd (updateLocation Sample.noNumber Sample.workers Sample.deepak
              (JSNum 28.65) (JSNum 77.23))
       = (before ++ setLocation loc w :: after)%list
    /\ Obj.get "data"
         (bodyProps (fst (updateLocation Sample.noNumber Sample.workers Sample.deepak
                            (JSNum 28.65) (JSNum 77.23))))
       = Some (JObject
                 [("location", GeoPoint_toObject loc);
                  ("coordinates", JObject
                     [("latitude", JNumber (parseFloat Sample.noNumber (JSNum 28.65)));
                      ("longitude", JNumber (parseFloat Sample.noNumber (JSNum 77.23)))])]).
Proof.
  apply (proj1 (updateLocation_changes_one Sample.noNumber Sample.workers Sample.deepak
                  (JSNum 28.65) (JSNum 77.23))).
  reflexivity.
Defined.
(* ================================================================= *)
(** * Writes to the jobs collection *)

Lemma findJobById_In (jobs : list Job) (id : ObjectId) (j : Job) :
  findJobById jobs id = Some j -> In j jobs.
Proof. unfold findJobById. intros H. apply find_some in H. tauto. Qed.

Lemma findJobById_app (jobs : list Job) (x : Job) (id : ObjectId) (j : Job) :
  findJobById jobs id = Some j -> findJobById (jobs ++ [x]) id = Some j.
Proof.
  unfold findJobById. induction jobs as [|y r IH]; simpl; [discriminate|].
  destruct (N.eqb (j_id y) id); [tauto|exact IH].
Qed.

Lemma findJobById_saveJob_other (jobs : list Job) (j' : Job) (id : ObjectId) :
  j_id j' <> id -> findJobById (saveJob j' jobs) id = findJobById jobs id.
Proof.
  intros Hne. unfold findJobById, saveJob. induction jobs as [|y r IH]; simpl; [reflexivity|].
  destruct (N.eqb_spec (j_id y) (j_id j')) as [E|E].
  - destruct (N.eqb_spec (j_id j') id) as [E'|E']; [contradiction|].
    destruct (N.eqb_spec (j_id y) id) as [E''|E'']; [congruence|]. exact IH.
  - destruct (N.eqb (j_id y) id); [reflexivity|exact IH].
Qed.

(** Saving a changed copy of a stored job that keeps its poster and,
    when it has one, its worker. *)
Lemma saveJob_assignedTo (jobs : list Job) (j0 j' : Job) (id poster worker : ObjectId) :
  findJobById jobs (j_id j') = Some j0 ->
  j_user j' = j_user j0 ->
  (forall w, j_worker j0 = Some w -> j_worker j' = Some w) ->
  assignedTo id poster worker jobs -> assignedTo id poster worker (saveJob j' jobs).
Proof.
  intros Hf Hu Hw (job & Hj & Hp & Ha).
  destruct (N.eq_dec (j_id j') id) as [E|E].
  - subst id. rewrite Hf in Hj. injection Hj as ->.
    exists j'. split; [apply (findJobById_saveJob jobs job j' Hf)|].
    split; [congruence|apply Hw; exact Ha].
  - exists job. rewrite (findJobById_saveJob_other jobs j' id E). tauto.
Qed.

Lemma Forall_saveJob (P : Job -> Prop) (jobs : list Job) (j' : Job) :
  Forall P jobs -> P j' -> Forall P (saveJob j' jobs).
Proof.
  intros H Hj. unfold saveJob. rewrite Forall_forall in *. intros x Hx.
  apply in_map_iff in Hx. destruct Hx as (y & <- & Hy).
  destruct (N.eqb (j_id y) (j_id j')); [exact Hj|apply H; exact Hy].
Qed.

(** The validators look at the status of a document, and at paths that
    accepting, completing or reviewing a job does not change. *)
Lemma jobValid_status (j j' : Job) :
  j_title j' = j_title j -> j_description j' = j_description j ->
  j_category j' = j_category j -> j_location j' = j_location j ->
  j_address j' = j_address j -> j_budget j' = j_budget j ->
  j_deadline j' = j_deadline j -> j_timeStart j' = j_timeStart j ->
  j_timeEnd j' = j_timeEnd j -> j_radius j' = j_radius j ->
  existsb (String.eqb (j_status j')) jobStatusEnum = true ->
  jobValid j = true -> jobValid j' = true.
Proof.
  intros E1 E2 E3 E4 E5 E6 E7 E8 E9 E10 Hs H. unfold jobValid in *.
  rewrite E1, E2, E3, E4, E5, E6, E7, E8, E9, E10, Hs.
  repeat (apply andb_prop in H; destruct H as [H ?]).
  repeat (apply andb_true_intro; split); try assumption; reflexivity.
Qed.

Lemma jobValid_category (j : Job) :
  jobValid j = true ->
  exists c, j_category j = Some c /\ In c jobCategoryEnum.
Proof.
  unfold jobValid. intros H.
  repeat (apply andb_prop in H; destruct H as [H ?]).
  destruct (j_category j) as [c|]; [|discriminate]. exists c. split; [reflexivity|].
  match goal with
  | Hc : existsb (String.eqb c) jobCategoryEnum = true |- _ =>
      apply existsb_exists in Hc; destruct Hc as (y & Hy & E);
      apply String.eqb_eq in E; subst; exact Hy
  end.
Qed.

Lemma posterOrWorker_authorized (job : Job) (user : User) :
  posterOrWorker job user <-> notAuthorized job user = false.
Proof.
  unfold posterOrWorker, notAuthorized. split.
  - intros [H|H].
    + rewrite H, N.eqb_refl. reflexivity.
    + rewrite H, N.eqb_refl. apply andb_false_r.
  - intros H. apply andb_false_elim in H. destruct H as [H|H].
    + left. apply negb_false_iff, N.eqb_eq in H. exact H.
    + right. destruct (j_worker job) as [w|]; [|discriminate].
      apply negb_false_iff, N.eqb_eq in H. congruence.
Qed.

Section JobWriteFacts.

Variable parseFloatString : string -> float.
Variable parseDate : string -> JSDate.Date.
Variable validationMessage : Job -> string.

(** X16. The completed-jobs counter of the assigned worker is
    incremented by every status update to 'completed' that the poster or
    the worker sends, also when the job is completed already: two such
    updates count the job twice.  The controller and the route behave
    alike. *)
Theorem completed_twice_counts_twice (now later : Z) (jobs : list Job) (user : User)
        (id : ObjectId) (job : Job) (worker : ObjectId) :
  findJobById jobs id = Some job -> jobValid job = true ->
  posterOrWorker job user -> j_worker job = Some worker ->
  (statusCode (sr_response (updateJobStatus validationMessage now jobs user id "completed"))
   = 200
   /\ sr_userInc (updateJobStatus validationMessage now jobs user id "completed")
      = Some worker
   /\ findJobById (sr_jobs (updateJobStatus validationMessage now jobs user id "completed")) id
      = Some (setCompletedAt now (setStatus "completed" job))
   /\ sr_userInc (updateJobStatus validationMessage later
                    (sr_jobs (updateJobStatus validationMessage now jobs user id "completed"))
                    user id "completed")
      = Some worker)
  /\ (sr_userInc (routeStatus validationMessage now jobs user id "completed") = Some worker
      /\ sr_userInc (routeStatus validationMessage later
                       (sr_jobs (routeStatus validationMessage now jobs user id "completed"))
                       user id "completed")
         = Some worker).
Proof.
  intros Hf Hv Hp Hw.
  set (done := setCompletedAt now (setStatus "completed" job)).
  assert (Hv1 : jobValid done = true).
  { apply (jobValid_status job done); try reflexivity. exact Hv. }
  assert (Hid : j_id done = id).
  { change (j_id done) with (j_id job). apply (findJobById_id jobs). exact Hf. }
  assert (Hf1 : findJobById (saveJob done jobs) id = Some done).
  { rewrite <- Hid. apply (findJobById_saveJob jobs job done). rewrite Hid. exact Hf. }
  assert (Ha : notAuthorized job user = false) by (apply posterOrWorker_authorized; exact Hp).
  assert (Ha1 : notAuthorized done user = false) by exact Ha.
  assert (Hv2 : jobValid (setCompletedAt later (setStatus "completed" done)) = true).
  { apply (jobValid_status job); try reflexivity. exact Hv. }
  assert (E1 : updateJobStatus validationMessage now jobs user id "completed"
               = mkStatusResult
                   (mkResponse 200 (JObject [("success", JBool true);
                                             ("data", JObject (Job_toObject done))]))
                   (saveJob done jobs) (Some worker)).
  { unfold updateJobStatus. rewrite Hf, Ha. cbn [String.eqb Ascii.eqb Bool.eqb].
    cbv zeta. fold done. rewrite Hv1. change (j_worker done) with (j_worker job).
    rewrite Hw. reflexivity. }
  assert (E2 : routeStatus validationMessage now jobs user id "completed"
               = mkStatusResult (res_json (JObject (Job_toObject done)))
                                (saveJob done jobs) (Some worker)).
  { unfold routeStatus. rewrite Hf, Ha. cbn [String.eqb Ascii.eqb Bool.eqb].
    cbv zeta. fold done. rewrite Hv1. change (j_worker done) with (j_worker job).
    rewrite Hw. reflexivity. }
  rewrite E1, E2. cbn [sr_response sr_jobs sr_userInc statusCode].
  split; [split; [reflexivity|split; [reflexivity|split; [exact Hf1|]]]|split; [reflexivity|]].
  - unfold updateJobStatus. rewrite Hf1, Ha1. cbn [String.eqb Ascii.eqb Bool.eqb].
    cbv zeta. rewrite Hv2. cbn [sr_userInc]. exact Hw.
  - unfold routeStatus. rewrite Hf1, Ha1. cbn [String.eqb Ascii.eqb Bool.eqb].
    cbv zeta. rewrite Hv2. cbn [sr_userInc]. exact Hw.
Qed.

(** One request keeps an assignment. *)
Lemma JobsStep_assignedTo (jobs jobs' : list Job) (id poster worker : ObjectId) :
  JobsStep parseFloatString parseDate validationMessage jobs jobs' ->
  assignedTo id poster worker jobs -> assignedTo id poster worker jobs'.
Proof.
  intros Hstep Ha.
  assert (Happ : forall x, assignedTo id poster worker (jobs ++ [x])).
  { intros x. destruct Ha as (job & Hj & Hp & Hw). exists job.
    split; [apply findJobById_app; exact Hj|tauto]. }
  inversion Hstep; subst; clear Hstep.
  - unfold createJob.
    destruct (negb (String.eqb (userType user) "client")); [exact Ha|].
    destruct (createJob_location parseFloatString (b_latitude b) (b_longitude b));
      [exact Ha|].
    match goal with |- context [jobValid ?j] => destruct (jobValid j) end;
      [apply Happ|exact Ha].
  - unfold routeCreate.
    destruct (negb (String.eqb (userType user) "client")); [exact Ha|].
    destruct (routeCreate_location parseFloatString (b_latitude b) (b_longitude b));
      [exact Ha|].
    match goal with |- context [jobValid ?j] => destruct (jobValid j) end;
      [apply Happ|exact Ha].
  - unfold acceptJob.
    destruct (negb (String.eqb (userType user) "worker")); [exact Ha|].
    destruct (findJobById jobs id0) as [job|] eqn:Ef; [|exact Ha].
    destruct (noLongerAvailable job) eqn:En; [exact Ha|]. cbn [snd].
    apply (saveJob_assignedTo jobs job); try reflexivity; try assumption.
    + change (j_id (assignJob (user_id user) job)) with (j_id job).
      rewrite (findJobById_id _ _ _ Ef). exact Ef.
    + intros w Hw. unfold noLongerAvailable in En. rewrite Hw in En.
      rewrite orb_true_r in En. discriminate.
  - unfold routeAccept.
    destruct (negb (String.eqb (userType user) "worker")); [exact Ha|].
    destruct (findJobById jobs id0) as [job|] eqn:Ef; [|exact Ha].
    destruct (noLongerAvailable job) eqn:En; [exact Ha|]. cbn [snd].
    apply (saveJob_assignedTo jobs job); try reflexivity; try assumption.
    + change (j_id (assignJob (user_id user) job)) with (j_id job).
      rewrite (findJobById_id _ _ _ Ef). exact Ef.
    + intros w Hw. unfold noLongerAvailable in En. rewrite Hw in En.
      rewrite orb_true_r in En. discriminate.
  - unfold updateJobStatus.
    destruct (findJobById jobs id0) as [job|] eqn:Ef; [|exact Ha].
    destruct (notAuthorized job user); [exact Ha|]. cbv zeta.
    match goal with |- context [jobValid ?j] => destruct (jobValid j) end; [|exact Ha].
    cbn [sr_jobs].
    apply (saveJob_assignedTo jobs job); try assumption.
    + destruct (String.eqb status "completed"); cbn [j_id setCompletedAt setStatus];
        rewrite (findJobById_id _ _ _ Ef); exact Ef.
    + destruct (String.eqb status "completed"); reflexivity.
    + intros w Hw. destruct (String.eqb status "completed"); exact Hw.
  - unfold routeStatus.
    destruct (findJobById jobs id0) as [job|] eqn:Ef; [|exact Ha].
    destruct (notAuthorized job user); [exact Ha|]. cbv zeta.
    match goal with |- context [jobValid ?j] => destruct (jobValid j) end; [|exact Ha].
    cbn [sr_jobs].
    apply (saveJob_assignedTo jobs job); try assumption.
    + destruct (String.eqb status "completed"); cbn [j_id setCompletedAt setStatus];
        rewrite (findJobById_id _ _ _ Ef); exact Ef.
    + destruct (String.eqb status "completed"); reflexivity.
    + intros w Hw. destruct (String.eqb status "completed"); exact Hw.
  - unfold addReview.
    destruct (findJobById jobs id0) as [job|] eqn:Ef; [|exact Ha]. cbv zeta.
    cbn [jd_doc loadJob setOwn].
    destruct (negb (N.eqb (j_user job) (user_id user))); [exact Ha|].
    destruct (negb (String.eqb (j_status job) "completed")); [exact Ha|].
    cbn [rr_jobs].
    apply (saveJob_assignedTo jobs job); try assumption; try reflexivity; [|tauto].
    rewrite (findJobById_id _ _ _ Ef). exact Ef.
  - unfold routeReview.
    destruct (findJobById jobs id0) as [job|] eqn:Ef; [|exact Ha]. cbv zeta.
    cbn [jd_doc loadJob setOwn].
    destruct (negb (N.eqb (j_user job) (user_id user))); [exact Ha|].
    destruct (negb (String.eqb (j_status job) "completed")); [exact Ha|].
    cbn [rr_jobs].
    apply (saveJob_assignedTo jobs job); try assumption; try reflexivity; [|tauto].
    rewrite (findJobById_id _ _ _ Ef). exact Ef.
Qed.

(** X17. Once a job has a worker, no sequence of the requests that
    write to the jobs collection (creating, accepting, updating the
    status, reviewing, through the controller or the routes) changes its
    worker or its poster; and whoever then asks to accept it, it is not
    accepted and the collection stays as it is. *)
Theorem assignment_is_permanent (jobs jobs' : list Job) (id poster worker : ObjectId) :
  JobsSteps parseFloatString parseDate validationMessage jobs jobs' ->
  assignedTo id poster worker jobs ->
  assignedTo id poster worker jobs'
  /\ (forall user,
        statusCode (fst (acceptJob jobs' user id)) <> 200
        /\ snd (acceptJob jobs' user id) = jobs'
        /\ statusCode (fst (routeAccept jobs' user id)) <> 200
        /\ snd (routeAccept jobs' user id) = jobs').
Proof.
  intros Hsteps Ha.
  assert (Ha' : assignedTo id poster worker jobs').
  { induction Hsteps as [|jobs0 jobs1 jobs2 _ IH Hstep]; [exact Ha|].
    apply (JobsStep_assignedTo jobs1 jobs2); [exact Hstep|apply IH; exact Ha]. }
  split; [exact Ha'|]. intros user.
  destruct Ha' as (job & Hj & _ & Hw).
  assert (Hn : noLongerAvailable job = true).
  { unfold noLongerAvailable. rewrite Hw. apply orb_true_r. }
  unfold acceptJob, routeAccept.
  destruct (negb (String.eqb (userType user) "worker")).
  - cbn. repeat split; discriminate.
  - rewrite Hj, Hn. cbn. repeat split; discriminate.
Qed.

(** One request keeps the stored jobs valid. *)
Lemma JobsStep_allValid (jobs jobs' : list Job) :
  JobsStep parseFloatString parseDate validationMessage jobs jobs' ->
  allValid jobs -> allValid jobs'.
Proof.
  unfold allValid. intros Hstep Hv.
  assert (Hfound : forall id job, findJobById jobs id = Some job -> jobValid job = true).
  { intros id job Hf. apply findJobById_In in Hf. rewrite Forall_forall in Hv.
    apply Hv. exact Hf. }
  inversion Hstep; subst; clear Hstep.
  - unfold createJob.
    destruct (negb (String.eqb (userType user) "client")); [exact Hv|].
    destruct (createJob_location parseFloatString (b_latitude b) (b_longitude b));
      [exact Hv|].
    match goal with |- context [jobValid ?j] => destruct (jobValid j) eqn:E end;
      [|exact Hv].
    cbn [cr_jobs]. apply Forall_app. split; [exact Hv|]. constructor; [exact E|constructor].
  - unfold routeCreate.
    destruct (negb (String.eqb (userType user) "client")); [exact Hv|].
    destruct (routeCreate_location parseFloatString (b_latitude b) (b_longitude b));
      [exact Hv|].
    match goal with |- context [jobValid ?j] => destruct (jobValid j) eqn:E end;
      [|exact Hv].
    cbn [cr_jobs]. apply Forall_app. split; [exact Hv|]. constructor; [exact E|constructor].
  - unfold acceptJob.
    destruct (negb (String.eqb (userType user) "worker")); [exact Hv|].
    destruct (findJobById jobs id) as [job|] eqn:Ef; [|exact Hv].
    destruct (noLongerAvailable job); [exact Hv|]. cbn [snd].
    apply Forall_saveJob; [exact Hv|].
    apply (jobValid_status job); try reflexivity. apply (Hfound id). exact Ef.
  - unfold routeAccept.
    destruct (negb (String.eqb (userType user) "worker")); [exact Hv|].
    destruct (findJobById jobs id) as [job|] eqn:Ef; [|exact Hv].
    destruct (noLongerAvailable job); [exact Hv|]. cbn [snd].
    apply Forall_saveJob; [exact Hv|].
    apply (jobValid_status job); try reflexivity. apply (Hfound id). exact Ef.
  - unfold updateJobStatus.
    destruct (findJobById jobs id) as [job|] eqn:Ef; [|exact Hv].
    destruct (notAuthorized job user); [exact Hv|]. cbv zeta.
    match goal with |- context [jobValid ?j] => destruct (jobValid j) eqn:E end;
      [|exact Hv].
    cbn [sr_jobs]. apply Forall_saveJob; [exact Hv|exact E].
  - unfold routeStatus.
    destruct (findJobById jobs id) as [job|] eqn:Ef; [|exact Hv].
    destruct (notAuthorized job user); [exact Hv|]. cbv zeta.
    match goal with |- context [jobValid ?j] => destruct (jobValid j) eqn:E end;
      [|exact Hv].
    cbn [sr_jobs]. apply Forall_saveJob; [exact Hv|exact E].
  - unfold addReview.
    destruct (findJobById jobs id) as [job|] eqn:Ef; [|exact Hv]. cbv zeta.
    cbn [jd_doc loadJob setOwn].
    destruct (negb (N.eqb (j_user job) (user_id user))); [exact Hv|].
    destruct (negb (String.eqb (j_status job) "completed")); [exact Hv|].
    cbn [rr_jobs]. apply Forall_saveJob; [exact Hv|apply (Hfound id); exact Ef].
  - unfold routeReview.
    destruct (findJobById jobs id) as [job|] eqn:Ef; [|exact Hv]. cbv zeta.
    cbn [jd_doc loadJob setOwn].
    destruct (negb (N.eqb (j_user job) (user_id user))); [exact Hv|].
    destruct (negb (String.eqb (j_status job) "completed")); [exact Hv|].
    cbn [rr_jobs]. apply Forall_saveJob; [exact Hv|apply (Hfound id); exact Ef].
Qed.


End JobWriteFacts.
Lemma completed_twice_counts_twice_witness :
  sr_userInc (updateJobStatus Scenario.noMessage 1700000000000
                [Sample.gardenMaintenance] Sample.priya 106%N "completed")
  = Some (user_id Sample.sunita)
  /\ sr_userInc (updateJobStatus Scenario.noMessage 1700000001000
                   (sr_jobs (updateJobStatus Scenario.noMessage 1700000000000
                               [Sample.gardenMaintenance] Sample.priya 106%N "completed"))
                   Sample.priya 106%N "completed")
     = Some (user_id Sample.sunita).
Proof.
  pose proof (completed_twice_counts_twice Scenario.noMessage 1700000000000 1700000001000
                [Sample.gardenMaintenance] Sample.priya 106%N Sample.gardenMaintenance
                (user_id Sample.sunita) eq_refl eq_refl (or_introl eq_refl) eq_refl) as H.
  destruct H as [(_ & H1 & _ & H2) _]. split; [exact H1|exact H2].
Defined.

Lemma assignment_is_permanent_witness :
  assignedTo 101%N (user_id Sample.amit) (user_id Sample.raj)
    (sr_jobs (updateJobStatus Scenario.noMessage 1700000000000 [Sample.acceptedLeak]
                Sample.raj 101%N "pending"))
  /\ (forall user,
        statusCode (fst (acceptJob
                           (sr_jobs (updateJobStatus Scenario.noMessage 1700000000000
                                       [Sample.acceptedLeak] Sample.raj 101%N "pending"))
                           user 101%N)) <> 200
        /\ snd (acceptJob
                  (sr_jobs (updateJobStatus Scenario.noMessage 1700000000000
                              [Sample.acceptedLeak] Sample.raj 101%N "pending"))
                  user 101%N)
           = sr_jobs (updateJobStatus Scenario.noMessage 1700000000000
                        [Sample.acceptedLeak] Sample.raj 101%N "pending")
        /\ statusCode (fst (routeAccept
                              (sr_jobs (updateJobStatus Scenario.noMessage 1700000000000
                                          [Sample.acceptedLeak] Sample.raj 101%N "pending"))
                              user 101%N)) <> 200
        /\ snd (routeAccept
                  (sr_jobs (updateJobStatus Scenario.noMessage 1700000000000
                              [Sample.acceptedLeak] Sample.raj 101%N "pending"))
                  user 101%N)
           = sr_jobs (updateJobStatus Scenario.noMessage 1700000000000
                        [Sample.acceptedLeak] Sample.raj 101%N "pending")).
Proof.
  apply (assignment_is_permanent Sample.noNumber Scenario.oneDate Scenario.noMessage
           [Sample.acceptedLeak]).
  - eapply steps_more; [apply steps_none|apply step_updateJobStatus].
  - exists Sample.acceptedLeak. repeat split; reflexivity.
Defined.


(* ================================================================= *)
(** * Creating a job *)

Section CreateJobFacts.

Variable parseFloatString : string -> float.
Variable parseDate : string -> JSDate.Date.
Variable validationMessage : Job -> string.

(** X19. When [createJob] answers 201 it has stored one new job, built
    from the request with the validated point as its location, pending
    and without a worker, and the dispatch has run on it: every worker
    profile whose skills or categories match the job's category and that
    passes the validators of the worker schema has one more
    notification, unread and of type [new_job], that refers to the new
    job; a matching profile that does not pass the validators is as it
    was, and so is every profile that does not match.  With any other
    answer both collections are as they were.  (The worker profiles have
    distinct ids.) *)
Theorem createJob_notifies (newId : ObjectId) (createdAt notifiedAt : Z)
        (jobs : list Job) (workers : list Worker) (user : User) (b : JobBody)
        (files : option (list string)) :
  NoDup (map w_id workers) ->
  (statusCode (cr_response (createJob parseFloatString parseDate validationMessage
                              newId createdAt notifiedAt jobs workers user b files)) = 201 ->
   exists loc category,
     validateCoordinates parseFloatString (b_latitude b) (b_longitude b) = Some loc
     /\ b_category b = Some category /\ In category jobCategoryEnum
     /\ jobValid (newJob parseFloatString parseDate newId createdAt user b files loc) = true
     /\ cr_jobs (createJob parseFloatString parseDate validationMessage
                   newId createdAt notifiedAt jobs workers user b files)
        = (jobs ++ [newJob parseFloatString parseDate newId createdAt user b files loc])%list
     /\ cr_workers (createJob parseFloatString parseDate validationMessage
                      newId createdAt notifiedAt jobs workers user b files)
        = map (notified notifiedAt
                 (newJob parseFloatString parseDate newId createdAt user b files loc)
                 category)
              workers
     /\ (forall w,
           matchesCategory category w = true -> validOnSave w = true ->
           w_notifications
             (notified notifiedAt
                (newJob parseFloatString parseDate newId createdAt user b files loc)
                category w)
           = (w_notifications w
              ++ [newJobNotification notifiedAt
                    (newJob parseFloatString parseDate newId createdAt user b files loc)])%list)
     /\ (forall w,
           matchesCategory category w = false \/ validOnSave w = false ->
           notified notifiedAt
             (newJob parseFloatString parseDate newId createdAt user b files loc)
             category w
           = w)
     /\ n_job (newJobNotification notifiedAt
                 (newJob parseFloatString parseDate newId createdAt user b files loc))
        = Some newId
     /\ n_type (newJobNotification notifiedAt
                  (newJob parseFloatString parseDate newId createdAt user b files loc))
        = "new_job"
     /\ n_isRead (newJobNotification notifiedAt
                    (newJob parseFloatString parseDate newId createdAt user b files loc))
        = false)
  /\ (statusCode (cr_response (createJob parseFloatString parseDate validationMessage
                                 newId createdAt notifiedAt jobs workers user b files)) <> 201 ->
      cr_jobs (createJob parseFloatString parseDate validationMessage
                 newId createdAt notifiedAt jobs workers user b files) = jobs
      /\ cr_workers (createJob parseFloatString parseDate validationMessage
                       newId createdAt notifiedAt jobs workers user b files) = workers).
Proof.
  intros Hnd. unfold createJob, createJob_location.
  destruct (negb (String.eqb (userType user) "client")).
  { cbn. split; [discriminate|tauto]. }
  destruct (validateCoordinates parseFloatString (b_latitude b) (b_longitude b))
    as [loc|] eqn:Ev.
  2:{ cbn. split; [discriminate|tauto]. }
  cbv zeta.
  destruct (jobValid (newJob parseFloatString parseDate newId createdAt user b files loc))
    eqn:Ej.
  2:{ cbn. split; [discriminate|tauto]. }
  cbn [cr_response cr_jobs cr_workers statusCode].
  split; [|intros H; exfalso; apply H; reflexivity]. intros _.
  destruct (jobValid_category _ Ej) as (category & Hc & Hin).
  exists loc, category.
  split; [reflexivity|]. split; [exact Hc|]. split; [exact Hin|].
  split; [exact Ej|]. split; [reflexivity|].
  split; [apply dispatch_map;
          [exact Hnd|exact Hc|apply jobCategoryEnum_nonEmpty; exact Hin]|].
  split; [|split; [|repeat split]].
  - intros w Hm Hv. exact (proj2 (proj1 (notified_cases notifiedAt _ category w) Hm Hv)).
  - intros w [Hm|Hv].
    + exact (proj2 (proj2 (notified_cases notifiedAt _ category w)) Hm).
    + destruct (matchesCategory category w) eqn:Em.
      * exact (proj1 (proj2 (notified_cases notifiedAt _ category w)) Em Hv).
      * exact (proj2 (proj2 (notified_cases notifiedAt _ category w)) Em).
Qed.

(** X20. A job [createJob] has stored under an id that no stored job
    had is found by that id: the first worker who asks to accept it gets
    it, with status 200, and the stored job then has that worker and the
    status 'in progress'. *)
Theorem created_job_can_be_accepted (newId : ObjectId) (createdAt notifiedAt : Z)
        (jobs : list Job) (workers : list Worker) (user worker : User) (b : JobBody)
        (files : option (list string)) :
  ~ In newId (map j_id jobs) -> isWorker worker ->
  statusCode (cr_response (createJob parseFloatString parseDate validationMessage
                             newId createdAt notifiedAt jobs workers user b files)) = 201 ->
  exists job,
    findJobById (cr_jobs (createJob parseFloatString parseDate validationMessage
                            newId createdAt notifiedAt jobs workers user b files)) newId
    = Some job
    /\ j_user job = user_id user /\ j_status job = "pending" /\ j_worker job = None
    /\ statusCode (fst (acceptJob
                          (cr_jobs (createJob parseFloatString parseDate validationMessage
                                      newId createdAt notifiedAt jobs workers user b files))
                          worker newId)) = 200
    /\ findJobById
         (snd (acceptJob
                 (cr_jobs (createJob parseFloatString parseDate validationMessage
                             newId createdAt notifiedAt jobs workers user b files))
                 worker newId)) newId
       = Some (assignJob (user_id worker) job).
Proof.
  intros Hfresh Hw. unfold isWorker in Hw. unfold createJob, createJob_location.
  destruct (negb (String.eqb (userType user) "client")); [discriminate|].
  destruct (validateCoordinates parseFloatString (b_latitude b) (b_longitude b))
    as [loc|]; [|discriminate].
  cbv zeta.
  set (job := newJob parseFloatString parseDate newId createdAt user b files loc).
  destruct (jobValid job); [|discriminate].
  cbn [cr_response cr_jobs statusCode]. intros _.
  assert (Hf : findJobById (jobs ++ [job]) newId = Some job).
  { unfold findJobById. clear -Hfresh. induction jobs as [|x r IH]; simpl.
    - rewrite N.eqb_refl. reflexivity.
    - simpl in Hfresh. destruct (N.eqb_spec (j_id x) newId) as [E|E]; [tauto|].
      apply IH. tauto. }
  exists job. split; [exact Hf|]. split; [reflexivity|]. split; [reflexivity|].
  split; [reflexivity|].
  unfold acceptJob. rewrite Hw.
  change (negb ("worker" =? "worker")%string) with false. cbv iota.
  rewrite Hf. change (noLongerAvailable job) with false. cbv iota zeta.
  cbn [fst snd statusCode]. split; [reflexivity|].
  apply (findJobById_saveJob (jobs ++ [job]) job (assignJob (user_id worker) job)).
  exact Hf.
Qed.

End CreateJobFacts.

Lemma createJob_notifies_witness :
  cr_workers (createJob Sample.noNumber Scenario.oneDate Scenario.noMessage
                201%N 1700000000000 1700000000500 [] Sample.workers Sample.amit
                Scenario.leakBody None)
  = [pushNotification
       (newJobNotification 1700000000500
          (newJob Sample.noNumber Scenario.oneDate 201%N 1700000000000 Sample.amit
                  Scenario.leakBody None Sample.delhi))
       Sample.rajProfile;
     Sample.deepakProfile; Sample.sunitaProfile].
Proof.
  destruct (proj1 (createJob_notifies Sample.noNumber Scenario.oneDate Scenario.noMessage
                     201%N 1700000000000 1700000000500 [] Sample.workers Sample.amit
                     Scenario.leakBody None sample_workers_distinct) eq_refl)
    as (loc & category & Hv & Hc & _ & _ & _ & Hw & _).
  rewrite Hw. injection Hv as <-. injection Hc as <-. reflexivity.
Defined.

Lemma created_job_can_be_accepted_witness :
  exists job,
    findJobById (cr_jobs (createJob Sample.noNumber Scenario.oneDate Scenario.noMessage
                            201%N 1700000000000 1700000000500 [Sample.electricalWiring]
                            Sample.workers Sample.amit Scenario.leakBody None)) 201%N
    = Some job
    /\ j_user job = user_id Sample.amit /\ j_status job = "pending" /\ j_worker job = None
    /\ statusCode (fst (acceptJob
                          (cr_jobs (createJob Sample.noNumber Scenario.oneDate
                                      Scenario.noMessage 201%N 1700000000000 1700000000500
                                      [Sample.electricalWiring] Sample.workers Sample.amit
                                      Scenario.leakBody None))
                          Sample.raj 201%N)) = 200
    /\ findJobById
         (snd (acceptJob
                 (cr_jobs (createJob Sample.noNumber Scenario.oneDate Scenario.noMessage
                             201%N 1700000000000 1700000000500 [Sample.electricalWiring]
                             Sample.workers Sample.amit Scenario.leakBody None))
                 Sample.raj 201%N)) 201%N
       = Some (assignJob (user_id Sample.raj) job).
Proof.
  apply (created_job_can_be_accepted Sample.noNumber Scenario.oneDate Scenario.noMessage
           201%N 1700000000000 1700000000500 [Sample.electricalWiring] Sample.workers
           Sample.amit Sample.raj Scenario.leakBody None).
  - simpl. intros [H|[]]. discriminate.
  - reflexivity.
  - reflexivity.
Defined.
(* ================================================================= *)
(** * Worker profiles *)

Lemma findOneAndUpdate_found (u : ObjectId) (f : Worker -> Worker) (ws ws' : list Worker)
      (w' : Worker) :
  findOneAndUpdate u f ws = (Some w', ws') ->
  exists before w after,
    ws = (before ++ w :: after)%list
    /\ w_user w = u
    /\ (forall x, In x before -> w_user x <> u)
    /\ w' = f w
    /\ ws' = (before ++ f w :: after)%list.
Proof.
  revert ws' w'. induction ws as [|x r IH]; intros ws' w' H; simpl in H; [discriminate|].
  destruct (N.eqb_spec (w_user x) u) as [E|E].
  - injection H as <- <-. exists [], x, r. repeat split; try assumption.
    intros y [].
  - destruct (findOneAndUpdate u f r) as [found r'] eqn:Er.
    injection H as -> <-.
    destruct (IH r' w' eq_refl) as (before & w & after & H1 & H2 & H3 & H4 & H5).
    exists (x :: before), w, after. subst r r'. repeat split; try assumption.
    intros y [<-|Hy]; [exact E|apply H3; exact Hy].
Qed.

Lemma findOneAndUpdate_none (u : ObjectId) (f : Worker -> Worker) (ws ws' : list Worker) :
  findOneAndUpdate u f ws = (None, ws') -> ws' = ws.
Proof.
  revert ws'. induction ws as [|x r IH]; intros ws' H; simpl in H.
  - injection H as <-. reflexivity.
  - destruct (N.eqb (w_user x) u); [discriminate|].
    destruct (findOneAndUpdate u f r) as [found r'] eqn:Er.
    injection H as -> <-. rewrite (IH r' eq_refl). reflexivity.
Qed.

Lemma findOneAndUpdate_find (u : ObjectId) (f : Worker -> Worker) (ws : list Worker)
      (w : Worker) :
  (forall x, w_user (f x) = w_user x) ->
  find (fun w => N.eqb (w_user w) u) ws = Some w ->
  fst (findOneAndUpdate u f ws) = Some (f w)
  /\ find (fun w => N.eqb (w_user w) u) (snd (findOneAndUpdate u f ws)) = Some (f w).
Proof.
  intros Hf. induction ws as [|x r IH]; simpl; [discriminate|].
  destruct (N.eqb (w_user x) u) eqn:E.
  - intros H. injection H as <-. simpl. rewrite Hf, E. split; reflexivity.
  - intros H. destruct (IH H) as [H1 H2].
    destruct (findOneAndUpdate u f r) as [found r']. simpl in *.
    rewrite E. split; assumption.
Qed.

Lemma findOneAndUpdate_keys (u : ObjectId) (f : Worker -> Worker) (ws : list Worker) :
  (forall x, w_id (f x) = w_id x) -> (forall x, w_user (f x) = w_user x) ->
  map w_id (snd (findOneAndUpdate u f ws)) = map w_id ws
  /\ map w_user (snd (findOneAndUpdate u f ws)) = map w_user ws.
Proof.
  intros Hi Hu. induction ws as [|x r IH]; simpl; [split; reflexivity|].
  destruct (N.eqb (w_user x) u).
  - simpl. rewrite Hi, Hu. split; reflexivity.
  - destruct (findOneAndUpdate u f r) as [found r']. simpl in *.
    destruct IH as [-> ->]. split; reflexivity.
Qed.

Lemma findOneAndUpdate_categories (u : ObjectId) (f : Worker -> Worker) (ws : list Worker) :
  (forall x, w_categories (f x) = w_categories x) ->
  map w_categories (snd (findOneAndUpdate u f ws)) = map w_categories ws.
Proof.
  intros Hc. induction ws as [|x r IH]; simpl; [reflexivity|].
  destruct (N.eqb (w_user x) u).
  - simpl. rewrite Hc. reflexivity.
  - destruct (findOneAndUpdate u f r) as [found r']. simpl in *. rewrite IH. reflexivity.
Qed.

Lemma find_user_none (u : ObjectId) (ws : list Worker) :
  find (fun w => N.eqb (w_user w) u) ws = None -> ~ In u (map w_user ws).
Proof.
  induction ws as [|x r IH]; simpl; [tauto|].
  destruct (N.eqb_spec (w_user x) u) as [E|E]; [discriminate|].
  intros H [H'|H']; [contradiction|]. apply (IH H). exact H'.
Qed.

Lemma NoDup_snoc_id (x : ObjectId) (l : list ObjectId) :
  NoDup l -> ~ In x l -> NoDup (l ++ [x]).
Proof.
  intros Hl Hx. apply NoDup_app; [exact Hl|constructor; [intros []|constructor]|].
  intros a Ha [<-|[]]. contradiction.
Qed.

Lemma NoDup_map_injective {A B : Type} (f : A -> B) (l : list A) (x y : A) :
  NoDup (map f l) -> In x l -> In y l -> f x = f y -> x = y.
Proof.
  induction l as [|a r IH]; simpl; [tauto|]. intros Hnd Hx Hy E.
  inversion Hnd as [|b l' Hb Hr]; subst.
  destruct Hx as [->|Hx], Hy as [->|Hy]; try reflexivity.
  - exfalso. apply Hb. rewrite E. apply in_map. exact Hy.
  - exfalso. apply Hb. rewrite <- E. apply in_map. exact Hx.
  - apply IH; assumption.
Qed.

Lemma preSave_keys (w : Worker) :
  w_id (preSave w) = w_id w /\ w_user (preSave w) = w_user w.
Proof.
  unfold preSave. destruct (w_categories w), (w_skills w); split; reflexivity.
Qed.

(** The dispatch keeps the id and the user of every profile. *)
Lemma dispatch_keys (now : Z) (job : Job) (ws : list Worker) :
  NoDup (map w_id ws) ->
  map w_id (snd (sendNotificationsToMatchingWorkers now job ws)) = map w_id ws
  /\ map w_user (snd (sendNotificationsToMatchingWorkers now job ws)) = map w_user ws.
Proof.
  intros Hnd.
  destruct (j_category job) as [[|c r]|] eqn:Ec.
  - unfold sendNotificationsToMatchingWorkers. rewrite Ec. split; reflexivity.
  - rewrite (dispatch_map now job ws (String c r) Hnd Ec) by discriminate.
    rewrite !map_map.
    split; apply map_ext; intros w; unfold notified, withNotification;
      destruct (matchesCategory (String c r) w); try reflexivity;
      destruct (validOnSave (pushNotification (newJobNotification now job) w));
      try reflexivity.
    + rewrite (proj1 (preSave_keys _)). reflexivity.
    + rewrite (proj2 (preSave_keys _)). reflexivity.
  - unfold sendNotificationsToMatchingWorkers. rewrite Ec. split; reflexivity.
Qed.

Section ProfileFacts.

Variable parseFloatString : string -> float.
Variable indexed : list float -> bool.
Variable refusalMessage : Worker -> string.
Variable skillsAccepted : list string -> bool.
Variable updateMessage : list string -> string.

Lemma createWorker_some (data w : Worker) (ws ws' : list Worker) :
  createWorker indexed data ws = Some (w, ws') ->
  w = preSave data /\ ws' = (ws ++ [w])%list /\ workerValid data = true.
Proof.
  unfold createWorker. destruct (workerValid data); [|discriminate].
  cbv zeta.
  destruct (match w_location (preSave data) with
            | Some loc => indexed (coordinates loc)
            | None => false
            end); [|discriminate].
  intros H. injection H as <- <-. repeat split.
Qed.

(** One request keeps the ids and the users of the profiles, or adds
    one profile with a new id for a user who had none. *)
Lemma WorkersStep_distinct (ws ws' : list Worker) :
  WorkersStep parseFloatString indexed refusalMessage skillsAccepted updateMessage ws ws' ->
  profilesDistinct ws -> profilesDistinct ws'.
Proof.
  unfold profilesDistinct. intros Hstep [Hi Hu].
  assert (Hsame : forall l, map w_id l = map w_id ws /\ map w_user l = map w_user ws ->
                            NoDup (map w_id l) /\ NoDup (map w_user l)).
  { intros l [-> ->]. split; assumption. }
  assert (Hadd : forall w, ~ In (w_id w) (map w_id ws) -> ~ In (w_user w) (map w_user ws) ->
                           NoDup (map w_id (ws ++ [w])) /\ NoDup (map w_user (ws ++ [w]))).
  { intros w H1 H2. rewrite !map_app. simpl.
    split; apply NoDup_snoc_id; assumption. }
  inversion Hstep; subst; clear Hstep.
  - unfold ensureProfile.
    destruct (negb (String.eqb (userType user) "worker")); [split; assumption|].
    destruct (find (fun w => N.eqb (w_user w) (user_id user)) ws) eqn:Ef;
      [split; assumption|].
    cbv zeta.
    match goal with |- context [createWorker indexed ?d ws] =>
      destruct (createWorker indexed d ws) as [[w l]|] eqn:Ec end; [|split; assumption].
    apply createWorker_some in Ec. destruct Ec as (-> & -> & _). cbn [snd].
    apply Hadd.
    + rewrite (proj1 (preSave_keys _)). exact H.
    + rewrite (proj2 (preSave_keys _)). apply find_user_none. exact Ef.
  - unfold putProfile.
    destruct (negb (String.eqb (userType user) "worker")); [split; assumption|].
    cbv zeta.
    match goal with |- context [findOneAndUpdate ?u ?f ws] =>
      pose proof (findOneAndUpdate_keys u f ws) as Hk;
      destruct (findOneAndUpdate u f ws) as [[w|] l] end; [|split; assumption].
    cbn [snd] in *. apply Hsame. apply Hk.
    + intros x. unfold setOrSkip.
      destruct (truthyString city), (truthyNumber serviceRadius), omitUndefined; reflexivity.
    + intros x. unfold setOrSkip.
      destruct (truthyString city), (truthyNumber serviceRadius), omitUndefined; reflexivity.
  - unfold updateWorkerProfile.
    destruct (negb (String.eqb (userType user) "worker")); [split; assumption|].
    cbv zeta.
    destruct (updateWorkerProfile_location parseFloatString cityLatitude cityLongitude)
      as [[refused|loc]|]; [split; assumption| |].
    + destruct (match skills with
                | Some l => skillsAccepted (map lowerTrim l)
                | None => true
                end); [|split; assumption].
      match goal with |- context [findOneAndUpdate ?u ?f ws] =>
        pose proof (findOneAndUpdate_keys u f ws) as Hk;
        destruct (findOneAndUpdate u f ws) as [[w|] l] end; [|split; assumption].
      cbn [snd] in *. apply Hsame. apply Hk.
      * intros x. destruct skills, (truthyNumber serviceRadius), (truthyString city);
          reflexivity.
      * intros x. destruct skills, (truthyNumber serviceRadius), (truthyString city);
          reflexivity.
    + destruct (match skills with
                | Some l => skillsAccepted (map lowerTrim l)
                | None => true
                end); [|split; assumption].
      match goal with |- context [findOneAndUpdate ?u ?f ws] =>
        pose proof (findOneAndUpdate_keys u f ws) as Hk;
        destruct (findOneAndUpdate u f ws) as [[w|] l] end; [|split; assumption].
      cbn [snd] in *. apply Hsame. apply Hk.
      * intros x. destruct skills, (truthyNumber serviceRadius), (truthyString city);
          reflexivity.
      * intros x. destruct skills, (truthyNumber serviceRadius), (truthyString city);
          reflexivity.
  - unfold updateLocation.
    destruct (negb (String.eqb (userType user) "worker")); [split; assumption|].
    destruct (validateCoordinates parseFloatString latitude longitude) as [loc|];
      [|split; assumption].
    destruct (findOneAndSetLocation (user_id user) loc ws) as [[w|] l] eqn:Ef;
      [|split; assumption].
    cbn [snd].
    destruct (findOneAndSetLocation_found _ _ _ _ _ Ef)
      as (before & x & after & -> & _ & _ & _ & ->).
    apply Hsame. rewrite !map_app. simpl. split; reflexivity.
  - apply Hsame. apply dispatch_keys. exact Hi.
  - match goal with Hc : registerWorker _ _ _ _ _ _ _ _ _ = Some _ |- _ =>
      unfold registerWorker in Hc; cbv zeta in Hc; apply createWorker_some in Hc;
      destruct Hc as (-> & -> & _) end.
    apply Hadd.
    + rewrite (proj1 (preSave_keys _)). assumption.
    + rewrite (proj2 (preSave_keys _)). assumption.
Qed.

(** X21. The profiles keep distinct ids and no user ever has two of
    them, whatever requests write to the workers collection (ensuring,
    replacing or updating a profile, updating the location, registering,
    dispatching notifications): [Worker.findOne({ user })] finds the one
    profile of a user. *)
Theorem one_profile_per_user (ws ws' : list Worker) :
  WorkersSteps parseFloatString indexed refusalMessage skillsAccepted updateMessage ws ws' ->
  profilesDistinct ws ->
  profilesDistinct ws'
  /\ (forall w1 w2, In w1 ws' -> In w2 ws' -> w_user w1 = w_user w2 -> w1 = w2).
Proof.
  intros Hsteps Hd.
  assert (Hd' : profilesDistinct ws').
  { induction Hsteps as [|ws0 ws1 ws2 _ IH Hstep]; [exact Hd|].
    apply (WorkersStep_distinct ws1 ws2); [exact Hstep|apply IH; exact Hd]. }
  split; [exact Hd'|]. intros w1 w2 H1 H2 E.
  apply (NoDup_map_injective w_user ws'); try assumption. apply Hd'.
Qed.

(** X22. [updateWorkerProfile] never changes the categories of a
    profile, whatever it is sent: a profile whose skills it replaces keeps
    the categories it had, and with them the category clause of its
    nearby-jobs query. *)
Theorem updateWorkerProfile_keeps_categories (ws : list Worker) (user : User)
        (skills : option (list string)) (serviceRadius : option float)
        (city : option string) (cityLatitude cityLongitude : JSValue) :
  map w_categories
      (snd (updateWorkerProfile parseFloatString skillsAccepted updateMessage ws user
              skills serviceRadius city cityLatitude cityLongitude))
  = map w_categories ws
  /\ (forall l w,
        isWorker user -> profileOf user ws = Some w ->
        skills = Some l -> skillsAccepted (map lowerTrim l) = true ->
        (forall refused,
            updateWorkerProfile_location parseFloatString cityLatitude cityLongitude
            <> Some (inl refused)) ->
        exists w',
          fst (updateWorkerProfile parseFloatString skillsAccepted updateMessage ws user
                 skills serviceRadius city cityLatitude cityLongitude)
          = SendsProfile 200 w'
          /\ profileOf user
               (snd (updateWorkerProfile parseFloatString skillsAccepted updateMessage ws
                       user skills serviceRadius city cityLatitude cityLongitude))
             = Some w'
          /\ w_skills w' = map lowerTrim l
          /\ w_categories w' = w_categories w
          /\ categoryClause (w_categories w') = categoryClause (w_categories w)).
Proof.
  split.
  - unfold updateWorkerProfile.
    destruct (negb (String.eqb (userType user) "worker")); [reflexivity|].
    cbv zeta.
    destruct (updateWorkerProfile_location parseFloatString cityLatitude cityLongitude)
      as [[refused|loc]|]; [reflexivity| |].
    + destruct (match skills with
                | Some l => skillsAccepted (map lowerTrim l)
                | None => true
                end); [|reflexivity].
      match goal with |- context [findOneAndUpdate ?u ?f ws] =>
        pose proof (findOneAndUpdate_categories u f ws) as Hk;
        destruct (findOneAndUpdate u f ws) as [[w|] l] end; [|reflexivity].
      cbn [snd] in *. apply Hk.
      intros x. destruct skills, (truthyNumber serviceRadius), (truthyString city);
        reflexivity.
    + destruct (match skills with
                | Some l => skillsAccepted (map lowerTrim l)
                | None => true
                end); [|reflexivity].
      match goal with |- context [findOneAndUpdate ?u ?f ws] =>
        pose proof (findOneAndUpdate_categories u f ws) as Hk;
        destruct (findOneAndUpdate u f ws) as [[w|] l] end; [|reflexivity].
      cbn [snd] in *. apply Hk.
      intros x. destruct skills, (truthyNumber serviceRadius), (truthyString city);
        reflexivity.
  - intros l w Hu Hp -> Ha Hl. unfold isWorker in Hu. unfold profileOf in *.
    unfold updateWorkerProfile. rewrite Hu, Ha.
    change (negb ("worker" =? "worker")%string) with false. cbv iota zeta.
    destruct (updateWorkerProfile_location parseFloatString cityLatitude cityLongitude)
      as [[refused|loc]|]; [exfalso; apply (Hl refused); reflexivity| |];
      match goal with |- context [findOneAndUpdate ?u ?f ws] =>
        assert (Hf : forall x, w_user (f x) = w_user x)
          by (intros x; destruct (truthyNumber serviceRadius), (truthyString city);
              reflexivity);
        destruct (findOneAndUpdate_find u f ws w Hf Hp) as [H1 H2];
        destruct (findOneAndUpdate u f ws) as [found l'] end;
      cbn [fst snd] in *; subst found;
      (eexists; split; [reflexivity|]; split; [exact H2|]);
      destruct (truthyNumber serviceRadius), (truthyString city); repeat split; reflexivity.
Qed.

End ProfileFacts.
Lemma one_profile_per_user_witness :
  profilesDistinct
    (snd (ensureProfile Sample.noNumber Scenario.anyIndex Scenario.noRefusal 14%N
            [Sample.rajProfile; Sample.deepakProfile] Sample.sunita
            JSUndefined JSUndefined None))
  /\ (forall w1 w2,
        In w1 (snd (ensureProfile Sample.noNumber Scenario.anyIndex Scenario.noRefusal 14%N
                      [Sample.rajProfile; Sample.deepakProfile] Sample.sunita
                      JSUndefined JSUndefined None)) ->
        In w2 (snd (ensureProfile Sample.noNumber Scenario.anyIndex Scenario.noRefusal 14%N
                      [Sample.rajProfile; Sample.deepakProfile] Sample.sunita
                      JSUndefined JSUndefined None)) ->
        w_user w1 = w_user w2 -> w1 = w2).
Proof.
  apply (one_profile_per_user Sample.noNumber Scenario.anyIndex Scenario.noRefusal
           Scenario.anySkills Scenario.noUpdateMessage
           [Sample.rajProfile; Sample.deepakProfile]).
  - eapply wsteps_more; [apply wsteps_none|apply step_ensureProfile].
    simpl. intros [H|[H|[]]]; discriminate.
  - split; repeat constructor; simpl; intuition discriminate.
Defined.

(** A query whose category clause holds no category a job can have
    matches no valid job. *)
Lemma no_common_category (nearSphere : GeoPoint -> float -> option GeoPoint -> bool)
      (w : Worker) (loc : GeoPoint) (j : Job) (c : string) :
  categoryClause (w_categories w) <> None -> noJobCategory (w_categories w) ->
  j_category j = Some c -> In c jobCategoryEnum ->
  matchesNearbyQuery nearSphere (nearbyQuery w loc) j = false.
Proof.
  intros Hcl Hno Hc Hin. unfold matchesNearbyQuery, nearbyQuery.
  cbn [q_status q_geometry q_maxDistance q_category]. rewrite Hc.
  unfold categoryClause in *.
  destruct ((0 <? List.length (w_categories w))%nat
            && negb ((List.length (w_categories w) =? 1)%nat
                     && includesGeneral (w_categories w))); [|congruence].
  apply andb_false_intro2.
  destruct (existsb (String.eqb c) (w_categories w)) eqn:E; [|reflexivity].
  apply existsb_exists in E. destruct E as (y & Hy & E). apply String.eqb_eq in E. subst y.
  exfalso. apply (Hno c Hy Hin).
Qed.

(** X23. The profile route replaces the skills and the categories of
    the caller's profile by the skills it is sent, lower-cased and
    trimmed, as they are: no category is derived and none is checked
    against the enumeration.  When none of them is a job category (and
    they are not the single entry 'general'), the nearby-jobs query of
    the profile matches no job that has a category of the job
    enumeration. *)
Theorem putProfile_sets_categories (omitUndefined : bool) (ws : list Worker) (user : User)
        (skills : option (list string)) (serviceRadius : option float)
        (city : option string) (w : Worker) :
  isWorker user -> profileOf user ws = Some w ->
  exists w',
    fst (putProfile omitUndefined ws user skills serviceRadius city) = SendsProfile 200 w'
    /\ profileOf user (snd (putProfile omitUndefined ws user skills serviceRadius city))
       = Some w'
    /\ w_skills w' = normalizedSkills skills
    /\ w_categories w' = normalizedSkills skills
    /\ w_id w' = w_id w /\ w_location w' = w_location w
    /\ w_notifications w' = w_notifications w
    /\ (categoryClause (normalizedSkills skills) <> None ->
        noJobCategory (normalizedSkills skills) ->
        forall nearSphere loc j c,
          j_category j = Some c -> In c jobCategoryEnum ->
          matchesNearbyQuery nearSphere (nearbyQuery w' loc) j = false).
Proof.
  unfold isWorker, profileOf. intros Hu Hp. unfold putProfile. rewrite Hu.
  change (negb ("worker" =? "worker")%string) with false. cbv iota zeta.
  match goal with |- context [findOneAndUpdate ?u ?f ws] =>
    assert (Hf : forall x, w_user (f x) = w_user x)
      by (intros x; unfold setOrSkip;
          destruct (truthyString city), (truthyNumber serviceRadius), omitUndefined;
          reflexivity);
    destruct (findOneAndUpdate_find u f ws w Hf Hp) as [H1 H2];
    destruct (findOneAndUpdate u f ws) as [found l'] end.
  cbn [fst snd] in *. subst found.
  eexists. split; [reflexivity|]. split; [exact H2|].
  assert (E : forall x,
             w_skills (setOrSkip omitUndefined setCity (truthyString city)
                         (setOrSkip omitUndefined setServiceRadius (truthyNumber serviceRadius)
                            (setCategories (normalizedSkills skills)
                               (setSkills (normalizedSkills skills) x))))
             = normalizedSkills skills
             /\ w_categories (setOrSkip omitUndefined setCity (truthyString city)
                                (setOrSkip omitUndefined setServiceRadius
                                   (truthyNumber serviceRadius)
                                   (setCategories (normalizedSkills skills)
                                      (setSkills (normalizedSkills skills) x))))
                = normalizedSkills skills
             /\ w_id (setOrSkip omitUndefined setCity (truthyString city)
                        (setOrSkip omitUndefined setServiceRadius
                           (truthyNumber serviceRadius)
                           (setCategories (normalizedSkills skills)
                              (setSkills (normalizedSkills skills) x))))
                = w_id x
             /\ w_location (setOrSkip omitUndefined setCity (truthyString city)
                              (setOrSkip omitUndefined setServiceRadius
                                 (truthyNumber serviceRadius)
                                 (setCategories (normalizedSkills skills)
                                    (setSkills (normalizedSkills skills) x))))
                = w_location x
             /\ w_notifications (setOrSkip omitUndefined setCity (truthyString city)
                                   (setOrSkip omitUndefined setServiceRadius
                                      (truthyNumber serviceRadius)
                                      (setCategories (normalizedSkills skills)
                                         (setSkills (normalizedSkills skills) x))))
                = w_notifications x).
  { intros x. unfold setOrSkip.
    destruct (truthyString city), (truthyNumber serviceRadius), omitUndefined;
      repeat split; reflexivity. }
  destruct (E w) as (E1 & E2 & E3 & E4 & E5).
  split; [exact E1|]. split; [exact E2|]. split; [exact E3|]. split; [exact E4|].
  split; [exact E5|].
  intros Hcl Hno nearSphere loc j c Hc Hin.
  apply (no_common_category nearSphere _ loc j c); try assumption; rewrite E2; assumption.
Qed.

Lemma putProfile_sets_categories_witness :
  exists w',
    fst (putProfile true Sample.workers Sample.raj (Some ["Plumber"; " Tiling "]) None None)
    = SendsProfile 200 w'
    /\ w_categories w' = ["plumber"; "tiling"].
Proof.
  destruct (putProfile_sets_categories true Sample.workers Sample.raj
              (Some ["Plumber"; " Tiling "]) None None Sample.rajProfile eq_refl eq_refl)
    as (w' & H1 & _ & _ & H2 & _).
  exists w'. split; [exact H1|exact H2].
Defined.

Section EnsureProfileFacts.

Variable parseFloatString : string -> float.
Variable indexed : list float -> bool.
Variable refusalMessage : Worker -> string.

Lemma preSave_same_lists (w : Worker) :
  w_categories w = w_skills w -> preSave w = w.
Proof.
  unfold preSave. intros E. rewrite E. destruct (w_skills w); reflexivity.
Qed.

Lemma find_user_app (u : ObjectId) (ws : list Worker) (w : Worker) :
  find (fun w => N.eqb (w_user w) u) ws = None -> w_user w = u ->
  find (fun w => N.eqb (w_user w) u) (ws ++ [w]) = Some w.
Proof.
  intros Hn Hu. induction ws as [|x r IH]; simpl in *.
  - rewrite Hu, N.eqb_refl. reflexivity.
  - destruct (N.eqb (w_user x) u); [discriminate|]. apply IH. exact Hn.
Qed.

(** X24. A worker who has a profile gets it back from the
    ensure-profile route, and nothing is stored.  A worker who has none
    gets either a new profile, which is then the one every later call
    returns, or status 500 with nothing stored.  The new profile carries
    the normalized skills both as its skills and, unmapped, as its
    categories, so it is only created when every one of them is a
    category of the enumeration: a skill outside the enumeration is
    answered with status 500. *)
Theorem ensureProfile_once (newId : ObjectId) (ws : list Worker) (user : User)
        (latitude longitude : JSValue) (skills : option (list string)) :
  isWorker user ->
  (forall w, profileOf user ws = Some w ->
             ensureProfile parseFloatString indexed refusalMessage newId ws user
               latitude longitude skills
             = (SendsProfile 200 w, ws))
  /\ (profileOf user ws = None ->
      (exists w,
          ensureProfile parseFloatString indexed refusalMessage newId ws user
            latitude longitude skills
          = (SendsProfile 200 w, (ws ++ [w])%list)
          /\ w_id w = newId /\ w_user w = user_id user
          /\ w_skills w = normalizedSkills skills
          /\ w_categories w = normalizedSkills skills
          /\ Forall (fun c => In c workerCategoryEnum) (w_categories w)
          /\ w_location w
             = Some (mkGeoPoint "Point"
                       (ensureProfile_coordinates parseFloatString latitude longitude))
          /\ (forall newId' latitude' longitude' skills',
                ensureProfile parseFloatString indexed refusalMessage newId'
                  (ws ++ [w])%list user latitude' longitude' skills'
                = (SendsProfile 200 w, (ws ++ [w])%list)))
      \/ (exists r,
             ensureProfile parseFloatString indexed refusalMessage newId ws user
               latitude longitude skills
             = (SendsFailure r, ws)
             /\ statusCode r = 500))
  /\ (profileOf user ws = None ->
      (exists s, In s (normalizedSkills skills) /\ ~ In s workerCategoryEnum) ->
      exists r,
        ensureProfile parseFloatString indexed refusalMessage newId ws user
          latitude longitude skills
        = (SendsFailure r, ws)
        /\ statusCode r = 500).
Proof.
  unfold isWorker, profileOf. intros Hu.
  set (data := mkWorker newId (user_id user) (normalizedSkills skills) (Some 50%float)
                 (Some (mkGeoPoint "Point"
                          (ensureProfile_coordinates parseFloatString latitude longitude)))
                 [] None 0%float 0%Z (normalizedSkills skills)).
  assert (Hpre : preSave data = data) by (apply preSave_same_lists; reflexivity).
  assert (Hens : find (fun w => N.eqb (w_user w) (user_id user)) ws = None ->
                 ensureProfile parseFloatString indexed refusalMessage newId ws user
                   latitude longitude skills
                 = match createWorker indexed data ws with
                   | Some (worker, workers') => (SendsProfile 200 worker, workers')
                   | None =>
                       (SendsFailure
                          (mkResponse 500
                             (JObject [("success", JBool false);
                                       ("message", JString "Failed to ensure worker profile");
                                       ("error", JString (refusalMessage data))])),
                        ws)
                   end).
  { intros Hn. unfold ensureProfile. rewrite Hu, Hn. reflexivity. }
  split; [|split].
  - intros w Hw. unfold ensureProfile. rewrite Hu, Hw. reflexivity.
  - intros Hn. rewrite (Hens Hn).
    destruct (createWorker indexed data ws) as [[w l]|] eqn:Ec.
    + left. apply createWorker_some in Ec. destruct Ec as (Hw & -> & Hv).
      rewrite Hpre in Hw. subst w. exists data.
      split; [reflexivity|]. repeat split.
      * unfold workerValid in Hv. apply andb_prop in Hv. destruct Hv as [Hv _].
        apply andb_prop in Hv. destruct Hv as [_ Hv].
        rewrite forallb_forall in Hv. apply Forall_forall. intros c Hc.
        specialize (Hv c Hc). apply existsb_exists in Hv.
        destruct Hv as (y & Hy & E). apply String.eqb_eq in E. subst. exact Hy.
      * intros newId' latitude' longitude' skills'. unfold ensureProfile. rewrite Hu.
        change (negb ("worker" =? "worker")%string) with false. cbv iota.
        rewrite (find_user_app (user_id user) ws data Hn eq_refl). reflexivity.
    + right. eexists. split; reflexivity.
  - intros Hn (s & Hs & Hns). rewrite (Hens Hn).
    assert (Hv : workerValid data = false).
    { unfold workerValid. apply andb_false_intro1, andb_false_intro2.
      destruct (forallb (fun c => existsb (String.eqb c) workerCategoryEnum)
                        (w_categories data)) eqn:E; [|reflexivity].
      exfalso. rewrite forallb_forall in E. specialize (E s Hs).
      apply existsb_exists in E. destruct E as (y & Hy & E').
      apply String.eqb_eq in E'. subst. contradiction. }
    unfold createWorker. rewrite Hv. eexists. split; reflexivity.
Qed.

(** X25. The location [register] gives a new worker profile is always a
    valid point: the point [validateCoordinates] returns for the
    submitted values when it returns one, and the point of Delhi in every
    other case, whether a city is given or not. *)
Theorem register_location_valid (cityLatitude cityLongitude : JSValue)
        (city : option string) :
  validPoint (coordinates (register_location parseFloatString cityLatitude cityLongitude city))
  /\ (forall loc,
        validateCoordinates parseFloatString cityLatitude cityLongitude = Some loc ->
        register_location parseFloatString cityLatitude cityLongitude city = loc)
  /\ (validateCoordinates parseFloatString cityLatitude cityLongitude = None ->
      register_location parseFloatString cityLatitude cityLongitude city
      = mkGeoPoint "Point" [77.2090; 28.6139]%float).
Proof.
  unfold register_location.
  destruct (validateCoordinates parseFloatString cityLatitude cityLongitude) as [loc|] eqn:Ev.
  - split; [|split; [intros l H; injection H as <-; reflexivity|discriminate]].
    unfold validateCoordinates in Ev. cbv zeta in Ev.
    set (lat := parseFloat parseFloatString cityLatitude) in *.
    set (lng := parseFloat parseFloatString cityLongitude) in *.
    destruct (is_nan lat) eqn:Hlat; [discriminate|].
    destruct (is_nan lng) eqn:Hlng; [discriminate|]. cbn [orb] in Ev.
    pose proof (FloatFacts.outside_iff (-90) 90 lat eq_refl eq_refl Hlat) as Ha.
    pose proof (FloatFacts.outside_iff (-180) 180 lng eq_refl eq_refl Hlng) as Hb.
    destruct ((lat <? -90) || (90 <? lat))%float%bool eqn:Ea; cbn [orb] in Ev;
      [discriminate|].
    destruct ((lng <? -180) || (180 <? lng))%float%bool eqn:Eb; [discriminate|].
    injection Ev as <-. exists lng, lat. split; [reflexivity|].
    split; [apply Hb|apply Ha]; reflexivity.
  - split; [|split; [discriminate|intros _; destruct (truthyString city); reflexivity]].
    destruct (truthyString city); apply delhi_valid.
Qed.

End EnsureProfileFacts.

Lemma ensureProfile_once_witness :
  exists r,
    ensureProfile Sample.noNumber Scenario.anyIndex Scenario.noRefusal 14%N
      [Sample.rajProfile] Sample.sunita JSUndefined JSUndefined (Some ["Gardener"])
    = (SendsFailure r, [Sample.rajProfile])
    /\ statusCode r = 500.
Proof.
  apply (proj2 (proj2 (ensureProfile_once Sample.noNumber Scenario.anyIndex
                         Scenario.noRefusal 14%N [Sample.rajProfile] Sample.sunita
                         JSUndefined JSUndefined (Some ["Gardener"]) eq_refl))).
  - reflexivity.
  - exists "gardener". split; [left; reflexivity|].
    simpl. intuition discriminate.
Defined.
(* ================================================================= *)
(** * The notification list *)

Lemma insertNewest_perm (n : Notification) (l : list Notification) :
  Permutation (n :: l) (insertNewest n l).
Proof.
  induction l as [|x r IH]; simpl; [apply Permutation_refl|].
  destruct (n_createdAt x <=? n_createdAt n)%Z; [apply Permutation_refl|].
  apply perm_trans with (x :: n :: r); [apply perm_swap|].
  apply perm_skip. exact IH.
Qed.

Lemma sortNewestFirst_perm (l : list Notification) : Permutation l (sortNewestFirst l).
Proof.
  unfold sortNewestFirst. induction l as [|x r IH]; simpl; [apply Permutation_refl|].
  apply perm_trans with (x :: fold_right insertNewest [] r).
  - apply perm_skip. exact IH.
  - apply insertNewest_perm.
Qed.

Lemma insertNewest_sorted (n : Notification) (l : list Notification) :
  newestNotificationFirst l -> newestNotificationFirst (insertNewest n l).
Proof.
  unfold newestNotificationFirst. induction l as [|x r IH]; simpl; intros H.
  - constructor; constructor.
  - inversion H as [|x' r' Hr Hx]; subst.
    destruct (Z.leb_spec (n_createdAt x) (n_createdAt n)) as [Hle|Hlt].
    + constructor; [exact H|]. constructor; [exact Hle|].
      rewrite Forall_forall in *. intros y Hy. specialize (Hx y Hy). lia.
    + constructor; [apply IH; exact Hr|].
      rewrite Forall_forall in *. intros y Hy.
      apply (Permutation_in _ (Permutation_sym (insertNewest_perm n r))) in Hy.
      destruct Hy as [<-|Hy]; [lia|auto].
Qed.

Lemma sortNewestFirst_sorted (l : list Notification) :
  newestNotificationFirst (sortNewestFirst l).
Proof.
  unfold sortNewestFirst. induction l as [|x r IH]; simpl.
  - constructor.
  - apply insertNewest_sorted. exact IH.
Qed.

Lemma unreadCount_perm (l l' : list Notification) :
  Permutation l l' -> unreadCount l = unreadCount l'.
Proof.
  unfold unreadCount. intros H. induction H; simpl.
  - reflexivity.
  - destruct (negb (n_isRead x)); simpl; congruence.
  - destruct (negb (n_isRead x)), (negb (n_isRead y)); reflexivity.
  - congruence.
Qed.

Lemma unreadCount_le (l : list Notification) : (unreadCount l <= List.length l)%nat.
Proof.
  unfold unreadCount. induction l as [|x r IH]; simpl; [lia|].
  destruct (negb (n_isRead x)); simpl; lia.
Qed.

Lemma unreadCount_snoc (l : list Notification) (n : Notification) :
  n_isRead n = false -> unreadCount (l ++ [n]) = S (unreadCount l).
Proof.
  intros H. unfold unreadCount. rewrite filter_app, length_app. simpl. rewrite H. simpl. lia.
Qed.

Lemma find_user_map (u : ObjectId) (f : Worker -> Worker) (ws : list Worker) :
  (forall x, w_user (f x) = w_user x) ->
  find (fun w => N.eqb (w_user w) u) (map f ws)
  = option_map f (find (fun w => N.eqb (w_user w) u) ws).
Proof.
  intros Hf. induction ws as [|x r IH]; simpl; [reflexivity|].
  rewrite Hf. destruct (N.eqb (w_user x) u); [reflexivity|exact IH].
Qed.

(** What the route sends to a worker who has a profile. *)
Lemma getNotifications_profile (workers : list Worker) (jobs : list Job) (user : User)
      (w : Worker) :
  isWorker user -> profileOf user workers = Some w ->
  getNotifications workers jobs user
  = SendsNotifications
      (map (fun notification =>
              (notification,
               match n_job notification with
               | Some id => findJobById jobs id
               | None => None
               end))
           (sortNewestFirst (w_notifications w)))
      (unreadCount (sortNewestFirst (w_notifications w))).
Proof.
  unfold isWorker, profileOf. intros Hu Hp. unfold getNotifications. rewrite Hu, Hp.
  reflexivity.
Qed.

(** X26. A worker who has a profile is sent all the notifications of
    the profile, each once, the newest first, each with the stored job it
    refers to (or none, when that job is not stored), and a count of the
    unread ones that is the number of unread notifications of the
    profile. *)
Theorem getNotifications_lists (workers : list Worker) (jobs : list Job) (user : User)
        (w : Worker) :
  isWorker user -> profileOf user workers = Some w ->
  exists views,
    getNotifications workers jobs user
    = SendsNotifications views (unreadCount (w_notifications w))
    /\ Permutation (w_notifications w) (map fst views)
    /\ newestNotificationFirst (map fst views)
    /\ (unreadCount (w_notifications w) <= List.length views)%nat
    /\ (forall n job,
          In (n, job) views ->
          job = match n_job n with
                | Some id => findJobById jobs id
                | None => None
                end).
Proof.
  intros Hu Hp. rewrite (getNotifications_profile workers jobs user w Hu Hp).
  eexists. split; [|split; [|split; [|split]]].
  - rewrite <- (unreadCount_perm _ _ (sortNewestFirst_perm (w_notifications w))).
    reflexivity.
  - rewrite map_map. cbn [fst]. rewrite map_id. apply sortNewestFirst_perm.
  - rewrite map_map. cbn [fst]. rewrite map_id. apply sortNewestFirst_sorted.
  - rewrite length_map.
    rewrite <- (Permutation_length (sortNewestFirst_perm (w_notifications w))).
    apply unreadCount_le.
  - intros n job Hin. apply in_map_iff in Hin. destruct Hin as (x & E & _).
    injection E as <- <-. reflexivity.
Qed.

Lemma getNotifications_lists_witness :
  exists views,
    getNotifications [Scenario.rajNotified] [Sample.bathroomLeak] Sample.raj
    = SendsNotifications views 1
    /\ Permutation (w_notifications Scenario.rajNotified) (map fst views).
Proof.
  destruct (getNotifications_lists [Scenario.rajNotified] [Sample.bathroomLeak] Sample.raj
              Scenario.rajNotified eq_refl eq_refl) as (views & H1 & H2 & _).
  exists views. split; [exact H1|exact H2].
Defined.

(** X27. After the dispatch for a job whose category is in the job
    enumeration, a worker whose profile matches the category and passes
    the validators of the schema is sent one more unread notification
    than before, the new one among them.  A worker whose profile matches
    but does not pass the validators is sent what was sent before, and so
    is a worker whose profile does not match.  (The profiles have
    distinct ids.) *)
Theorem dispatch_adds_one_unread (now : Z) (job : Job) (workers : list Worker)
        (jobs : list Job) (user : User) (w : Worker) (category : string) :
  NoDup (map w_id workers) ->
  isWorker user -> profileOf user workers = Some w ->
  j_category job = Some category -> In category jobCategoryEnum ->
  (matchesCategory category w = true -> validOnSave w = true ->
   exists views,
     getNotifications (snd (sendNotificationsToMatchingWorkers now job workers)) jobs user
     = SendsNotifications views (S (unreadCount (w_notifications w)))
     /\ In (newJobNotification now job) (map fst views))
  /\ (matchesCategory category w = true -> validOnSave w = false ->
      getNotifications (snd (sendNotificationsToMatchingWorkers now job workers)) jobs user
      = getNotifications workers jobs user)
  /\ (matchesCategory category w = false ->
      getNotifications (snd (sendNotificationsToMatchingWorkers now job workers)) jobs user
      = getNotifications workers jobs user).
Proof.
  intros Hnd Hu Hp Hc Hin.
  rewrite (dispatch_map now job workers category Hnd Hc
             (jobCategoryEnum_nonEmpty category Hin)).
  assert (Hp' : profileOf user (map (notified now job category) workers)
                = Some (notified now job category w)).
  { unfold profileOf in *. rewrite find_user_map.
    - rewrite Hp. reflexivity.
    - intros x. apply notified_user. }
  rewrite (getNotifications_profile _ jobs user _ Hu Hp').
  destruct (notified_cases now job category w) as (Hvalid & Hinvalid & Hother).
  split; [|split].
  - intros Hm Hv. destruct (Hvalid Hm Hv) as [_ Hn]. rewrite Hn.
    eexists. split.
    + rewrite <- (unreadCount_perm _ _ (sortNewestFirst_perm _)).
      rewrite unreadCount_snoc by reflexivity. reflexivity.
    + rewrite map_map. cbn [fst]. rewrite map_id.
      apply (Permutation_in _ (sortNewestFirst_perm _)).
      apply in_or_app. right. left. reflexivity.
  - intros Hm Hv. rewrite (Hinvalid Hm Hv).
    symmetry. apply (getNotifications_profile workers jobs user w Hu Hp).
  - intros Hm. rewrite (Hother Hm).
    symmetry. apply (getNotifications_profile workers jobs user w Hu Hp).
Qed.

Lemma dispatch_adds_one_unread_witness :
  exists views,
    getNotifications
      (snd (sendNotificationsToMatchingWorkers 1700000000000 Sample.bathroomLeak
              Sample.workers))
      [Sample.bathroomLeak] Sample.raj
    = SendsNotifications views 1
    /\ In (newJobNotification 1700000000000 Sample.bathroomLeak) (map fst views).
Proof.
  apply (proj1 (dispatch_adds_one_unread 1700000000000 Sample.bathroomLeak Sample.workers
                  [Sample.bathroomLeak] Sample.raj Sample.rajProfile "plumbing"
                  sample_workers_distinct eq_refl eq_refl eq_refl (or_introl eq_refl)));
    reflexivity.
Defined.
(* ================================================================= *)
(** * A new location and the nearby jobs *)

(** X28. After a location update that [validateCoordinates] accepts and
    that is not the origin, the nearby-jobs route answers the worker from
    the new point: status 200, the query centred on it, and every
    distance measured from its coordinates. *)
Theorem updateLocation_then_nearby (parseFloatString : string -> float) (M : MathLib)
        (nearSphere : GeoPoint -> float -> option GeoPoint -> bool)
        (workers : list Worker) (jobs : list Job) (user : User) (w : Worker)
        (latitude longitude : JSValue) (loc : GeoPoint) :
  isWorker user -> profileOf user workers = Some w ->
  validateCoordinates parseFloatString latitude longitude = Some loc ->
  isOrigin (parseFloat parseFloatString latitude) (parseFloat parseFloatString longitude)
  = false ->
  profileOf user (snd (updateLocation parseFloatString workers user latitude longitude))
  = Some (setLocation loc w)
  /\ nearbyJobs M nearSphere
       (snd (updateLocation parseFloatString workers user latitude longitude)) jobs user
     = res_json (JObject
         [("success", JBool true);
          ("count", JInt (Z.of_nat (List.length
                       (findNearbyJobs nearSphere (nearbyQuery (setLocation loc w) loc) jobs))));
          ("data", JArray
             (map (fun j => JObject (approximateJob M (coordinates loc) j))
                  (findNearbyJobs nearSphere (nearbyQuery (setLocation loc w) loc) jobs)))])
  /\ q_geometry (nearbyQuery (setLocation loc w) loc) = loc
  /\ q_category (nearbyQuery (setLocation loc w) loc) = categoryClause (w_categories w).
Proof.
  unfold isWorker, profileOf. intros Hu Hp Hv Ho.
  destruct (find_findOneAndSetLocation (user_id user) loc workers w Hp) as [H1 H2].
  assert (Hs : snd (updateLocation parseFloatString workers user latitude longitude)
               = snd (findOneAndSetLocation (user_id user) loc workers)).
  { unfold updateLocation. rewrite Hu, Hv.
    change (negb ("worker" =? "worker")%string) with false. cbv iota.
    destruct (findOneAndSetLocation (user_id user) loc workers) as [[x|] l];
      [reflexivity|discriminate]. }
  rewrite Hs. split; [exact H2|]. split; [|split; reflexivity].
  unfold nearbyJobs. rewrite Hu.
  change (negb ("worker" =? "worker")%string) with false. cbv iota.
  rewrite H2. cbn [w_location setLocation].
  assert (Hr : locationRejected (setLocation loc w) = false).
  { unfold locationRejected. cbn [w_location setLocation].
    rewrite (validateCoordinates_some _ _ _ _ Hv). cbn [coordinates List.length Nat.eqb negb orb].
    unfold isOrigin in Ho. unfold elem. cbn [nth]. exact Ho. }
  rewrite Hr. rewrite length_map, map_map. reflexivity.
Qed.

Lemma updateLocation_then_nearby_witness :
  statusCode
    (nearbyJobs Sample.smallAngleMath Sample.everywhere
       (snd (updateLocation Sample.noNumber Sample.workers Sample.deepak
               (JSNum 28.6139) (JSNum 77.2090)))
       [Sample.bathroomLeak] Sample.deepak)
  = 200.
Proof.
  rewrite (proj1 (proj2 (updateLocation_then_nearby Sample.noNumber Sample.smallAngleMath
                           Sample.everywhere Sample.workers [Sample.bathroomLeak]
                           Sample.deepak Sample.deepakProfile
                           (JSNum 28.6139) (JSNum 77.2090) Sample.delhi
                           eq_refl eq_refl eq_refl eq_refl))).
  reflexivity.
Defined.

(* ================================================================= *)
(** * The error middleware *)

(** What the middleware sends when it does not throw: the answer built
    from the last value of its [error] variable, which the last check
    that applies has set. *)
Lemma errorHandler_shape (development : bool) (err : Middleware.JSError) (r : Response) :
  Middleware.errorHandler development err = Some r ->
  exists error : Middleware.ErrorState,
    r = mkResponse
          (match fst error with Some (S n) => S n | _ => 500%nat end)
          (JObject
             ([("success", JBool false);
               ("error", JString (match snd error with
                                  | EmptyString => "Server Error"
                                  | m => m
                                  end))]
              ++ (if development
                  then [("stack", JString (Middleware.e_stack err));
                        ("errorName", JString (Middleware.e_name err))]
                  else []))%list)
    /\ (Middleware.codeIsString "LIMIT_UNEXPECTED_FILE" (Middleware.e_code err) = true ->
        error = (Some 400%nat, "Unexpected file type"))
    /\ (Middleware.codeIsString "LIMIT_UNEXPECTED_FILE" (Middleware.e_code err) = false ->
        Middleware.codeIsString "LIMIT_FILE_SIZE" (Middleware.e_code err) = true ->
        error = (Some 400%nat, "File size too large"))
    /\ (Middleware.codeIsString "LIMIT_UNEXPECTED_FILE" (Middleware.e_code err) = false ->
        Middleware.codeIsString "LIMIT_FILE_SIZE" (Middleware.e_code err) = false ->
        String.eqb (Middleware.e_name err) "TokenExpiredError" = false ->
        String.eqb (Middleware.e_name err) "JsonWebTokenError" = false ->
        String.eqb (Middleware.e_name err) "ValidationError" = false ->
        Middleware.codeIsNumber 11000 (Middleware.e_code err) = true ->
        exists field rest,
          Middleware.e_keyValue err = Some (field :: rest)
          /\ error = (Some 400%nat, (Middleware.capitalize field ++ " already exists")%string)).
Proof.
  unfold Middleware.errorHandler. cbv zeta.
  destruct (Middleware.codeIsNumber 11000 (Middleware.e_code err)) eqn:E2.
  - destruct (Middleware.e_keyValue err) as [[|field rest]|]; try discriminate.
    destruct (String.eqb (Middleware.e_name err) "ValidationError") eqn:E3.
    + destruct (Middleware.e_errors err) as [messages|]; [|discriminate].
      intros H. injection H as <-. eexists. split; [reflexivity|].
      split; [intros ->; reflexivity|].
      split; [intros -> ->; reflexivity|]. intros _ _ _ _ H. discriminate.
    + intros H. injection H as <-. eexists. split; [reflexivity|].
      split; [intros ->; reflexivity|].
      split; [intros -> ->; reflexivity|]. intros -> -> -> -> _ _.
      exists field, rest. split; reflexivity.
  - destruct (String.eqb (Middleware.e_name err) "ValidationError") eqn:E3.
    + destruct (Middleware.e_errors err) as [messages|]; [|discriminate].
      intros H. injection H as <-. eexists. split; [reflexivity|].
      split; [intros ->; reflexivity|].
      split; [intros -> ->; reflexivity|]. intros _ _ _ _ _ H. discriminate.
    + intros H. injection H as <-. eexists. split; [reflexivity|].
      split; [intros ->; reflexivity|].
      split; [intros -> ->; reflexivity|]. intros _ _ _ _ _ H. discriminate.
Qed.

(** X29. The error middleware answers an [ErrorResponse] that has a
    message and a status code with that status code and
    [{ success: false, error: message }].  Whatever the error, an answer
    has [success: false]; the two upload codes are answered with status
    400 and their own message, whatever the name of the error; a
    duplicate key is answered with status 400 and the first key,
    capitalised, followed by 'already exists', unless the name is one the
    later checks know. *)
Theorem errorHandler_answers :
  (forall message code,
      message <> "" -> code <> 0%nat ->
      Middleware.errorHandler false (Middleware.ErrorResponse message code)
      = Some (errorHandler message code))
  /\ (forall development err r,
        Middleware.errorHandler development err = Some r ->
        Obj.get "success" (bodyProps r) = Some (JBool false)
        /\ statusCode r <> 0%nat
        /\ (Middleware.e_code err = Middleware.StringCode "LIMIT_UNEXPECTED_FILE" ->
            statusCode r = 400%nat
            /\ Obj.get "error" (bodyProps r) = Some (JString "Unexpected file type"))
        /\ (Middleware.e_code err = Middleware.StringCode "LIMIT_FILE_SIZE" ->
            statusCode r = 400%nat
            /\ Obj.get "error" (bodyProps r) = Some (JString "File size too large"))
        /\ (Middleware.e_code err = Middleware.NumberCode 11000 ->
            Middleware.e_name err <> "ValidationError" ->
            Middleware.e_name err <> "JsonWebTokenError" ->
            Middleware.e_name err <> "TokenExpiredError" ->
            exists field rest,
              Middleware.e_keyValue err = Some (field :: rest)
              /\ statusCode r = 400%nat
              /\ Obj.get "error" (bodyProps r)
                 = Some (JString (Middleware.capitalize field ++ " already exists")%string)))
  /\ Middleware.capitalize "email" = "Email".
Proof.
  split; [|split; [|reflexivity]].
  - intros message code Hm Hc. unfold Middleware.errorHandler, Middleware.ErrorResponse.
    cbn. destruct code as [|n]; [congruence|]. destruct message as [|c m]; [congruence|].
    reflexivity.
  - intros development err r H.
    destruct (errorHandler_shape development err r H) as (error & -> & H1 & H2 & H3).
    split; [reflexivity|]. split; [|split; [|split]].
    + cbn [statusCode]. destruct (fst error) as [[|n]|]; discriminate.
    + intros Hc. rewrite Hc in H1. rewrite (H1 eq_refl). split; reflexivity.
    + intros Hc. rewrite Hc in H2. rewrite (H2 eq_refl eq_refl). split; reflexivity.
    + intros Hc Hn1 Hn2 Hn3. rewrite Hc in H3.
      apply String.eqb_neq in Hn1, Hn2, Hn3.
      destruct (H3 eq_refl eq_refl Hn3 Hn2 Hn1 eq_refl) as (field & rest & Hk & ->).
      exists field, rest. split; [exact Hk|]. split; [reflexivity|].
      unfold bodyProps. cbn [body fst snd app Obj.get String.eqb Ascii.eqb Bool.eqb].
      destruct (Middleware.capitalize field); reflexivity.
Qed.

(* ================================================================= *)
(** * The auth middleware *)

Lemma prefix_app (p t : string) : String.prefix p (p ++ t) = true.
Proof.
  induction p as [|c r IH]; simpl.
  - destruct t; reflexivity.
  - destruct (Ascii.ascii_dec c c) as [_|H]; [exact IH|contradiction].
Qed.

Lemma dropChars_app (p t : string) : Middleware.dropChars (String.length p) (p ++ t) = t.
Proof.
  induction p as [|c r IH]; simpl; [destruct t; reflexivity|exact IH].
Qed.

Lemma replace_prefix (p t : string) : Middleware.replace p "" (p ++ t) = t.
Proof.
  destruct (p ++ t)%string as [|c r] eqn:E.
  - destruct p; [simpl in E; subst; reflexivity|discriminate].
  - rewrite <- E. destruct p as [|a q].
    + simpl in *. subst t. simpl. reflexivity.
    + cbn [Middleware.replace append]. change (String a (q ++ t)) with (String a q ++ t)%string.
      rewrite prefix_app, dropChars_app. reflexivity.
Qed.

Lemma replace_absent (p s : string) :
  JSString.includes p s = false -> Middleware.replace p "" s = s.
Proof.
  induction s as [|c r IH]; cbn [JSString.includes Middleware.replace]; intros H.
  - apply orb_false_elim in H. destruct H as [H _]. rewrite H. reflexivity.
  - apply orb_false_elim in H. destruct H as [H1 H2]. rewrite H1, (IH H2). reflexivity.
Qed.

(** X30. The auth middleware lets a request through exactly when the
    Authorization header, with its first 'Bearer ' taken out, is a token
    that is not empty and verifies to the id of a stored user, who is then
    the request's user; every other request is answered with status 401.
    A header 'Bearer T' and a header that is T alone are both read as the
    token T. *)
Theorem auth_lets_through (verify : string -> Middleware.Verdict) (users : list User)
        (authorization : option string) :
  (forall user token,
      Middleware.auth verify users authorization = inr (user, token) <->
      exists header id,
        authorization = Some header
        /\ token = Middleware.replace "Bearer " "" header
        /\ token <> ""
        /\ verify token = Middleware.DecodedId id
        /\ find (fun u => N.eqb (user_id u) id) users = Some user)
  /\ (forall r, Middleware.auth verify users authorization = inl r -> statusCode r = 401%nat)
  /\ (forall t, JSString.includes "Bearer " t = false ->
                Middleware.auth verify users (Some ("Bearer " ++ t)%string)
                = Middleware.auth verify users (Some t)).
Proof.
  split; [|split].
  - intros user token. unfold Middleware.auth. split.
    + destruct authorization as [header|]; cbn [option_map]; [|discriminate].
      destruct (Middleware.replace "Bearer " "" header) as [|c t] eqn:Et; [discriminate|].
      destruct (verify (String c t)) as [id| | | |] eqn:Ev; try discriminate.
      destruct (find (fun u => N.eqb (user_id u) id) users) as [u|] eqn:Ef; [|discriminate].
      intros H. injection H as <- <-. exists header, id.
      rewrite Et. repeat split; try assumption. discriminate.
    + intros (header & id & -> & -> & Hne & Hv & Hf). cbn [option_map].
      destruct (Middleware.replace "Bearer " "" header) as [|c t]; [congruence|].
      rewrite Hv, Hf. reflexivity.
  - intros r. unfold Middleware.auth.
    destruct (option_map (Middleware.replace "Bearer " "") authorization) as [[|c t]|];
      try (intros H; injection H as <-; reflexivity).
    destruct (verify (String c t)) as [id| | | |];
      try (intros H; injection H as <-; reflexivity).
    destruct (find (fun u => N.eqb (user_id u) id) users);
      [discriminate|intros H; injection H as <-; reflexivity].
  - intros t Ei. unfold Middleware.auth. cbn [option_map].
    rewrite (replace_prefix "Bearer " t), (replace_absent "Bearer " t Ei). reflexivity.
Qed.
